(** * Identify_18_BetaTurn_Types: the turn-classification engine

    A shallow embedding of [Identify_18_BetaTurn_Types.py] and the proofs of
    the properties its specification states about it.

    Numbers.  Python's [float] values are idealised as real numbers: the
    dihedral angles, the distances and the constants of the script are
    elements of [R], [math.cos] and [math.acos] are the real cosine and
    arc cosine of the Standard Library, and comparisons are the (decidable in
    [Set]) order of [R].  Rounding error, infinities and NaN are outside the
    model.  Python's [int] is [Z]; [str] is [string].

    Effects.  [main] prints one line per accepted turn, keeps the counter
    [nturns] and the local [minturn] alive across loop iterations, and may
    abort with an exception.  These are threaded through a small state and
    error monad [M].  The state also carries a ghost trace of the arguments
    of every call of [angle_distance] made by [main]. *)

From Stdlib Require Import Reals Lra Lia ZArith List String Ascii Bool.
From Stdlib Require Import DecimalString DecimalZ DecimalPos.
Import ListNotations.

Open Scope R_scope.

(* ================================================================== *)
(** * Python exceptions and results *)

Inductive PyError : Type :=
| ValueError (msg : string)
| KeyError
| IndexError
| UnboundLocalError.

Inductive result (A : Type) : Type :=
| Ok (a : A)
| Raise (e : PyError).

Arguments Ok {A} a.
Arguments Raise {A} e.

(* ================================================================== *)
(** * Python built-ins used by [main] *)

Module Py.

(** Float comparisons, as booleans. *)
Definition Reqb (x y : R) : bool := if Req_dec_T x y then true else false.
Definition Rltb (x y : R) : bool := if Rlt_dec x y then true else false.
Definition Rleb (x y : R) : bool := if Rle_dec x y then true else false.
Definition Rgtb (x y : R) : bool := if Rgt_dec x y then true else false.

(** Hashable keys of a dictionary, with their equality test: strings, and
    pairs of strings. *)
Class PyKey (K : Type) : Type := {
  key_eqb : K -> K -> bool
}.

#[global] Instance string_key : PyKey string :=
  {| key_eqb := String.eqb |}.

Definition pair_eqb (a b : string * string) : bool :=
  String.eqb (fst a) (fst b) && String.eqb (snd a) (snd b).

#[global] Instance tuple_key : PyKey (string * string) :=
  {| key_eqb := pair_eqb |}.

(** A dictionary keyed by any hashable type, in insertion order. *)
Definition pydict (K V : Type) : Type := list (K * V).

Fixpoint get {K V : Type} `{PyKey K} (d : pydict K V) (k : K) : option V :=
  match d with
  | [] => None
  | (k', v) :: d' => if key_eqb k' k then Some v else get d' k
  end.

(** [d[k]] *)
Definition subscript {K V : Type} `{PyKey K} (d : pydict K V) (k : K) : result V :=
  match get d k with
  | Some v => Ok v
  | None => Raise KeyError
  end.

(** [d.get(k, default)] *)
Definition get_default {K V : Type} `{PyKey K} (d : pydict K V) (k : K) (default : V) : V :=
  match get d k with
  | Some v => v
  | None => default
  end.

(** [xs[i]] for a list and a non-negative index. *)
Definition index {A : Type} (xs : list A) (i : nat) : result A :=
  match nth_error xs i with
  | Some x => Ok x
  | None => Raise IndexError
  end.

(** [str(n)] and [int(s)] for an integer: decimal digits with a leading
    minus sign for negative numbers.  [main] applies [int] to strings that
    [str] produced; on other strings Python's [int] accepts more (blanks
    around the digits, a plus sign, underscores). *)
Definition str_of_int (n : Z) : string := NilZero.string_of_int (Z.to_int n).

Definition int_literal_msg : string := "invalid literal for int() with base 10".

Definition int_of_str (s : string) : result Z :=
  match NilZero.int_of_string s with
  | Some d => Ok (Z.of_int d)
  | None => Raise (ValueError int_literal_msg)
  end.

(** [s.startswith(p)], [s.endswith(p)] and [p in s] on strings. *)
Definition startswith (s p : string) : bool := String.prefix p s.

Definition endswith (s p : string) : bool :=
  let n := String.length s in
  let m := String.length p in
  (m <=? n)%nat && String.eqb (String.substring (n - m) m s) p.

Fixpoint contains (p s : string) : bool :=
  String.prefix p s ||
  match s with
  | EmptyString => false
  | String _ s' => contains p s'
  end.

(** [round(x, ndigits)]: the nearest multiple of [10^-ndigits], ties to the
    even multiple. *)
Definition round_half_even (y : R) : Z :=
  let f := Int_part y in
  let r := y - IZR f in
  if Rlt_dec r (1 / 2) then f
  else if Rgt_dec r (1 / 2) then (f + 1)%Z
  else if Z.even f then f else (f + 1)%Z.

Definition round (x : R) (ndigits : Z) : R :=
  IZR (round_half_even (x * IZR (10 ^ ndigits))) / IZR (10 ^ ndigits).

End Py.

(* ================================================================== *)
(** * The angular metric (source lines 24-41) *)

Module Metric.

(** [TURN_DIST_CUTOFF = 0.2359] *)
Definition TURN_DIST_CUTOFF : R := 0.2359.

(** [math.radians] and [math.degrees]. *)
Definition radians (x : R) : R := x * (PI / 180).
Definition degrees (x : R) : R := x * (180 / PI).

(** [angle_distance(angle1, angle2)] *)
Definition angle_distance (angle1 angle2 : R) : R :=
  let delta := angle1 - angle2 in
  let delta_rad := radians delta in
  let delta_cos := cos delta_rad in
  let distance := 2.0 * (1.0 - delta_cos) in
  distance.

(** [math.acos] raises [ValueError] outside [-1, 1]. *)
Definition math_acos (x : R) : result R :=
  if Rlt_dec x (-1) then Raise (ValueError "math domain error")
  else if Rgt_dec x 1 then Raise (ValueError "math domain error")
  else Ok (acos x).

Definition theta_domain_msg : string :=
  "D must be in the range [0, 4] for a real solution.".

(** [find_theta_in_degrees(D)] *)
Definition find_theta_in_degrees (D : R) : result R :=
  if Rlt_dec D 0 then Raise (ValueError theta_domain_msg)
  else if Rgt_dec D 4 then Raise (ValueError theta_domain_msg)
  else
    let cos_theta := 1.0 - D / 2.0 in
    match math_acos cos_theta with
    | Raise e => Raise e
    | Ok theta_rad =>
        let theta_deg := degrees theta_rad in
        Ok theta_deg
    end.

End Metric.

(* ================================================================== *)
(** * The turn library (source lines 53-218) *)

Module Library.

(** One entry of the dictionary returned by [define_turn_library].  [main]
    reads only the seven [medoid_*] angles and [prev_name] of an entry; the
    record keeps these together with the identity keys ([no_by_size],
    [cluster_size], [bturn_name]).  The remaining keys of the source
    (frequency, the Ca1-Ca4 statistics, the [mode_*] values and the medoid's
    sequence, secondary structure and PDB origin) are never read. *)
Record TurnCluster : Type := mkTurnCluster {
  no_by_size : Z;
  cluster_size : Z;
  bturn_name : string;
  prev_name : string;
  medoid_omega2 : R;
  medoid_phi2 : R;
  medoid_psi2 : R;
  medoid_omega3 : R;
  medoid_phi3 : R;
  medoid_psi3 : R;
  medoid_omega4 : R
}.

(** [define_turn_library()]: a dictionary in insertion order, the order in
    which [for turn in turnlibrary] visits its keys. *)
Definition define_turn_library : Py.pydict string TurnCluster := [
  ("AD", mkTurnCluster 1 6413 "AD" "I"
      184.88 (-65.27) (-23.52) 182.83 (-98.73) (-18.06) 181.10);
  ("Pd", mkTurnCluster 2 1556 "Pd" "II"
      178.69 (-55.28) 132.76 175.53 82.38 (-2.88) 179.60);
  ("Pa", mkTurnCluster 3 802 "Pa" "new_prev_II"
      180.97 (-79.76) 149.11 170.92 61.47 32.21 180.14);
  ("ad", mkTurnCluster 4 748 "ad" "I'"
      177.14 54.08 37.14 174.19 77.07 7.66 182.45);
  ("AB1", mkTurnCluster 5 648 "AB1" "new_prev_VIII"
      178.29 (-76.75) (-33.07) 180.05 (-137.67) 155.99 179.53);
  ("AZ", mkTurnCluster 6 625 "AZ" "new_prev_VIII"
      181.51 (-83.81) (-17.76) 182.70 (-128.88) 61.72 177.81);
  ("AB2", mkTurnCluster 7 603 "AB2" "VIII"
      179.88 (-76.37) (-33.97) 184.30 (-116.48) 120.10 183.38);
  ("pD", mkTurnCluster 8 402 "pD" "II'"
      177.42 56.16 (-135.60) 183.17 (-90.92) 4.81 180.04);
  ("AG", mkTurnCluster 9 166 "AG" "new_prev_VIII"
      184.32 (-71.78) (-15.84) 187.19 (-87.70) 74.65 181.63);
  ("BcisP", mkTurnCluster 10 135 "BcisP" "VIb"
      176.27 (-127.05) 120.42 358.00 (-65.63) 161.27 182.14);
  ("dD", mkTurnCluster 11 131 "dD" "new"
      182.57 99.89 (-17.34) 185.02 (-113.78) 9.87 180.65);
  ("PcisD", mkTurnCluster 12 125 "PcisD" "VIa1"
      175.04 (-59.70) 144.37 9.21 (-92.77) 8.32 175.56);
  ("dN", mkTurnCluster 13 102 "dN" "new"
      178.53 76.06 (-3.15) 179.31 (-122.82) (-50.46) 179.84);
  ("Dd", mkTurnCluster 14 87 "Dd" "new"
      177.54 (-99.08) 19.56 173.80 108.72 (-14.53) 182.16);
  ("PcisP", mkTurnCluster 15 59 "PcisP" "new_prev_VIb"
      183.55 (-78.86) 145.45 353.82 (-78.06) 140.34 178.16);
  ("cisDA", mkTurnCluster 16 52 "cisDA" "new"
      0.14 (-97.53) 3.93 184.13 (-66.86) (-35.89) 182.02);
  ("pG", mkTurnCluster 17 32 "pG" "new"
      188.70 68.28 (-139.60) 178.07 (-79.92) 121.91 175.54);
  ("cisDP", mkTurnCluster 18 25 "cisDP" "new"
      11.10 (-86.47) 4.44 169.99 (-71.39) 157.80 175.12)
]%string.

End Library.

(* ================================================================== *)
(** * The structure provider (Bio.PDB) *)

Module Bio.

(** [Bio.PDB.vectors.Vector] *)
Record Vector : Type := mkVector { vx : R; vy : R; vz : R }.

(** [v1 - v2] and [v.norm()] *)
Definition vsub (a b : Vector) : Vector :=
  mkVector (vx a - vx b) (vy a - vy b) (vz a - vz b).

Definition norm (v : Vector) : R :=
  sqrt (vx v * vx v + vy v * vy v + vz v * vz v).

(** A residue: its [id] is the triple (hetero flag, sequence number,
    insertion code); its atoms are looked up by name.  The subscript chain
    [structure[model.id][chain.id][residue.id][name]] of the source reaches
    the atom [name] of [residue] itself, since a chain maps the id of each of
    its residues to that residue. *)
Record Residue : Type := mkResidue {
  res_id : string * Z * string;
  resname : string;
  atoms : Py.pydict string Vector
}.

(** [residue.id[1]] *)
Definition seqnum (r : Residue) : Z := snd (fst (res_id r)).

(** [residue.has_id(name)] *)
Definition has_id (r : Residue) (name : string) : bool :=
  match Py.get (atoms r) name with
  | Some _ => true
  | None => false
  end.

(** [residue[name].get_vector()] *)
Definition get_vector (r : Residue) (name : string) : result Vector :=
  Py.subscript (atoms r) name.

Record Chain : Type := mkChain {
  chain_id : string;
  residues : list Residue
}.

Record Model : Type := mkModel {
  model_id : Z;
  chains : list Chain
}.

Definition Structure : Type := list Model.

(** The two library functions the script calls on residues and vectors:
    [calc_dihedral] (the signed dihedral of four points, in radians) and
    [is_aa] (whether a residue is an amino acid). *)
Class BioPDB : Type := {
  calc_dihedral : Vector -> Vector -> Vector -> Vector -> R;
  is_aa : Residue -> bool
}.

End Bio.

(* ================================================================== *)
(** * The state and error monad of [main] *)

Module Run.

Import Py Bio.

(** What one [print] of a turn writes: the values interpolated into the
    format string, before formatting. *)
Record TurnLine : Type := mkTurnLine {
  t_num : Z;
  t_chn : string;
  t_res1 : Z;
  t_res4 : Z;
  t_seq : string;
  t_dssp : string;
  t_type : string;
  t_prev_name : string;
  t_Dist : R;
  t_DistAng : R;
  t_CA1_CA4 : R;
  t_omega2 : R;
  t_phi2 : R;
  t_psi2 : R;
  t_omega3 : R;
  t_phi3 : R;
  t_psi3 : R;
  t_omega4 : R;
  t_filename : string
}.

Inductive OutLine : Type :=
| Header
| Turn (t : TurnLine).

(** The locals of [main] that outlive one loop iteration ([nturns],
    [minturn], unbound until first assigned), the lines written to standard
    output and standard error, and the ghost trace [dist_calls] of the
    argument pairs [angle_distance] was called with. *)
Record RunState : Type := mkRunState {
  nturns : Z;
  minturn : option string;
  stdout : list OutLine;
  stderr : list string;
  dist_calls : list (R * R)
}.

Definition initial : RunState := mkRunState 0 None [] [] [].

(** A computation of [main]: from a state, a value or an exception, and the
    state reached (what was printed before an exception stays printed). *)
Definition M (A : Type) : Type := RunState -> result A * RunState.

Class Monad (m : Type -> Type) : Type := {
  ret : forall {A : Type}, A -> m A;
  bind : forall {A B : Type}, m A -> (A -> m B) -> m B
}.

#[global] Instance result_monad : Monad result := {|
  ret := fun A a => Ok a;
  bind := fun A B c k => match c with Ok a => k a | Raise e => Raise e end
|}.

#[global] Instance M_monad : Monad M := {|
  ret := fun A a s => (Ok a, s);
  bind := fun A B c k s =>
    match c s with
    | (Ok a, s') => k a s'
    | (Raise e, s') => (Raise e, s')
    end
|}.

Notation "x <- c ;; k" := (bind c (fun x => k))
  (at level 61, c at next level, right associativity).
Notation "c ;; k" := (bind c (fun _ => k))
  (at level 61, right associativity).

(** A pure, possibly failing computation run inside [main]. *)
Definition lift {A : Type} (c : result A) : M A :=
  fun s => (c, s).

Definition incr_nturns : M Z :=
  fun s =>
    let n := (nturns s + 1)%Z in
    (Ok n, mkRunState n (minturn s) (stdout s) (stderr s) (dist_calls s)).

Definition set_minturn (turn : string) : M unit :=
  fun s => (Ok tt, mkRunState (nturns s) (Some turn) (stdout s) (stderr s) (dist_calls s)).

(** Reading a local that was never assigned raises [UnboundLocalError]. *)
Definition read_minturn : M string :=
  fun s => match minturn s with
           | Some turn => (Ok turn, s)
           | None => (Raise UnboundLocalError, s)
           end.

Definition print (l : OutLine) : M unit :=
  fun s => (Ok tt, mkRunState (nturns s) (minturn s) (stdout s ++ [l]) (stderr s) (dist_calls s)).

Definition print_stderr (l : string) : M unit :=
  fun s => (Ok tt, mkRunState (nturns s) (minturn s) (stdout s) (stderr s ++ [l]) (dist_calls s)).

(** A call of [angle_distance] from [main]: the value is that of
    [Metric.angle_distance]; the arguments are recorded in the trace. *)
Definition call_angle_distance (angle1 angle2 : R) : M R :=
  fun s =>
    (Ok (Metric.angle_distance angle1 angle2),
     mkRunState (nturns s) (minturn s) (stdout s) (stderr s)
                (dist_calls s ++ [(angle1, angle2)])).

(** [for x in xs: body(x)] *)
Fixpoint for_each {A : Type} (xs : list A) (body : A -> M unit) : M unit :=
  match xs with
  | [] => ret tt
  | x :: xs' => body x ;; for_each xs' body
  end.

End Run.

(* ================================================================== *)
(** * The dihedral calculator (source lines 554-594) *)

Module Dihedral.

Import Py Bio Run.

Section Calculator.

Context `{BioPDB}.

(** [compute_phi(structure, model, chain, prev_residue, curr_residue)] *)
Definition compute_phi (prev_residue curr_residue : Residue) : result R :=
  let phi := 999.00 in
  if has_id prev_residue "C" &&
     has_id curr_residue "N" &&
     has_id curr_residue "CA" &&
     has_id curr_residue "C" &&
     (seqnum curr_residue =? seqnum prev_residue + 1)%Z
  then
    prev_c <- get_vector prev_residue "C" ;;
    curr_n <- get_vector curr_residue "N" ;;
    curr_a <- get_vector curr_residue "CA" ;;
    curr_c <- get_vector curr_residue "C" ;;
    ret (round (Metric.degrees (calc_dihedral prev_c curr_n curr_a curr_c)) 6)
  else ret phi.

(** [compute_psi(structure, model, chain, curr_residue, next_residue)] *)
Definition compute_psi (curr_residue next_residue : Residue) : result R :=
  let psi := 999.00 in
  if has_id curr_residue "N" &&
     has_id curr_residue "CA" &&
     has_id curr_residue "C" &&
     has_id next_residue "N" &&
     (seqnum next_residue =? seqnum curr_residue + 1)%Z
  then
    curr_n <- get_vector curr_residue "N" ;;
    curr_a <- get_vector curr_residue "CA" ;;
    curr_c <- get_vector curr_residue "C" ;;
    next_n <- get_vector next_residue "N" ;;
    ret (round (Metric.degrees (calc_dihedral curr_n curr_a curr_c next_n)) 6)
  else ret psi.

(** [compute_omega(structure, model, chain, prev_residue, curr_residue)] *)
Definition compute_omega (prev_residue curr_residue : Residue) : result R :=
  let omega := 999.00 in
  if has_id prev_residue "CA" &&
     has_id prev_residue "C" &&
     has_id curr_residue "N" &&
     has_id curr_residue "CA" &&
     (seqnum curr_residue =? seqnum prev_residue + 1)%Z
  then
    prev_ca <- get_vector prev_residue "CA" ;;
    prev_c <- get_vector prev_residue "C" ;;
    curr_n <- get_vector curr_residue "N" ;;
    curr_a <- get_vector curr_residue "CA" ;;
    ret (round (Metric.degrees (calc_dihedral prev_ca prev_c curr_n curr_a)) 6)
  else ret omega.

End Calculator.

End Dihedral.

(* ================================================================== *)
(** * The residue feature table (source lines 44-51 and 751-823) *)

Module Table.

Import Py Bio Run Dihedral.

Local Open Scope string_scope.

(** [getres1(res3)] *)
Definition getres1 (res3 : string) : string :=
  let three21 : pydict string string :=
    [ ("ALA", "A"); ("CYS", "C"); ("ASP", "D"); ("GLU", "E"); ("PHE", "F"); ("GLY", "G");
      ("HIS", "H"); ("ILE", "I"); ("LYS", "K"); ("LEU", "L"); ("MET", "M"); ("ASN", "N");
      ("PRO", "P"); ("GLN", "Q"); ("ARG", "R"); ("SER", "S"); ("THR", "T"); ("VAL", "V");
      ("TRP", "W"); ("TYR", "Y") ]%string in
  match get three21 res3 with
  | Some r => r
  | None => "X"%string
  end.

(** One entry of [datadict[chain1]].  The keys ['model1'] and ['chi1'] to
    ['chi5'] of the source are not read by the turn search and are left
    out, with the [compute_chi*] functions that fill them. *)
Record Row : Type := mkRow {
  row_chain_id : string;
  resnum : Z;
  row_resname : string;
  res1 : string;
  omega : R;
  phi : R;
  psi : R;
  dssp_ss : string;
  three10 : string;
  auth_key : string * string;
  label_key : option (string * string);
  CAcoor : option Vector
}.

(** The two tables parsed from the annotator's output: a row is a dictionary
    from column name to value. *)

Definition AnnotationTable : Type := pydict (string * string) (pydict string string).

(** A key as an f-string shows it (for strings without quote characters). *)
Definition repr_key (k : string * string) : string :=
  "('" ++ fst k ++ "', '" ++ snd k ++ "')".

Section Build.

Context `{BioPDB}.

Variable seqscheme_dict : AnnotationTable.
Variable dssp_dict : AnnotationTable.

(** The body of [for i, res in enumerate(aa_residues)], up to the [append]. *)
Definition build_row (chain1_id : string) (aa_residues : list Residue)
    (i : nat) (res : Residue) : M Row :=
  phi_omega <-
    (if (0 <? i)%nat then
       prev <- lift (index aa_residues (i - 1)) ;;
       phi <- lift (compute_phi prev res) ;;
       omega <- lift (compute_omega prev res) ;;
       ret (phi, omega)
     else ret (999.0, 999.0)) ;;
  psi <-
    (if (i + 1 <? List.length aa_residues)%nat then
       next <- lift (index aa_residues (i + 1)) ;;
       lift (compute_psi res next)
     else ret 999.0) ;;
  let resnum := seqnum res in
  let res3letter := resname res in
  let res1letter := getres1 res3letter in
  let auth_key := (chain1_id, str_of_int resnum) in
  label_key <-
    match get seqscheme_dict auth_key with
    | Some scheme =>
        label_asym_id <- lift (subscript scheme "asym_id") ;;
        label_seq_id <- lift (subscript scheme "seq_id") ;;
        ret (Some (label_asym_id, label_seq_id))
    | None =>
        print_stderr ("Warning: Missing seqscheme_dict entry for " ++ repr_key auth_key) ;;
        ret None
    end ;;
  let dssp_three10 :=
    match label_key with
    | Some key =>
        match get dssp_dict key with
        | Some summary =>
            (get_default summary "secondary_structure" ".",
             get_default summary "helix_3_10" ".")
        | None => ("."%string, "."%string)
        end
    | None => ("."%string, "."%string)
    end in
  let three10 := snd dssp_three10 in
  let dssp_value := if String.eqb (fst dssp_three10) "." then "C"%string else fst dssp_three10 in
  CAcoor <-
    (if has_id res "CA" then v <- lift (get_vector res "CA") ;; ret (Some v)
     else ret None) ;;
  ret (mkRow chain1_id resnum res3letter res1letter (snd phi_omega) (fst phi_omega) psi
             dssp_value three10 auth_key label_key CAcoor).

(** [for i, res in enumerate(aa_residues): ... datadict[chain1].append(...)],
    from index [i] on. *)
Fixpoint build_rows_from (chain1_id : string) (aa_residues : list Residue)
    (i : nat) (todo : list Residue) : M (list Row) :=
  match todo with
  | [] => ret []
  | res :: todo' =>
      row <- build_row chain1_id aa_residues i res ;;
      rows <- build_rows_from chain1_id aa_residues (S i) todo' ;;
      ret (row :: rows)
  end.

(** The body of [for chain1 in model1]: [None] for a chain skipped as too
    short, else the chain's entry of [datadict]. *)
Definition build_chain (chain1 : Chain) : M (option (Chain * list Row)) :=
  let aa_residues := filter is_aa (residues chain1) in
  if (List.length aa_residues <? 4)%nat then ret None
  else
    rows <- build_rows_from (chain_id chain1) aa_residues 0 aa_residues ;;
    ret (Some (chain1, rows)).

Fixpoint build_chains (cs : list Chain) : M (list (Chain * list Row)) :=
  match cs with
  | [] => ret []
  | chain1 :: cs' =>
      entry <- build_chain chain1 ;;
      rest <- build_chains cs' ;;
      ret (match entry with Some e => e :: rest | None => rest end)
  end.

(** [for model1 in structure1: for chain1 in model1: ...]: the entries of
    [datadict] in insertion order. *)
Fixpoint build_datadict (structure1 : Structure) : M (list (Chain * list Row)) :=
  match structure1 with
  | [] => ret []
  | model1 :: ms =>
      here <- build_chains (chains model1) ;;
      rest <- build_datadict ms ;;
      ret (here ++ rest)%list
  end.

End Build.

End Table.

(* ================================================================== *)
(** * The turn search (source lines 826-909) *)

Module Search.

Import Py Bio Run Table Library.

Local Open Scope string_scope.

(** The four entries [datadict[chain][i]] to [datadict[chain][i+3]] that one
    iteration of the inner loop reads.  The loop bound keeps the four
    subscripts in range, so the model reads them together, ahead of the
    checks between which the source reads them. *)
Record Window : Type := mkWindow {
  w1 : Row;
  w2 : Row;
  w3 : Row;
  w4 : Row
}.

Definition get_window (rows : list Row) (i : nat) : result Window :=
  r1 <- index rows i ;;
  r2 <- index rows (i + 1) ;;
  r3 <- index rows (i + 2) ;;
  r4 <- index rows (i + 3) ;;
  ret (mkWindow r1 r2 r3 r4).

(** The locals an iteration has bound when it reaches [minD=100.0]. *)
Record Eligible : Type := mkEligible {
  CA1_CA4_distance : R;
  dssp_string : string;
  omega2 : R;
  phi2 : R;
  psi2 : R;
  omega3 : R;
  phi3 : R;
  psi3 : R;
  omega4 : R
}.

(** [x in (a, b)] *)
Definition in_pair (x a b : string) : bool := String.eqb x a || String.eqb x b.

(** Lines 836-879: the checks that end an iteration with [continue], in the
    order of the source.  [None] is [continue]. *)
Definition gate (w : Window) : option Eligible :=
  match CAcoor (w1 w) with
  | None => None
  | Some vector1 =>
  match CAcoor (w4 w) with
  | None => None
  | Some vector4 =>
  let CA1_CA4_distance := norm (vsub vector1 vector4) in
  let dssp1 := dssp_ss (w1 w) in
  let dssp2 := dssp_ss (w2 w) in
  let dssp3 := dssp_ss (w3 w) in
  let dssp4 := dssp_ss (w4 w) in
  let threeten1 := three10 (w1 w) in
  let threeten2 := three10 (w2 w) in
  let threeten3 := three10 (w3 w) in
  let threeten4 := three10 (w4 w) in
  let dssp_string := ((dssp1 ++ dssp2) ++ dssp3) ++ dssp4 in
  let three10string := ((threeten1 ++ threeten2) ++ threeten3) ++ threeten4 in
  if String.eqb dssp_string "HGGG" then None else
  if String.eqb dssp_string "GGGH" then None else
  if String.eqb dssp_string "GGGG" then None else
  if in_pair dssp2 "H" "E" then None else
  if in_pair dssp3 "H" "E" then None else
  if (startswith dssp_string "GGG" || endswith dssp_string "GGG")
     && negb (contains "3" three10string) then None else
  let omega2 := omega (w2 w) in
  if Reqb omega2 999.0 then None else
  let phi2 := phi (w2 w) in
  if Reqb phi2 999.0 then None else
  let psi2 := psi (w2 w) in
  if Reqb psi2 999.0 then None else
  let omega3 := omega (w3 w) in
  if Reqb omega3 999.0 then None else
  let phi3 := phi (w3 w) in
  if Reqb phi3 999.0 then None else
  let psi3 := psi (w3 w) in
  if Reqb psi3 999.0 then None else
  let omega4 := omega (w4 w) in
  if Reqb omega4 999.0 then None else
  if Rgtb CA1_CA4_distance 7.0 then None else
  Some (mkEligible CA1_CA4_distance dssp_string
                   omega2 phi2 psi2 omega3 phi3 psi3 omega4)
  end
  end.

Section Classifier.

Variable turnlibrary : pydict string TurnCluster.

(** Lines 883-897: the value [D] of one iteration of [for turn in
    turnlibrary]. *)
Definition cluster_distance (e : Eligible) (turn : string) : M R :=
  c <- lift (subscript turnlibrary turn) ;;
  d1 <- call_angle_distance (omega2 e) (medoid_omega2 c) ;;
  d2 <- call_angle_distance (phi2 e) (medoid_phi2 c) ;;
  d3 <- call_angle_distance (psi2 e) (medoid_psi2 c) ;;
  d4 <- call_angle_distance (omega3 e) (medoid_omega3 c) ;;
  d5 <- call_angle_distance (phi3 e) (medoid_phi3 c) ;;
  d6 <- call_angle_distance (psi3 e) (medoid_psi3 c) ;;
  d7 <- call_angle_distance (omega4 e) (medoid_omega4 c) ;;
  ret ((d1 + d2 + d3 + d4 + d5 + d6 + d7) / 7.0).

(** Lines 882-900: [for turn in turnlibrary], over the keys still to visit,
    with the current [minD]; the final [minD] is returned and [minturn] is
    left in the state. *)
Fixpoint library_loop (turns : list string) (e : Eligible) (minD : R) : M R :=
  match turns with
  | [] => ret minD
  | turn :: rest =>
      D <- cluster_distance e turn ;;
      if Rltb D minD then
        set_minturn turn ;;
        library_loop rest e D
      else library_loop rest e minD
  end.

(** The body of [for i in range(len(datadict[chain]) - 3)]. *)
Definition window_step (shortfilename : string) (chain : Chain)
    (rows : list Row) (i : nat) : M unit :=
  w <- lift (get_window rows i) ;;
  match gate w with
  | None => ret tt
  | Some e =>
      let minD := 100.0 in
      minD <- library_loop (map fst turnlibrary) e minD ;;
      if Rleb minD Metric.TURN_DIST_CUTOFF then
        nturns <- incr_nturns ;;
        resnum1 <- lift (int_of_str (snd (auth_key (w1 w)))) ;;
        let resnum4 := (resnum1 + 3)%Z in
        minturn <- read_minturn ;;
        c <- lift (subscript turnlibrary minturn) ;;
        let prevname := prev_name c in
        mintheta <- lift (Metric.find_theta_in_degrees minD) ;;
        let seq := ((res1 (w1 w) ++ res1 (w2 w)) ++ res1 (w3 w)) ++ res1 (w4 w) in
        print (Turn (mkTurnLine nturns (chain_id chain) resnum1 resnum4 seq
                       (dssp_string e) minturn prevname minD mintheta
                       (CA1_CA4_distance e)
                       (omega2 e) (phi2 e) (psi2 e) (omega3 e) (phi3 e) (psi3 e)
                       (omega4 e) shortfilename))
      else ret tt
  end.

(** [for i in range(len(datadict[chain]) - 3)] *)
Definition scan_chain (shortfilename : string) (chain : Chain) (rows : list Row) : M unit :=
  for_each (seq 0 (List.length rows - 3)) (window_step shortfilename chain rows).

(** [for chain in datadict] *)
Definition find_turns (shortfilename : string) (datadict : list (Chain * list Row)) : M unit :=
  for_each datadict (fun entry => scan_chain shortfilename (fst entry) (snd entry)).

End Classifier.

Definition reset_nturns : M unit :=
  fun s => (Ok tt, mkRunState 0 (minturn s) (stdout s) (stderr s) (dist_calls s)).

(** [main()], from the parsed inputs on: the structure, the two annotation
    tables and the file name that tags each line. *)
Definition main `{BioPDB} (shortfilename : string)
    (seqscheme_dict dssp_dict : AnnotationTable) (structure1 : Structure) : M unit :=
  let turnlibrary := define_turn_library in
  datadict <- build_datadict seqscheme_dict dssp_dict structure1 ;;
  reset_nturns ;;
  print Header ;;
  find_turns turnlibrary shortfilename datadict.

End Search.

(* ================================================================== *)
(** * The window gate in the order of the specification *)

Module SpecGate.

Import Py Bio Run Table Search.

Local Open Scope string_scope.

(** The six checks of section 4.2 of the specification, in the order it
    lists them, stopping at the first that fails: (1) both boundary residues
    have a C-alpha coordinate; (2) their distance is at most 7.0; (3) the
    secondary-structure string is none of HGGG, GGGH, GGGG; (4) neither
    middle residue is helix (H) or strand (E); (5) a string that starts or
    ends with GGG needs the character 3 among the 3-10 markers; (6) none of
    the seven dihedrals is the sentinel. *)
Definition gate_in_spec_order (w : Window) : bool :=
  match CAcoor (w1 w), CAcoor (w4 w) with
  | Some ca1, Some ca4 =>
      if negb (Rleb (norm (vsub ca1 ca4)) 7.0) then false else
      let S := ((dssp_ss (w1 w) ++ dssp_ss (w2 w)) ++ dssp_ss (w3 w)) ++ dssp_ss (w4 w) in
      if String.eqb S "HGGG" || String.eqb S "GGGH" || String.eqb S "GGGG" then false else
      if in_pair (dssp_ss (w2 w)) "H" "E" || in_pair (dssp_ss (w3 w)) "H" "E" then false else
      let markers := ((three10 (w1 w) ++ three10 (w2 w)) ++ three10 (w3 w)) ++ three10 (w4 w) in
      if (startswith S "GGG" || endswith S "GGG") && negb (contains "3" markers) then false else
      if Reqb (omega (w2 w)) 999.0 || Reqb (phi (w2 w)) 999.0 || Reqb (psi (w2 w)) 999.0
         || Reqb (omega (w3 w)) 999.0 || Reqb (phi (w3 w)) 999.0 || Reqb (psi (w3 w)) 999.0
         || Reqb (omega (w4 w)) 999.0 then false else
      true
  | _, _ => false
  end.

End SpecGate.

(* ================================================================== *)
(** * The classifier as functions of the window *)

Module Model.

Import Py Bio Run Table Library Search.

Local Open Scope string_scope.

(** The score of a cluster: the mean of the seven per-angle distances
    between the window's dihedrals and the cluster's medoid. *)
Definition mean_distance (e : Eligible) (c : TurnCluster) : R :=
  (Metric.angle_distance (omega2 e) (medoid_omega2 c) +
   Metric.angle_distance (phi2 e) (medoid_phi2 c) +
   Metric.angle_distance (psi2 e) (medoid_psi2 c) +
   Metric.angle_distance (omega3 e) (medoid_omega3 c) +
   Metric.angle_distance (phi3 e) (medoid_phi3 c) +
   Metric.angle_distance (psi3 e) (medoid_psi3 c) +
   Metric.angle_distance (omega4 e) (medoid_omega4 c)) / 7.0.

(** The argument pairs of the seven calls of [angle_distance] for one
    cluster, in call order. *)
Definition calls7 (e : Eligible) (c : TurnCluster) : list (R * R) :=
  [ (omega2 e, medoid_omega2 c); (phi2 e, medoid_phi2 c); (psi2 e, medoid_psi2 c);
    (omega3 e, medoid_omega3 c); (phi3 e, medoid_phi3 c); (psi3 e, medoid_psi3 c);
    (omega4 e, medoid_omega4 c) ].

(** The running pair ([minD], [minturn]) after visiting the given entries. *)
Fixpoint nearest (e : Eligible) (entries : pydict string TurnCluster)
    (minD : R) (minturn : option string) : R * option string :=
  match entries with
  | [] => (minD, minturn)
  | (turn, c) :: rest =>
      if Rltb (mean_distance e c) minD
      then nearest e rest (mean_distance e c) (Some turn)
      else nearest e rest minD minturn
  end.

(** The seven dihedrals of an eligible window and of a cluster's medoid. *)
Definition eligible_angles (e : Eligible) : list R :=
  [omega2 e; phi2 e; psi2 e; omega3 e; phi3 e; psi3 e; omega4 e].

Definition medoid_angles (c : TurnCluster) : list R :=
  [medoid_omega2 c; medoid_phi2 c; medoid_psi2 c; medoid_omega3 c;
   medoid_phi3 c; medoid_psi3 c; medoid_omega4 c].

(** Every key of the dictionary is looked up to its own entry. *)
Definition lookups (lib : pydict string TurnCluster) : Prop :=
  Forall (fun entry => get lib (fst entry) = Some (snd entry)) lib.

(** The key of a row as [main] builds it: the sequence number, printed. *)
Definition keyed_by_resnum (r : Row) : Prop :=
  snd (auth_key r) = str_of_int (resnum r).

(** The secondary-structure code of a row is one character. *)
Definition one_letter_code (r : Row) : Prop := String.length (dssp_ss r) = 1%nat.

(** The secondary-structure string and the 3-10 marker string of a window. *)
Definition window_dssp (w : Window) : string :=
  ((dssp_ss (w1 w) ++ dssp_ss (w2 w)) ++ dssp_ss (w3 w)) ++ dssp_ss (w4 w).

Definition window_three10 (w : Window) : string :=
  ((three10 (w1 w) ++ three10 (w2 w)) ++ three10 (w3 w)) ++ three10 (w4 w).

(** The seven dihedrals a window is classified by. *)
Definition seven_angles (w : Window) : list R :=
  [ omega (w2 w); phi (w2 w); psi (w2 w);
    omega (w3 w); phi (w3 w); psi (w3 w); omega (w4 w) ].

(** The checks of the gate that read coordinates and dihedrals. *)
Definition geometry_resolved (w : Window) : Prop :=
  (exists ca1 ca4, CAcoor (w1 w) = Some ca1 /\ CAcoor (w4 w) = Some ca4 /\
                   norm (vsub ca1 ca4) <= 7.0) /\
  Forall (fun a => a <> 999.0) (seven_angles w).

(** The state after the loop over the library: [minturn] as the loop left
    it, and the calls it made appended to the trace. *)
Definition after_loop (s : RunState) (mt : option string) (calls : list (R * R)) : RunState :=
  mkRunState (nturns s) mt (stdout s) (stderr s) (dist_calls s ++ calls)%list.

(** The line printed for an accepted window: first residue number
    [resnum1], turn number [n], cluster [turn] with entry [c], distance
    [minD]. *)
Definition turn_line (shortfilename : string) (chain : Chain) (w : Window)
    (e : Eligible) (resnum1 n : Z) (turn : string) (c : TurnCluster) (minD : R) : TurnLine :=
  mkTurnLine n (chain_id chain) resnum1 (resnum1 + 3)
             (((res1 (w1 w) ++ res1 (w2 w)) ++ res1 (w3 w)) ++ res1 (w4 w))
             (dssp_string e) turn (prev_name c) minD
             (Metric.degrees (acos (1 - minD / 2)))
             (CA1_CA4_distance e)
             (omega2 e) (phi2 e) (psi2 e) (omega3 e) (phi3 e) (psi3 e) (omega4 e)
             shortfilename.

(** Two angles that differ, by less than a full turn. *)
Definition apart (a b : R) : Prop := 0 < a - b < 360 \/ 0 < b - a < 360.

(** The part of the state the table build leaves alone. *)
Definition same_search_state (s s' : RunState) : Prop :=
  nturns s' = nturns s /\ minturn s' = minturn s /\
  stdout s' = stdout s /\ dist_calls s' = dist_calls s.

(** What [build_row] has put into the row of residue [res] at index [i]. *)
Definition row_of (chain1_id : string) (aa_residues : list Residue) (i : nat)
    (res : Residue) (row : Row) : Prop :=
  resnum row = seqnum res /\
  auth_key row = (chain1_id, str_of_int (seqnum res)) /\
  (phi row <> 999.0 ->
   exists prev, nth_error aa_residues (i - 1) = Some prev /\ (0 < i)%nat /\
                seqnum res = (seqnum prev + 1)%Z) /\
  (omega row <> 999.0 ->
   exists prev, nth_error aa_residues (i - 1) = Some prev /\ (0 < i)%nat /\
                seqnum res = (seqnum prev + 1)%Z).

(** The rows of a chain's table describe, index by index, the amino-acid
    residues of the chain. *)
Definition table_of `{BioPDB} (chain1 : Chain) (rows : list Row) : Prop :=
  forall j row,
    nth_error rows j = Some row ->
    exists res,
      nth_error (filter is_aa (residues chain1)) j = Some res /\
      row_of (chain_id chain1) (filter is_aa (residues chain1)) j res row.

(** Every entry of [datadict] is the table of its chain. *)
Definition tables `{BioPDB} (datadict : list (Chain * list Row)) : Prop :=
  Forall (fun entry => table_of (fst entry) (snd entry)) datadict.

(** What the search adds to the state between two points of a run: lines
    written and calls of [angle_distance] made. *)
Definition printed_since (s s' : RunState) (lines : list OutLine) : Prop :=
  stdout s' = (stdout s ++ lines)%list.

Definition called_since (s s' : RunState) (calls : list (R * R)) : Prop :=
  dist_calls s' = (dist_calls s ++ calls)%list.

(** A call of [angle_distance] on two resolved angles; a printed line whose
    distance is within the cutoff and whose angular deviation is the value
    [find_theta_in_degrees] returns for it. *)
Definition resolved_call (p : R * R) : Prop := fst p <> 999.0 /\ snd p <> 999.0.

Definition sound_line (l : OutLine) : Prop :=
  match l with
  | Header => True
  | Turn t =>
      0 <= t_Dist t <= Metric.TURN_DIST_CUTOFF /\
      Metric.find_theta_in_degrees (t_Dist t) = Ok (t_DistAng t)
  end.

(** From [s] the run has reached [s'] by printing sound lines and making
    resolved calls only. *)
Definition advances (s s' : RunState) : Prop :=
  (exists lines, printed_since s s' lines /\ Forall sound_line lines) /\
  (exists calls, called_since s s' calls /\ Forall resolved_call calls).

(** A result that is a normal return or an exception among the allowed. *)
Definition returns_or (allowed : PyError -> Prop) (r : result unit) : Prop :=
  r = Ok tt \/ exists ex, r = Raise ex /\ allowed ex.

End Model.

(* ================================================================== *)
(** * Sample inputs *)

Module Examples.

Import Py Bio Run Table Library Search.

Local Open Scope string_scope.

(** A stand-in for the structure library: the dihedral of four points is
    read off the third point's first coordinate (in degrees), and every
    residue is an amino acid. *)
Definition sample_bio : BioPDB :=
  {| calc_dihedral := fun _ _ c _ => Metric.radians (vx c);
     is_aa := fun _ => true |}.

(** Four consecutive residues of a chain A (sequence APLV) whose dihedrals,
    under [sample_bio], are the medoid of cluster cisDP. *)
Definition sample_residue (n : Z) (name : string) (n_x ca_x ca_y c_x : R) : Residue :=
  mkResidue (" ", n, " ") name
            [ ("N", mkVector n_x 0 0); ("CA", mkVector ca_x ca_y 0);
              ("C", mkVector c_x 0 0) ].

Definition sample_residues : list Residue :=
  [ sample_residue 1 "ALA" 0 0 0 (-60.0);
    sample_residue 2 "PRO" 11.10 (-86.47) 0 4.44;
    sample_residue 3 "LEU" 169.99 (-71.39) 0 157.80;
    sample_residue 4 "VAL" 175.12 3.0 4 0 ].

Definition sample_chain : Chain := mkChain "A" sample_residues.

(** The annotator's tables cover the two middle residues only. *)
Definition sample_seqscheme : AnnotationTable :=
  [ (("A", "2"), [("asym_id", "A"); ("seq_id", "2")]);
    (("A", "3"), [("asym_id", "A"); ("seq_id", "3")]) ].

Definition sample_dssp : AnnotationTable :=
  [ (("A", "2"), [("secondary_structure", "T"); ("helix_3_10", ".")]);
    (("A", "3"), [("secondary_structure", "T"); ("helix_3_10", ".")]) ].

(** The table [main] builds for [sample_chain]. *)
Definition sample_rows : list Row :=
  [ mkRow "A" 1 "ALA" "A" 999.0 999.0 (-60.0) "C" "." ("A", "1") None
          (Some (mkVector 0 0 0));
    mkRow "A" 2 "PRO" "P" 11.10 (-86.47) 4.44 "T" "." ("A", "2") (Some ("A", "2"))
          (Some (mkVector (-86.47) 0 0));
    mkRow "A" 3 "LEU" "L" 169.99 (-71.39) 157.80 "T" "." ("A", "3") (Some ("A", "3"))
          (Some (mkVector (-71.39) 0 0));
    mkRow "A" 4 "VAL" "V" 175.12 3.0 999.0 "C" "." ("A", "4") None
          (Some (mkVector 3.0 4 0)) ].

Definition sample_window : Window :=
  match sample_rows with
  | [r1; r2; r3; r4] => mkWindow r1 r2 r3 r4
  | _ => mkWindow (mkRow "" 0 "" "" 0 0 0 "" "" ("", "") None None)
                  (mkRow "" 0 "" "" 0 0 0 "" "" ("", "") None None)
                  (mkRow "" 0 "" "" 0 0 0 "" "" ("", "") None None)
                  (mkRow "" 0 "" "" 0 0 0 "" "" ("", "") None None)
  end.

Definition sample_eligible : Eligible :=
  mkEligible (norm (vsub (mkVector 0 0 0) (mkVector 3.0 4 0))) "CTTC"
             11.10 (-86.47) 4.44 169.99 (-71.39) 157.80 175.12.

(** The entry of cluster cisDP, and the line printed for the sample window
    as the first turn of a run on a file named sample. *)
Definition cisDP : TurnCluster :=
  mkTurnCluster 18 25 "cisDP" "new"
                11.10 (-86.47) 4.44 169.99 (-71.39) 157.80 175.12.

Definition sample_line : TurnLine :=
  Model.turn_line "sample" sample_chain sample_window sample_eligible 1 1 "cisDP" cisDP 0.

(** The same window with other annotations: secondary structure GGGC, with
    or without the marker 3 on the second residue; and with a chain break
    before the fourth residue. *)
Definition annotate (r : Row) (ss marker : string) : Row :=
  mkRow (row_chain_id r) (resnum r) (row_resname r) (res1 r)
        (omega r) (phi r) (psi r) ss marker (auth_key r) (label_key r) (CAcoor r).

Definition break_before (r : Row) : Row :=
  mkRow (row_chain_id r) (resnum r) (row_resname r) (res1 r)
        999.0 999.0 (psi r) (dssp_ss r) (three10 r) (auth_key r) (label_key r) (CAcoor r).

Definition ggg_window (marker2 : string) : Window :=
  mkWindow (annotate (w1 sample_window) "G" ">")
           (annotate (w2 sample_window) "G" marker2)
           (annotate (w3 sample_window) "G" "<")
           (annotate (w4 sample_window) "C" ".").

Definition ggg_window_broken : Window :=
  mkWindow (w1 (ggg_window "3")) (w2 (ggg_window "3")) (w3 (ggg_window "3"))
           (break_before (w4 (ggg_window "3"))).

(** The sample window with one dihedral changed: [psi] of the second
    residue moved 60 degrees away from the medoid of cisDP, which leaves the
    window at mean distance 1/7 of that cluster; and [omega] of the fourth
    residue set to 0, at least 175 degrees away from every medoid. *)
Definition set_psi (r : Row) (x : R) : Row :=
  mkRow (row_chain_id r) (resnum r) (row_resname r) (res1 r)
        (omega r) (phi r) x (dssp_ss r) (three10 r) (auth_key r) (label_key r) (CAcoor r).

Definition set_omega (r : Row) (x : R) : Row :=
  mkRow (row_chain_id r) (resnum r) (row_resname r) (res1 r)
        x (phi r) (psi r) (dssp_ss r) (three10 r) (auth_key r) (label_key r) (CAcoor r).

Definition near_window : Window :=
  mkWindow (w1 sample_window) (set_psi (w2 sample_window) 64.44)
           (w3 sample_window) (w4 sample_window).

Definition near_rows : list Row :=
  [w1 near_window; w2 near_window; w3 near_window; w4 near_window].

Definition near_eligible : Eligible :=
  mkEligible (norm (vsub (mkVector 0 0 0) (mkVector 3.0 4 0))) "CTTC"
             11.10 (-86.47) 64.44 169.99 (-71.39) 157.80 175.12.

Definition far_window : Window :=
  mkWindow (w1 sample_window) (w2 sample_window)
           (w3 sample_window) (set_omega (w4 sample_window) 0).

Definition far_rows : list Row :=
  [w1 far_window; w2 far_window; w3 far_window; w4 far_window].

Definition far_eligible : Eligible :=
  mkEligible (norm (vsub (mkVector 0 0 0) (mkVector 3.0 4 0))) "CTTC"
             11.10 (-86.47) 4.44 169.99 (-71.39) 157.80 0.

End Examples.

(* ================================================================== *)
(** * What a search reports *)

Module Report.

Import Py Bio Run Table Library Search Model.

Local Open Scope string_scope.

(** The numbers [n+1], ..., [n+k]. *)
Definition count_from (n : Z) (k : nat) : list Z :=
  map (fun j => (n + 1 + Z.of_nat j)%Z) (seq 0 k).

(** The seven dihedrals a printed line shows. *)
Definition line_angles (t : TurnLine) : list R :=
  [t_omega2 t; t_phi2 t; t_psi2 t; t_omega3 t; t_phi3 t; t_psi3 t; t_omega4 t].

(** The line [t] is what [main] prints for window [i] of the table [rows]
    of [chain]: the window passed the gate, [turn] is a cluster of minimum
    mean distance, within the cutoff, and the fields of [t] are those of the
    window, the cluster and the distance. *)
Definition reports (shortfilename : string) (chain : Chain) (rows : list Row)
    (i : nat) (t : TurnLine) : Prop :=
  exists w e turn c resnum1,
    get_window rows i = Ok w /\ gate w = Some e /\
    In (turn, c) define_turn_library /\
    get define_turn_library turn = Some c /\
    (forall other, In other define_turn_library ->
                   mean_distance e c <= mean_distance e (snd other)) /\
    mean_distance e c <= Metric.TURN_DIST_CUTOFF /\
    int_of_str (snd (auth_key (w1 w))) = Ok resnum1 /\
    t = turn_line shortfilename chain w e resnum1 (t_num t) turn c (mean_distance e c).

(** From [s] a part of the search has reached [s'] with result [r]: it has
    printed turn lines only, each satisfying [Q], numbered on from the
    counter of [s]; it has written nothing to standard error; and on a
    normal return the counter has advanced by the number of lines. *)
Definition search_step (Q : TurnLine -> Prop) (s : RunState) (r : result unit)
    (s' : RunState) : Prop :=
  exists ts,
    printed_since s s' (map Turn ts) /\
    Forall Q ts /\
    map t_num ts = count_from (nturns s) (List.length ts) /\
    stderr s' = stderr s /\
    (r = Ok tt -> nturns s' = (nturns s + Z.of_nat (List.length ts))%Z).

(** A line of the search over [datadict]: it reports a window of one of
    its chains. *)
Definition reported_from (shortfilename : string) (datadict : list (Chain * list Row))
    (t : TurnLine) : Prop :=
  exists chain rows i,
    In (chain, rows) datadict /\ (i + 3 < List.length rows)%nat /\
    reports shortfilename chain rows i t.

End Report.

(* ================================================================== *)
(** * What the table build produces *)

Module TableSpec.

Import Py Bio Run Dihedral Table Model.

Local Open Scope string_scope.

(** The line [main] writes to standard error for a residue whose key is
    not in the correspondence table. *)
Definition missing_warning (key : string * string) : string :=
  "Warning: Missing seqscheme_dict entry for " ++ repr_key key.

(** The key of a residue of the chain [chain1_id]. *)
Definition auth_key_of (chain1_id : string) (res : Residue) : string * string :=
  (chain1_id, str_of_int (seqnum res)).

(** The fields of the row of residue [res], at index [i] of [aa_residues],
    that come from the structure: identity, C-alpha coordinate, and the
    dihedrals computed with the neighbours (the sentinel where the chain
    ends). *)
Definition residue_fields `{BioPDB} (chain1_id : string) (aa_residues : list Residue)
    (i : nat) (res : Residue) (row : Row) : Prop :=
  row_chain_id row = chain1_id /\
  resnum row = seqnum res /\
  row_resname row = resname res /\
  res1 row = getres1 (resname res) /\
  auth_key row = auth_key_of chain1_id res /\
  CAcoor row = get (atoms res) "CA" /\
  (i = 0%nat -> phi row = 999.0 /\ omega row = 999.0) /\
  ((0 < i)%nat ->
   exists prev, nth_error aa_residues (i - 1) = Some prev /\
                compute_phi prev res = Ok (phi row) /\
                compute_omega prev res = Ok (omega row)) /\
  ((i + 1)%nat = List.length aa_residues -> psi row = 999.0) /\
  ((i + 1 < List.length aa_residues)%nat ->
   exists next, nth_error aa_residues (i + 1) = Some next /\
                compute_psi res next = Ok (psi row)).

(** The annotation fields of a row whose label key is [label]: the
    secondary-structure code and 3-10 marker of the annotator's summary, with
    "C" for a missing code or the code "." and "." for a missing marker. *)
Definition annotation_fields (dssp_dict : AnnotationTable)
    (label : option (string * string)) (row : Row) : Prop :=
  label_key row = label /\
  match label with
  | Some key =>
      match get dssp_dict key with
      | Some summary =>
          dssp_ss row =
          (if String.eqb (get_default summary "secondary_structure" ".") "."
           then "C" else get_default summary "secondary_structure" ".") /\
          three10 row = get_default summary "helix_3_10" "."
      | None => dssp_ss row = "C" /\ three10 row = "."
      end
  | None => dssp_ss row = "C" /\ three10 row = "."
  end.

(** What [build_row] returns for residue [res] from state [s]: with no
    correspondence entry, a row annotated as coil and one warning; with an
    entry that has both label columns, a row annotated through it and no
    warning; with an entry that lacks one, [KeyError]. *)
Definition row_result `{BioPDB} (seqscheme_dict dssp_dict : AnnotationTable)
    (chain1_id : string) (aa_residues : list Residue) (i : nat) (res : Residue)
    (s : RunState) (out : result Row * RunState) : Prop :=
  match get seqscheme_dict (auth_key_of chain1_id res) with
  | None =>
      stderr (snd out) = (stderr s ++ [missing_warning (auth_key_of chain1_id res)])%list /\
      exists row, fst out = Ok row /\
                  residue_fields chain1_id aa_residues i res row /\
                  annotation_fields dssp_dict None row
  | Some scheme =>
      stderr (snd out) = stderr s /\
      match get scheme "asym_id", get scheme "seq_id" with
      | Some asym, Some seq_id =>
          exists row, fst out = Ok row /\
                      residue_fields chain1_id aa_residues i res row /\
                      annotation_fields dssp_dict (Some (asym, seq_id)) row
      | _, _ => fst out = Raise KeyError
      end
  end.

(** Every entry of the correspondence table has the two label columns. *)
Definition complete_scheme (seqscheme_dict : AnnotationTable) : Prop :=
  Forall (fun entry => get (snd entry) "asym_id" <> None /\
                       get (snd entry) "seq_id" <> None)
         seqscheme_dict.

(** The residues of a list whose key is not in the correspondence table. *)
Definition unmapped (seqscheme_dict : AnnotationTable) (chain1_id : string)
    (aa_residues : list Residue) : list Residue :=
  filter (fun res => match get seqscheme_dict (auth_key_of chain1_id res) with
                     | Some _ => false
                     | None => true
                     end)
         aa_residues.

(** The annotation fields of the row of residue [res], by the residue's
    entry in the correspondence table. *)
Definition row_annotated (seqscheme_dict dssp_dict : AnnotationTable)
    (chain1_id : string) (res : Residue) (row : Row) : Prop :=
  match get seqscheme_dict (auth_key_of chain1_id res) with
  | None => annotation_fields dssp_dict None row
  | Some scheme =>
      exists asym seq_id,
        get scheme "asym_id" = Some asym /\ get scheme "seq_id" = Some seq_id /\
        annotation_fields dssp_dict (Some (asym, seq_id)) row
  end.

(** The residue has an entry in the correspondence table that lacks one of
    the two label columns. *)
Definition lacks_label (seqscheme_dict : AnnotationTable) (chain1_id : string)
    (res : Residue) : Prop :=
  exists scheme,
    get seqscheme_dict (auth_key_of chain1_id res) = Some scheme /\
    (get scheme "asym_id" = None \/ get scheme "seq_id" = None).

(** The warnings written for a list of residues. *)
Definition warnings_for (seqscheme_dict : AnnotationTable) (chain1_id : string)
    (aa_residues : list Residue) : list string :=
  map (fun res => missing_warning (auth_key_of chain1_id res))
      (unmapped seqscheme_dict chain1_id aa_residues).

(** The chains [main] keeps: those with at least 4 amino-acid residues. *)
Definition long_enough `{BioPDB} (chain1 : Chain) : bool :=
  negb (List.length (filter is_aa (residues chain1)) <? 4)%nat.

(** The residue names [getres1] knows. *)
Definition standard_names : list string :=
  [ "ALA"; "CYS"; "ASP"; "GLU"; "PHE"; "GLY"; "HIS"; "ILE"; "LYS"; "LEU";
    "MET"; "ASN"; "PRO"; "GLN"; "ARG"; "SER"; "THR"; "VAL"; "TRP"; "TYR" ].

(** Two annotation tables with the same keys whose entries agree on the
    columns [cols]. *)
Definition same_columns (cols : list string) (t1 t2 : AnnotationTable) : Prop :=
  forall key,
    match get t1 key, get t2 key with
    | Some row1, Some row2 => Forall (fun c => get row1 c = get row2 c) cols
    | None, None => True
    | _, _ => False
    end.

(** All chains of a structure, model by model. *)
Definition all_chains (structure1 : Structure) : list Chain :=
  flat_map chains structure1.

End TableSpec.

(* ================================================================== *)
(** * More sample inputs *)

Module MoreExamples.

Import Py Bio Run Table Library Search Examples.

Local Open Scope string_scope.

(** A correspondence table whose entry for the first sample residue lacks
    the column seq_id. *)
Definition broken_seqscheme : AnnotationTable :=
  [ (("A", "1"), [("asym_id", "A")]) ].

(** A chain of one residue, and a structure of one model holding it next to
    the sample chain. *)
Definition short_chain : Chain :=
  mkChain "B" [sample_residue 1 "GLY" 0 0 0 0].

Definition sample_structure : Structure :=
  [ mkModel 0 [short_chain; sample_chain] ].

(** Two neighbouring clusters of the library, the window at the medoid of the
    first, and a window between the two medoids (phi3 and psi3 half way). *)
Definition AB1 : TurnCluster :=
  mkTurnCluster 5 648 "AB1" "new_prev_VIII"
                178.29 (-76.75) (-33.07) 180.05 (-137.67) 155.99 179.53.

Definition AB2 : TurnCluster :=
  mkTurnCluster 7 603 "AB2" "VIII"
                179.88 (-76.37) (-33.97) 184.30 (-116.48) 120.10 183.38.

Definition at_AB1 : Eligible :=
  mkEligible 5 "CCCC" 178.29 (-76.75) (-33.07) 180.05 (-137.67) 155.99 179.53.

Definition between_AB : Eligible :=
  mkEligible 5 "CCCC" 178.29 (-76.75) (-33.07) 180.05 (-127.0) 138.0 179.53.

End MoreExamples.


(* ================================================================== *)
(** * The two mmCIF loop parsers

    [parse_dssp_struct_summary] and [parse_pdbx_poly_seq_scheme] read the
    annotator's output file line by line.  The file is the list of its lines,
    as iterating over the file object yields them; [lines = iter(fh)] is
    shared by the outer loop and the loops nested in it, so every loop
    consumes lines from the same list and hands the rest to the next one.
    [shlex.split] is the interface [Shlex]. *)

Module Cif.

Import Py Run Table.

Local Open Scope string_scope.

(** [shlex.split(s, posix=True)]: the tokens of a line, or [ValueError]. *)
Class Shlex : Type := {
  shlex_split : string -> result (list string)
}.

(** Integer keys of a dictionary. *)
#[global] Instance nat_key : PyKey nat :=
  {| key_eqb := Nat.eqb |}.

(** [d[k] = v]: a key already present keeps its place and takes the new
    value, a new key goes last. *)
Fixpoint setitem {K V : Type} `{PyKey K} (d : pydict K V) (k : K) (v : V) : pydict K V :=
  match d with
  | [] => [(k, v)]
  | (k', v') :: d' =>
      if key_eqb k' k then (k', v) :: d' else (k', v') :: setitem d' k v
  end.

(** [c.isspace()] for an ASCII character. *)
Definition isspace (c : ascii) : bool :=
  let n := nat_of_ascii c in
  ((9 <=? n) && (n <=? 13) || (28 <=? n) && (n <=? 32))%nat.

Fixpoint lstrip (s : string) : string :=
  match s with
  | EmptyString => EmptyString
  | String c s' => if isspace c then lstrip s' else s
  end.

Fixpoint rstrip (s : string) : string :=
  match s with
  | EmptyString => EmptyString
  | String c s' =>
      match rstrip s' with
      | EmptyString => if isspace c then EmptyString else String c EmptyString
      | r => String c r
      end
  end.

(** [s.strip()] *)
Definition strip (s : string) : string := rstrip (lstrip s).

(** [s.split(".", 1)] *)
Fixpoint split_dot_once (s : string) : list string :=
  match s with
  | EmptyString => [EmptyString]
  | String c s' =>
      if Ascii.eqb c "." then [EmptyString; s']
      else match split_dot_once s' with
           | h :: t => String c h :: t
           | [] => [String c EmptyString]
           end
  end.

Definition double_quote : ascii := ascii_of_nat 34.
Definition single_quote : ascii := "'"%char.

(** [norm(val)], the same in both parsers: remove enclosing single or double
    quotes. *)
Definition norm (val : string) : string :=
  let n := String.length val in
  if (2 <=? n)%nat then
    match String.get 0 val, String.get (n - 1) val with
    | Some first, Some last =>
        if (Ascii.eqb first last && Ascii.eqb last double_quote)
           || (Ascii.eqb first last && Ascii.eqb last single_quote)
        then String.substring 1 (n - 2) val
        else val
    | _, _ => val
    end
  else val.

(** [range(0, stop, step)] for a positive step. *)
Definition range_step (stop step : nat) : list nat :=
  map (fun j => j * step)%nat (seq 0 ((stop + step - 1) / step)).

(** [xs[start : start + n]] *)
Definition slice {A : Type} (xs : list A) (start n : nat) : list A :=
  firstn n (skipn start xs).

(** [a or b] on values that are [None] or a string: the empty string is
    false. *)
Definition py_or (a b : option string) : option string :=
  match a with
  | Some EmptyString | None => b
  | Some _ => a
  end.

(** The local [first_data_line], unbound until the first assignment. *)
Definition read_local (first_data_line : option string) : result string :=
  match first_data_line with
  | Some line => Ok line
  | None => Raise UnboundLocalError
  end.

(** ** The loops nested in the scan of the file *)

(** [for line in lines: s = line.strip(); if s.startswith("_"):
    item_names.append(s) else: first_data_line = line; break].  Returns the
    item names, [first_data_line] and the lines left. *)
Fixpoint read_item_names (lines : list string) (item_names : list string)
    (first_data_line : option string) : list string * option string * list string :=
  match lines with
  | [] => (item_names, first_data_line, [])
  | line :: rest =>
      let s := strip line in
      if startswith s "_" then
        read_item_names rest (item_names ++ [s])%list first_data_line
      else (item_names, Some line, rest)
  end.

(** [for line in lines: if line.strip() == "#": break] *)
Fixpoint skip_to_end_marker (lines : list string) : list string :=
  match lines with
  | [] => []
  | line :: rest =>
      if strip line =? "#" then rest else skip_to_end_marker rest
  end.

(** [for line in lines: pending_lines.append(line); if line.strip() == "#":
    break] *)
Fixpoint read_pending (lines : list string) (pending_lines : list string)
    : list string * list string :=
  match lines with
  | [] => (pending_lines, [])
  | line :: rest =>
      if strip line =? "#" then ((pending_lines ++ [line])%list, rest)
      else read_pending rest (pending_lines ++ [line])%list
  end.

(** [for i, name in enumerate(item_names): if
    name.startswith(category_prefix): idx_to_short[i] =
    name.split(".", 1)[1]] *)
Fixpoint map_columns (category_prefix : string) (i : nat) (item_names : list string)
    (idx_to_short : pydict nat string) : result (pydict nat string) :=
  match item_names with
  | [] => Ok idx_to_short
  | name :: rest =>
      if startswith name category_prefix then
        short <- index (split_dot_once name) 1 ;;
        map_columns category_prefix (S i) rest (setitem idx_to_short i short)
      else map_columns category_prefix (S i) rest idx_to_short
  end.

Section Tokens.

Context `{Shlex}.

(** [for s in pending_lines: if s.strip() in {"", "#"}: continue;
    tokens.extend(feed(s))] *)
Fixpoint collect_tokens (pending_lines : list string) (tokens : list string)
    : result (list string) :=
  match pending_lines with
  | [] => Ok tokens
  | s :: rest =>
      if (strip s =? "") || (strip s =? "#") then collect_tokens rest tokens
      else
        toks <- shlex_split s ;;
        collect_tokens rest (tokens ++ toks)%list
  end.

End Tokens.

(** [if len(tokens) % ncols != 0: tokens = tokens[: (len(tokens) // ncols) *
    ncols]] *)
Definition whole_rows (tokens : list string) (ncols : nat) : list string :=
  if negb (List.length tokens mod ncols =? 0)%nat then
    firstn ((List.length tokens / ncols) * ncols) tokens
  else tokens.

(** [for idx, short in idx_to_short.items(): row_vals[short] =
    norm(row[idx])] *)
Fixpoint extract_fields (row : list string) (items : pydict nat string)
    (row_vals : pydict string string) : result (pydict string string) :=
  match items with
  | [] => Ok row_vals
  | (idx, short) :: rest =>
      val <- index row idx ;;
      extract_fields row rest (setitem row_vals short (norm val))
  end.

(** The row walk, [for rstart in range(0, len(tokens), ncols): ...], over the
    body [row_body] of either parser. *)
Fixpoint walk_rows (row_body : list string -> AnnotationTable -> result AnnotationTable)
    (tokens : list string) (ncols : nat) (rstarts : list nat) (acc : AnnotationTable)
    : result AnnotationTable :=
  match rstarts with
  | [] => Ok acc
  | rstart :: rest =>
      acc' <- row_body (slice tokens rstart ncols) acc ;;
      walk_rows row_body tokens ncols rest acc'
  end.

(** ** [parse_dssp_struct_summary] *)

Module Dssp.

Definition category_prefix : string := "_dssp_struct_summary.".

(** [k not in ("label_asym_id", "label_seq_id")] *)
Definition not_key_field (k : string) : bool :=
  negb ((k =? "label_asym_id") || (k =? "label_seq_id")).

(** The body of the row walk; [acc] is the dictionary [result]. *)
Definition row_body (idx_to_short : pydict nat string) (ncols : nat)
    (row : list string) (acc : AnnotationTable) : result AnnotationTable :=
  if (List.length row <? ncols)%nat then Ok acc
  else
    row_vals <- extract_fields row idx_to_short [] ;;
    match row_vals with
    | [] => Ok acc
    | _ =>
        match get row_vals "label_asym_id", get row_vals "label_seq_id" with
        | Some label_asym_id, Some label_seq_id =>
            let key := (label_asym_id, label_seq_id) in
            let value := filter (fun kv => not_key_field (fst kv)) row_vals in
            Ok (setitem acc key value)
        | _, _ => Ok acc
        end
    end.

Section Parse.

Context `{Shlex}.

(** The outer loop [for line in lines], on the lines left.  Every turn
    consumes a line, so a [fuel] of the number of lines is never used up. *)
Fixpoint scan (fuel : nat) (lines : list string) (first_data_line : option string)
    (acc : AnnotationTable) : option (result AnnotationTable) :=
  match fuel with
  | O => match lines with [] => Some (Ok acc) | _ => None end
  | S fuel' =>
      match lines with
      | [] => Some (Ok acc)
      | line :: lines1 =>
          if negb (strip line =? "loop_") then scan fuel' lines1 first_data_line acc
          else
            let '(item_names, first_data_line, lines2) :=
              read_item_names lines1 [] first_data_line in
            match item_names with
            | [] => scan fuel' (skip_to_end_marker lines2) first_data_line acc
            | _ =>
                if negb (existsb (fun n => startswith n category_prefix) item_names)
                then scan fuel' (skip_to_end_marker lines2) first_data_line acc
                else
                  let ncols := List.length item_names in
                  match map_columns category_prefix 0 item_names [] with
                  | Raise e => Some (Raise e)
                  | Ok idx_to_short =>
                      match read_local first_data_line with
                      | Raise e => Some (Raise e)
                      | Ok first =>
                          let '(pending_lines, lines3) := read_pending lines2 [first] in
                          match collect_tokens pending_lines [] with
                          | Raise e => Some (Raise e)
                          | Ok tokens =>
                              if (ncols =? 0)%nat then scan fuel' lines3 first_data_line acc
                              else
                                let tokens := whole_rows tokens ncols in
                                match walk_rows (row_body idx_to_short ncols) tokens ncols
                                        (range_step (List.length tokens) ncols) acc with
                                | Raise e => Some (Raise e)
                                | Ok acc' => scan fuel' lines3 first_data_line acc'
                                end
                          end
                      end
                  end
            end
      end
  end.

(** [parse_dssp_struct_summary(mmCIF_path)], from the lines of the file. *)
Definition parse_dssp_struct_summary (lines : list string)
    : option (result AnnotationTable) :=
  scan (List.length lines) lines None [].

End Parse.

End Dssp.

(** ** [parse_pdbx_poly_seq_scheme] *)

Module Scheme.

Definition cat_prefix : string := "_pdbx_poly_seq_scheme.".

(** The body of the row walk; [acc] is the dictionary [result]. *)
Definition row_body (idx_to_short : pydict nat string) (ncols : nat)
    (row : list string) (acc : AnnotationTable) : result AnnotationTable :=
  if (List.length row <? ncols)%nat then Ok acc
  else
    row_vals <- extract_fields row idx_to_short [] ;;
    match row_vals with
    | [] => Ok acc
    | _ =>
        let pdb_strand_id :=
          py_or (py_or (get row_vals "pdb_strand_id") (get row_vals "asym_id"))
                (Some " ") in
        let pdb_seq_num :=
          py_or (get row_vals "pdb_seq_num") (get row_vals "auth_seq_num") in
        match pdb_strand_id, pdb_seq_num with
        | Some pdb_strand_id, Some pdb_seq_num =>
            let key := (pdb_strand_id, pdb_seq_num) in
            let value := row_vals in
            Ok (setitem acc key value)
        | _, _ => Ok acc
        end
    end.

Section Parse.

Context `{Shlex}.

(** The outer loop [for line in lines], on the lines left; [return result]
    inside the loop ends the scan. *)
Fixpoint scan (fuel : nat) (lines : list string) (first_data_line : option string)
    (acc : AnnotationTable) : option (result AnnotationTable) :=
  match fuel with
  | O => match lines with [] => Some (Ok acc) | _ => None end
  | S fuel' =>
      match lines with
      | [] => Some (Ok acc)
      | line :: lines1 =>
          if negb (strip line =? "loop_") then scan fuel' lines1 first_data_line acc
          else
            let '(item_names, first_data_line, lines2) :=
              read_item_names lines1 [] first_data_line in
            match item_names with
            | [] => scan fuel' (skip_to_end_marker lines2) first_data_line acc
            | _ =>
                if negb (existsb (fun n => startswith n cat_prefix) item_names)
                then
                  match read_local first_data_line with
                  | Raise e => Some (Raise e)
                  | Ok first =>
                      let '(to_process, lines3) := read_pending lines2 [first] in
                      scan fuel' lines3 first_data_line acc
                  end
                else
                  let full_names := item_names in
                  let ncols := List.length full_names in
                  match map_columns cat_prefix 0 full_names [] with
                  | Raise e => Some (Raise e)
                  | Ok idx_to_short =>
                      match read_local first_data_line with
                      | Raise e => Some (Raise e)
                      | Ok first =>
                          let '(pending_lines, lines3) := read_pending lines2 [first] in
                          match collect_tokens pending_lines [] with
                          | Raise e => Some (Raise e)
                          | Ok tokens =>
                              if (ncols =? 0)%nat then Some (Ok acc)
                              else
                                let tokens := whole_rows tokens ncols in
                                match walk_rows (row_body idx_to_short ncols) tokens ncols
                                        (range_step (List.length tokens) ncols) acc with
                                | Raise e => Some (Raise e)
                                | Ok acc' => scan fuel' lines3 first_data_line acc'
                                end
                          end
                      end
                  end
            end
      end
  end.

(** [parse_pdbx_poly_seq_scheme(mmCIF_path)], from the lines of the file. *)
Definition parse_pdbx_poly_seq_scheme (lines : list string)
    : option (result AnnotationTable) :=
  scan (List.length lines) lines None [].

End Parse.

End Scheme.

End Cif.

(* ================================================================== *)
(** * The shape of a loop in the file *)

Module CifSpec.

Import Py Run Table Cif.

Local Open Scope string_scope.

(** A line that reads as an item name, as the loop keyword, as the end
    marker. *)
Definition item_line (line : string) : Prop := startswith (strip line) "_" = true.
Definition loop_line (line : string) : Prop := strip line = "loop_".
Definition end_marker (line : string) : Prop := strip line = "#".

(** The item names of a category. *)
Definition of_category (category_prefix : string) (item_names : list string) : Prop :=
  exists name, In name item_names /\ startswith name category_prefix = true.

(** The file ends inside the header of a loop: after the loop keyword come
    item names, one at least, up to the end of the file. *)
Definition truncated_header (lines : list string) (item_names : list string) : Prop :=
  exists pre line header,
    lines = (pre ++ line :: header)%list /\ loop_line line /\
    header <> [] /\ Forall item_line header /\ item_names = map strip header.

(** [item_names] is the header of a loop of the file: all the item names that
    follow a loop keyword. *)
Definition header_of (lines : list string) (item_names : list string) : Prop :=
  exists pre line header post,
    lines = (pre ++ line :: header ++ post)%list /\ loop_line line /\
    Forall item_line header /\ item_names = map strip header /\
    match post with
    | [] => True
    | first :: _ => ~ item_line first
    end.

(** The columns of a row: the names that have a value in it. *)
Definition has_column (row : pydict string string) (name : string) : Prop :=
  exists v, get row name = Some v.

(** An entry of the summary table read from a loop with the header
    [item_names]: both key columns are in the header, and the entry has the
    other columns of the category. *)
Definition dssp_entry (item_names : list string) (value : pydict string string) : Prop :=
  In (Dssp.category_prefix ++ "label_asym_id") item_names /\
  In (Dssp.category_prefix ++ "label_seq_id") item_names /\
  forall name,
    has_column value name <->
    In (Dssp.category_prefix ++ name) item_names /\
    name <> "label_asym_id" /\ name <> "label_seq_id".

(** The key the correspondence table gives to a row. *)
Definition scheme_key (row_vals : pydict string string) : option (string * string) :=
  match py_or (py_or (get row_vals "pdb_strand_id") (get row_vals "asym_id")) (Some " "),
        py_or (get row_vals "pdb_seq_num") (get row_vals "auth_seq_num") with
  | Some pdb_strand_id, Some pdb_seq_num => Some (pdb_strand_id, pdb_seq_num)
  | _, _ => None
  end.

(** An entry of the correspondence table read from a loop with the header
    [item_names]: it has all the columns of the category, and its key is the
    one its own values give. *)
Definition scheme_entry (item_names : list string) (key : string * string)
    (value : pydict string string) : Prop :=
  of_category Scheme.cat_prefix item_names /\
  (forall name, has_column value name <-> In (Scheme.cat_prefix ++ name) item_names) /\
  scheme_key value = Some key /\
  fst key <> "".

(** The item names that follow the first lines of [lines], and the headers of
    all the loops of a file. *)
Fixpoint item_run (lines : list string) : list string :=
  match lines with
  | [] => []
  | line :: rest =>
      if startswith (strip line) "_" then strip line :: item_run rest else []
  end.

Fixpoint headers (lines : list string) : list (list string) :=
  match lines with
  | [] => []
  | line :: rest =>
      if strip line =? "loop_" then item_run rest :: headers rest else headers rest
  end.

(** Every loop of the category names the two label columns in its header. *)
Definition labelled_headers (lines : list string) : Prop :=
  forall item_names,
    header_of lines item_names ->
    of_category Scheme.cat_prefix item_names ->
    In (Scheme.cat_prefix ++ "asym_id") item_names /\
    In (Scheme.cat_prefix ++ "seq_id") item_names.

(** ** Well-formed files *)

(** A loop of the file as the parsers expect it: the loop keyword, at least
    one item name, at least one data line, of which the first is no item name
    and none is the end marker, and the end marker. *)
Definition well_formed_loop (line : string) (header data : list string)
    (marker : string) : Prop :=
  loop_line line /\ header <> [] /\ Forall item_line header /\
  match data with
  | [] => False
  | first :: _ => ~ item_line first
  end /\
  Forall (fun l => ~ end_marker l) data /\ end_marker marker.

(** A file made of well-formed loops and of other lines (none of them the
    loop keyword), with the loops of a category it holds: their item names
    and data lines, in the order of the file. *)
Inductive loops_of (category_prefix : string)
    : list string -> list (list string * list string) -> Prop :=
| loops_end : loops_of category_prefix [] []
| loops_line (l : string) (rest : list string) loops :
    ~ loop_line l ->
    loops_of category_prefix rest loops ->
    loops_of category_prefix (l :: rest) loops
| loops_other (line : string) (header data : list string) (marker : string)
    (rest : list string) loops :
    well_formed_loop line header data marker ->
    ~ of_category category_prefix (map strip header) ->
    loops_of category_prefix rest loops ->
    loops_of category_prefix (line :: header ++ data ++ marker :: rest)%list loops
| loops_category (line : string) (header data : list string) (marker : string)
    (rest : list string) loops :
    well_formed_loop line header data marker ->
    of_category category_prefix (map strip header) ->
    loops_of category_prefix rest loops ->
    loops_of category_prefix (line :: header ++ data ++ marker :: rest)%list
             ((map strip header, data) :: loops).

Section Loops.

Context `{Shlex}.

(** What either parser does with one loop of its category: map the columns,
    split the data lines into tokens, and walk the rows. *)
Definition read_loop (category_prefix : string)
    (row_body : pydict nat string -> nat -> list string -> AnnotationTable ->
                result AnnotationTable)
    (loop : list string * list string) (acc : AnnotationTable)
    : result AnnotationTable :=
  let '(item_names, data) := loop in
  let ncols := List.length item_names in
  idx_to_short <- map_columns category_prefix 0 item_names [] ;;
  tokens <- collect_tokens data [] ;;
  let tokens := whole_rows tokens ncols in
  walk_rows (row_body idx_to_short ncols) tokens ncols
            (range_step (List.length tokens) ncols) acc.

Fixpoint read_loops (category_prefix : string)
    (row_body : pydict nat string -> nat -> list string -> AnnotationTable ->
                result AnnotationTable)
    (loops : list (list string * list string)) (acc : AnnotationTable)
    : result AnnotationTable :=
  match loops with
  | [] => Ok acc
  | loop :: rest =>
      acc' <- read_loop category_prefix row_body loop acc ;;
      read_loops category_prefix row_body rest acc'
  end.

End Loops.

(** The body of the row walk applied to given rows, one after the other. *)
Fixpoint each_row (row_body : list string -> AnnotationTable -> result AnnotationTable)
    (rows : list (list string)) (acc : AnnotationTable) : result AnnotationTable :=
  match rows with
  | [] => Ok acc
  | row :: rest =>
      acc' <- row_body row acc ;;
      each_row row_body rest acc'
  end.

End CifSpec.

(* ================================================================== *)
(** * A sample file *)

Module CifExamples.

Import Py Table Cif Examples.

Local Open Scope string_scope.

(** Lines without quotes or escapes: the tokens are the words between
    blanks. *)
Fixpoint words (s : string) (word : string) : list string :=
  match s with
  | EmptyString => match word with EmptyString => [] | _ => [word] end
  | String c s' =>
      if isspace c then
        match word with
        | EmptyString => words s' EmptyString
        | _ => word :: words s' EmptyString
        end
      else words s' (word ++ String c EmptyString)
  end.

Definition sample_shlex : Shlex :=
  {| shlex_split := fun s => Ok (words s EmptyString) |}.

Definition newline : string := String (ascii_of_nat 10) EmptyString.

(** The annotator's output for the two middle residues of the sample
    chain. *)
Definition sample_file : list string :=
  map (fun s => s ++ newline)
      [ "data_sample"; "#";
        "loop_";
        "_pdbx_poly_seq_scheme.asym_id";
        "_pdbx_poly_seq_scheme.seq_id";
        "_pdbx_poly_seq_scheme.pdb_seq_num";
        "_pdbx_poly_seq_scheme.pdb_strand_id";
        "A 2 2 A";
        "A 3 3 A";
        "#";
        "loop_";
        "_dssp_struct_summary.label_asym_id";
        "_dssp_struct_summary.label_seq_id";
        "_dssp_struct_summary.secondary_structure";
        "_dssp_struct_summary.helix_3_10";
        "A 2 T .";
        "A 3 T .";
        "#" ].

Definition parsed_seqscheme : AnnotationTable :=
  [ (("A", "2"), [("asym_id", "A"); ("seq_id", "2"); ("pdb_seq_num", "2");
                  ("pdb_strand_id", "A")]);
    (("A", "3"), [("asym_id", "A"); ("seq_id", "3"); ("pdb_seq_num", "3");
                  ("pdb_strand_id", "A")]) ].

(** A file cut off inside the header of its first loop. *)
Definition truncated_file : list string :=
  map (fun s => s ++ newline)
      [ "data_sample"; "#"; "loop_"; "_pdbx_poly_seq_scheme.asym_id" ].

(** A file with an unbalanced quote in a data line. *)
Definition unbalanced_line : string := "A 2 'T ." ++ newline.

Definition quote_shlex : Shlex :=
  {| shlex_split := fun s =>
       if contains "'" s then Raise (ValueError "No closing quotation")
       else Ok (words s EmptyString) |}.

Definition unbalanced_file : list string :=
  map (fun s => s ++ newline)
      [ "loop_";
        "_dssp_struct_summary.label_asym_id";
        "_dssp_struct_summary.label_seq_id";
        "_dssp_struct_summary.secondary_structure";
        "_dssp_struct_summary.helix_3_10" ]
  ++ [ unbalanced_line; "#" ++ newline ].

(** A loop without data lines, of another category, in front of the summary
    loop of the sample file. *)
Definition hidden_file : list string :=
  map (fun s => s ++ newline)
      [ "loop_";
        "_entity.id";
        "#";
        "loop_";
        "_dssp_struct_summary.label_asym_id";
        "_dssp_struct_summary.label_seq_id";
        "_dssp_struct_summary.secondary_structure";
        "_dssp_struct_summary.helix_3_10";
        "A 2 T .";
        "A 3 T .";
        "#" ].

End CifExamples.
(* ================================================================== *)
(** * Properties of the angular metric *)

Module MetricFacts.

Import Metric.

Lemma radians_0 : radians 0 = 0.
Proof. unfold radians; lra. Qed.

Lemma radians_opp (x : R) : radians (- x) = - radians x.
Proof. unfold radians; lra. Qed.

Lemma radians_180 : radians 180 = PI.
Proof. unfold radians; field. Qed.

Lemma angle_distance_eq (a b : R) :
  angle_distance a b = 2 * (1 - cos (radians (a - b))).
Proof. unfold angle_distance; lra. Qed.

Lemma angle_distance_sym (a b : R) : angle_distance a b = angle_distance b a.
Proof.
  rewrite !angle_distance_eq.
  replace (b - a) with (- (a - b)) by lra.
  now rewrite radians_opp, cos_neg.
Qed.

Lemma angle_distance_refl (a : R) : angle_distance a a = 0.
Proof.
  rewrite angle_distance_eq.
  replace (a - a) with 0 by lra.
  rewrite radians_0, cos_0; lra.
Qed.

Lemma angle_distance_opposite (a : R) : angle_distance a (a + 180) = 4.
Proof.
  rewrite angle_distance_eq.
  replace (a - (a + 180)) with (- (180)) by lra.
  rewrite radians_opp, cos_neg, radians_180, cos_PI; lra.
Qed.

Lemma angle_distance_range (a b : R) : 0 <= angle_distance a b <= 4.
Proof.
  rewrite angle_distance_eq.
  pose proof (COS_bound (radians (a - b))) as [Hlo Hhi]; lra.
Qed.

(** The distance is [4 sin^2] of half the difference, hence positive as
    soon as the two angles differ by less than a full turn. *)
Lemma angle_distance_sin (a b : R) :
  angle_distance a b = 4 * (sin (radians (a - b) / 2) * sin (radians (a - b) / 2)).
Proof.
  rewrite angle_distance_eq.
  replace (radians (a - b)) with (2 * (radians (a - b) / 2)) at 1 by lra.
  rewrite cos_2a_sin; lra.
Qed.

Lemma angle_distance_pos_gt (a b : R) :
  0 < a - b < 360 -> 0 < angle_distance a b.
Proof.
  intros [Hlo Hhi].
  rewrite angle_distance_sin.
  assert (Hs : 0 < sin (radians (a - b) / 2)).
  { apply sin_gt_0; unfold radians; pose proof PI_RGT_0 as Hpi.
    - apply Rmult_lt_reg_r with (r := 360 / PI).
      + apply Rdiv_lt_0_compat; lra.
      + field_simplify; lra.
    - apply Rmult_lt_reg_r with (r := 360 / PI).
      + apply Rdiv_lt_0_compat; lra.
      + field_simplify; lra. }
  nra.
Qed.

Lemma angle_distance_pos (a b : R) :
  0 < a - b < 360 \/ 0 < b - a < 360 -> 0 < angle_distance a b.
Proof.
  intros [Hd | Hd].
  - now apply angle_distance_pos_gt.
  - rewrite angle_distance_sym; now apply angle_distance_pos_gt.
Qed.

(** C2. For all angles [a] and [b], the per-angle distance is symmetric,
    vanishes on equal angles, is 4 on angles 180 degrees apart, and lies in
    the range from 0 to 4. *)
Theorem angle_distance_laws (a b : R) :
  angle_distance a b = angle_distance b a /\
  angle_distance a a = 0 /\
  angle_distance a (a + 180) = 4 /\
  0 <= angle_distance a b <= 4.
Proof.
  split; [apply angle_distance_sym |].
  split; [apply angle_distance_refl |].
  split; [apply angle_distance_opposite | apply angle_distance_range].
Qed.

Lemma math_acos_ok (x : R) : -1 <= x <= 1 -> math_acos x = Ok (acos x).
Proof.
  intros [Hlo Hhi]; unfold math_acos.
  destruct (Rlt_dec x (-1)); [lra |].
  destruct (Rgt_dec x 1); [lra | reflexivity].
Qed.

Lemma find_theta_in_range (D : R) :
  0 <= D <= 4 -> find_theta_in_degrees D = Ok (degrees (acos (1 - D / 2))).
Proof.
  intros [Hlo Hhi]; unfold find_theta_in_degrees.
  destruct (Rlt_dec D 0); [lra |].
  destruct (Rgt_dec D 4); [lra |].
  rewrite math_acos_ok by lra.
  do 3 f_equal; lra.
Qed.

Lemma find_theta_out_of_range (D : R) :
  D < 0 \/ D > 4 -> find_theta_in_degrees D = Raise (ValueError theta_domain_msg).
Proof.
  intros Hout; unfold find_theta_in_degrees.
  destruct (Rlt_dec D 0); [reflexivity |].
  destruct (Rgt_dec D 4); [reflexivity | lra].
Qed.

(** C6. [find_theta_in_degrees D] raises exactly when [D < 0] or [D > 4]
    (and what it raises is its own [ValueError]); on the range from 0 to 4
    it returns [degrees (acos (1 - D/2))]. *)
Theorem find_theta_in_degrees_domain (D : R) :
  ((exists e, find_theta_in_degrees D = Raise e) <-> (D < 0 \/ D > 4)) /\
  ((D < 0 \/ D > 4) -> find_theta_in_degrees D = Raise (ValueError theta_domain_msg)) /\
  (0 <= D <= 4 -> find_theta_in_degrees D = Ok (degrees (acos (1 - D / 2)))).
Proof.
  split; [| split; [apply find_theta_out_of_range | apply find_theta_in_range]].
  split.
  - intros [e He].
    destruct (Rlt_dec D 0) as [Hneg | Hnn]; [now left |].
    destruct (Rgt_dec D 4) as [Hbig | Hsm]; [now right |].
    rewrite find_theta_in_range in He by lra; discriminate.
  - intros Hout; eexists; now apply find_theta_out_of_range.
Qed.

End MetricFacts.

(* ================================================================== *)
(** * Properties of the dihedral calculator *)

Module DihedralFacts.

Import Py Bio Run Dihedral.

Local Open Scope string_scope.

Lemma has_id_true (r : Residue) (name : string) :
  has_id r name = true <-> exists v, get (atoms r) name = Some v.
Proof.
  unfold has_id; destruct (get (atoms r) name) as [v |]; split.
  - intros _; now exists v.
  - reflexivity.
  - discriminate.
  - intros [v Hv]; discriminate.
Qed.

Lemma has_id_false (r : Residue) (name : string) :
  has_id r name = false <-> get (atoms r) name = None.
Proof.
  unfold has_id; destruct (get (atoms r) name); split; congruence.
Qed.

Lemma get_vector_some (r : Residue) (name : string) (v : Vector) :
  get (atoms r) name = Some v -> get_vector r name = Ok v /\ has_id r name = true.
Proof.
  intros Hv; unfold get_vector, subscript, has_id; now rewrite Hv.
Qed.

Ltac atoms_present :=
  repeat match goal with
         | H : get (atoms _) _ = Some _ |- _ =>
             apply get_vector_some in H; destruct H as [-> ->]
         end.

Ltac atom_missing :=
  repeat match goal with
         | H : has_id _ _ = false |- _ => rewrite H
         end;
  rewrite ?andb_false_r; simpl; f_equal; lra.

Section Contract.

Context `{BioPDB}.

Lemma compute_phi_computed (prev curr : Residue) (pc cn ca cc : Vector) :
  get (atoms prev) "C" = Some pc -> get (atoms curr) "N" = Some cn ->
  get (atoms curr) "CA" = Some ca -> get (atoms curr) "C" = Some cc ->
  seqnum curr = (seqnum prev + 1)%Z ->
  compute_phi prev curr = Ok (round (Metric.degrees (calc_dihedral pc cn ca cc)) 6).
Proof.
  intros Hpc Hcn Hca Hcc Hseq; unfold compute_phi.
  atoms_present; rewrite Hseq, Z.eqb_refl; reflexivity.
Qed.

Lemma compute_psi_computed (curr next : Residue) (cn ca cc nn : Vector) :
  get (atoms curr) "N" = Some cn -> get (atoms curr) "CA" = Some ca ->
  get (atoms curr) "C" = Some cc -> get (atoms next) "N" = Some nn ->
  seqnum next = (seqnum curr + 1)%Z ->
  compute_psi curr next = Ok (round (Metric.degrees (calc_dihedral cn ca cc nn)) 6).
Proof.
  intros Hcn Hca Hcc Hnn Hseq; unfold compute_psi.
  atoms_present; rewrite Hseq, Z.eqb_refl; reflexivity.
Qed.

Lemma compute_omega_computed (prev curr : Residue) (pa pc cn ca : Vector) :
  get (atoms prev) "CA" = Some pa -> get (atoms prev) "C" = Some pc ->
  get (atoms curr) "N" = Some cn -> get (atoms curr) "CA" = Some ca ->
  seqnum curr = (seqnum prev + 1)%Z ->
  compute_omega prev curr = Ok (round (Metric.degrees (calc_dihedral pa pc cn ca)) 6).
Proof.
  intros Hpa Hpc Hcn Hca Hseq; unfold compute_omega.
  atoms_present; rewrite Hseq, Z.eqb_refl; reflexivity.
Qed.

Lemma compute_phi_sentinel (prev curr : Residue) :
  has_id prev "C" = false \/ has_id curr "N" = false \/ has_id curr "CA" = false \/
  has_id curr "C" = false \/ seqnum curr <> (seqnum prev + 1)%Z ->
  compute_phi prev curr = Ok 999.0.
Proof.
  unfold compute_phi.
  intros [Hm | [Hm | [Hm | [Hm | Hseq]]]]; try (atom_missing; fail).
  apply Z.eqb_neq in Hseq; rewrite Hseq, ?andb_false_r; simpl; f_equal; lra.
Qed.

Lemma compute_psi_sentinel (curr next : Residue) :
  has_id curr "N" = false \/ has_id curr "CA" = false \/ has_id curr "C" = false \/
  has_id next "N" = false \/ seqnum next <> (seqnum curr + 1)%Z ->
  compute_psi curr next = Ok 999.0.
Proof.
  unfold compute_psi.
  intros [Hm | [Hm | [Hm | [Hm | Hseq]]]]; try (atom_missing; fail).
  apply Z.eqb_neq in Hseq; rewrite Hseq, ?andb_false_r; simpl; f_equal; lra.
Qed.

Lemma compute_omega_sentinel (prev curr : Residue) :
  has_id prev "CA" = false \/ has_id prev "C" = false \/ has_id curr "N" = false \/
  has_id curr "CA" = false \/ seqnum curr <> (seqnum prev + 1)%Z ->
  compute_omega prev curr = Ok 999.0.
Proof.
  unfold compute_omega.
  intros [Hm | [Hm | [Hm | [Hm | Hseq]]]]; try (atom_missing; fail).
  apply Z.eqb_neq in Hseq; rewrite Hseq, ?andb_false_r; simpl; f_equal; lra.
Qed.

(** A value other than the sentinel was computed, so the two sequence
    numbers were consecutive. *)
Lemma compute_phi_consecutive (prev curr : Residue) (x : R) :
  compute_phi prev curr = Ok x -> x <> 999.0 -> seqnum curr = (seqnum prev + 1)%Z.
Proof.
  intros Hphi Hx.
  destruct (Z.eq_dec (seqnum curr) (seqnum prev + 1)) as [Heq | Hne]; [exact Heq |].
  rewrite compute_phi_sentinel in Hphi by tauto.
  congruence.
Qed.

Lemma compute_omega_consecutive (prev curr : Residue) (x : R) :
  compute_omega prev curr = Ok x -> x <> 999.0 -> seqnum curr = (seqnum prev + 1)%Z.
Proof.
  intros Homega Hx.
  destruct (Z.eq_dec (seqnum curr) (seqnum prev + 1)) as [Heq | Hne]; [exact Heq |].
  rewrite compute_omega_sentinel in Homega by tauto.
  congruence.
Qed.

Lemma compute_phi_total (prev curr : Residue) : exists x, compute_phi prev curr = Ok x.
Proof.
  destruct (has_id prev "C") eqn:H1; [| eexists; apply compute_phi_sentinel; tauto].
  destruct (has_id curr "N") eqn:H2; [| eexists; apply compute_phi_sentinel; tauto].
  destruct (has_id curr "CA") eqn:H3; [| eexists; apply compute_phi_sentinel; tauto].
  destruct (has_id curr "C") eqn:H4; [| eexists; apply compute_phi_sentinel; tauto].
  destruct (Z.eq_dec (seqnum curr) (seqnum prev + 1)) as [Heq | Hne];
    [| eexists; apply compute_phi_sentinel; tauto].
  apply has_id_true in H1, H2, H3, H4.
  destruct H1 as [v1 H1], H2 as [v2 H2], H3 as [v3 H3], H4 as [v4 H4].
  eexists; eapply compute_phi_computed; eassumption.
Qed.

Lemma compute_psi_total (curr next : Residue) : exists x, compute_psi curr next = Ok x.
Proof.
  destruct (has_id curr "N") eqn:H1; [| eexists; apply compute_psi_sentinel; tauto].
  destruct (has_id curr "CA") eqn:H2; [| eexists; apply compute_psi_sentinel; tauto].
  destruct (has_id curr "C") eqn:H3; [| eexists; apply compute_psi_sentinel; tauto].
  destruct (has_id next "N") eqn:H4; [| eexists; apply compute_psi_sentinel; tauto].
  destruct (Z.eq_dec (seqnum next) (seqnum curr + 1)) as [Heq | Hne];
    [| eexists; apply compute_psi_sentinel; tauto].
  apply has_id_true in H1, H2, H3, H4.
  destruct H1 as [v1 H1], H2 as [v2 H2], H3 as [v3 H3], H4 as [v4 H4].
  eexists; eapply compute_psi_computed; eassumption.
Qed.

Lemma compute_omega_total (prev curr : Residue) : exists x, compute_omega prev curr = Ok x.
Proof.
  destruct (has_id prev "CA") eqn:H1; [| eexists; apply compute_omega_sentinel; tauto].
  destruct (has_id prev "C") eqn:H2; [| eexists; apply compute_omega_sentinel; tauto].
  destruct (has_id curr "N") eqn:H3; [| eexists; apply compute_omega_sentinel; tauto].
  destruct (has_id curr "CA") eqn:H4; [| eexists; apply compute_omega_sentinel; tauto].
  destruct (Z.eq_dec (seqnum curr) (seqnum prev + 1)) as [Heq | Hne];
    [| eexists; apply compute_omega_sentinel; tauto].
  apply has_id_true in H1, H2, H3, H4.
  destruct H1 as [v1 H1], H2 as [v2 H2], H3 as [v3 H3], H4 as [v4 H4].
  eexists; eapply compute_omega_computed; eassumption.
Qed.

(** C5. Each of [compute_phi], [compute_psi] and [compute_omega] returns
    the sentinel 999.0 whenever a required atom is missing or the second
    residue's sequence number is not the first's plus one, and otherwise
    returns the dihedral of its four atoms in degrees, rounded to 6 digits;
    a gap of one residue in the numbering gives the sentinel. *)
Theorem compute_dihedral_contract (r s : Residue) :
  (* phi over (r.C, s.N, s.CA, s.C) *)
  ((has_id r "C" = false \/ has_id s "N" = false \/ has_id s "CA" = false \/
    has_id s "C" = false \/ seqnum s <> (seqnum r + 1)%Z) ->
   compute_phi r s = Ok 999.0) /\
  (forall pc cn ca cc,
      get (atoms r) "C" = Some pc -> get (atoms s) "N" = Some cn ->
      get (atoms s) "CA" = Some ca -> get (atoms s) "C" = Some cc ->
      seqnum s = (seqnum r + 1)%Z ->
      compute_phi r s = Ok (round (Metric.degrees (calc_dihedral pc cn ca cc)) 6)) /\
  (* psi over (r.N, r.CA, r.C, s.N) *)
  ((has_id r "N" = false \/ has_id r "CA" = false \/ has_id r "C" = false \/
    has_id s "N" = false \/ seqnum s <> (seqnum r + 1)%Z) ->
   compute_psi r s = Ok 999.0) /\
  (forall cn ca cc nn,
      get (atoms r) "N" = Some cn -> get (atoms r) "CA" = Some ca ->
      get (atoms r) "C" = Some cc -> get (atoms s) "N" = Some nn ->
      seqnum s = (seqnum r + 1)%Z ->
      compute_psi r s = Ok (round (Metric.degrees (calc_dihedral cn ca cc nn)) 6)) /\
  (* omega over (r.CA, r.C, s.N, s.CA) *)
  ((has_id r "CA" = false \/ has_id r "C" = false \/ has_id s "N" = false \/
    has_id s "CA" = false \/ seqnum s <> (seqnum r + 1)%Z) ->
   compute_omega r s = Ok 999.0) /\
  (forall pa pc cn ca,
      get (atoms r) "CA" = Some pa -> get (atoms r) "C" = Some pc ->
      get (atoms s) "N" = Some cn -> get (atoms s) "CA" = Some ca ->
      seqnum s = (seqnum r + 1)%Z ->
      compute_omega r s = Ok (round (Metric.degrees (calc_dihedral pa pc cn ca)) 6)) /\
  (* a one-residue numbering gap *)
  (seqnum s = (seqnum r + 2)%Z ->
   compute_phi r s = Ok 999.0 /\ compute_psi r s = Ok 999.0 /\
   compute_omega r s = Ok 999.0).
Proof.
  split; [apply compute_phi_sentinel |].
  split; [apply compute_phi_computed |].
  split; [apply compute_psi_sentinel |].
  split; [apply compute_psi_computed |].
  split; [apply compute_omega_sentinel |].
  split; [apply compute_omega_computed |].
  intros Hgap.
  assert (Hne : seqnum s <> (seqnum r + 1)%Z) by lia.
  split; [apply compute_phi_sentinel; tauto |].
  split; [apply compute_psi_sentinel; tauto | apply compute_omega_sentinel; tauto].
Qed.

End Contract.

End DihedralFacts.

(* ================================================================== *)
(** * Properties of the window gate *)

Module GateFacts.

Import Py Bio Run Table Search SpecGate Model Examples.

Local Open Scope string_scope.

Lemma Reqb_true (x y : R) : Reqb x y = true <-> x = y.
Proof. unfold Reqb; destruct (Req_dec_T x y); split; congruence. Qed.

Lemma Reqb_false (x y : R) : Reqb x y = false <-> x <> y.
Proof. unfold Reqb; destruct (Req_dec_T x y); split; congruence. Qed.

Lemma Rltb_true (x y : R) : Rltb x y = true <-> x < y.
Proof. unfold Rltb; destruct (Rlt_dec x y); split; congruence. Qed.

Lemma Rltb_false (x y : R) : Rltb x y = false <-> y <= x.
Proof. unfold Rltb; destruct (Rlt_dec x y); split; try congruence; lra. Qed.

Lemma Rleb_true (x y : R) : Rleb x y = true <-> x <= y.
Proof. unfold Rleb; destruct (Rle_dec x y); split; congruence. Qed.

Lemma Rleb_false (x y : R) : Rleb x y = false <-> y < x.
Proof. unfold Rleb; destruct (Rle_dec x y); split; try congruence; lra. Qed.

Lemma Rgtb_negb_Rleb (x y : R) : Rgtb x y = negb (Rleb x y).
Proof.
  unfold Rgtb, Rleb; destruct (Rgt_dec x y), (Rle_dec x y); simpl; try reflexivity; lra.
Qed.

Lemma Rgtb_false (x y : R) : Rgtb x y = false <-> x <= y.
Proof.
  rewrite Rgtb_negb_Rleb, negb_false_iff; apply Rleb_true.
Qed.

Ltac split_ifs :=
  repeat match goal with
         | |- context [if ?b then _ else _] => destruct b eqn:?
         end.

(** C3. The six gate checks evaluated in the order of the specification
    (C-alpha presence, distance, forbidden strings, middle residues, GGG
    marker, sentinels) accept a window if and only if the source's order,
    which tests the distance last, accepts it. *)
Theorem gate_order_independent (w : Window) :
  gate_in_spec_order w = true <-> exists e, gate w = Some e.
Proof.
  unfold gate_in_spec_order, gate.
  destruct (CAcoor (w1 w)) as [ca1 |]; [| split; [discriminate | intros [e He]; discriminate]].
  destruct (CAcoor (w4 w)) as [ca4 |]; [| split; [discriminate | intros [e He]; discriminate]].
  cbv zeta; rewrite Rgtb_negb_Rleb.
  split_ifs; simpl in *; split;
    try discriminate; try (intros [e He]; discriminate);
    try (intros _; eexists; reflexivity); try reflexivity.
Qed.

(** What the gate has established when it lets a window through. *)
Lemma gate_some_inv (w : Window) (e : Eligible) :
  gate w = Some e ->
  (exists ca1 ca4, CAcoor (w1 w) = Some ca1 /\ CAcoor (w4 w) = Some ca4 /\
                   CA1_CA4_distance e = norm (vsub ca1 ca4)) /\
  CA1_CA4_distance e <= 7.0 /\
  dssp_string e = window_dssp w /\
  [omega2 e; phi2 e; psi2 e; omega3 e; phi3 e; psi3 e; omega4 e] = seven_angles w /\
  Forall (fun a => a <> 999.0) (seven_angles w) /\
  (String.eqb (window_dssp w) "HGGG" = false /\
   String.eqb (window_dssp w) "GGGH" = false /\
   String.eqb (window_dssp w) "GGGG" = false) /\
  in_pair (dssp_ss (w2 w)) "H" "E" = false /\
  in_pair (dssp_ss (w3 w)) "H" "E" = false /\
  ((startswith (window_dssp w) "GGG" || endswith (window_dssp w) "GGG") = true ->
   contains "3" (window_three10 w) = true).
Proof.
  unfold gate, window_dssp, window_three10, seven_angles.
  destruct (CAcoor (w1 w)) as [ca1 |]; [| discriminate].
  destruct (CAcoor (w4 w)) as [ca4 |]; [| discriminate].
  cbv zeta.
  split_ifs; try discriminate.
  intros He; injection He as <-; simpl.
  repeat match goal with
         | H : Reqb _ _ = false |- _ => apply Reqb_false in H
         | H : Rgtb _ _ = false |- _ => apply Rgtb_false in H
         end.
  split; [exists ca1, ca4; auto |].
  split; [lra |].
  split; [reflexivity |].
  split; [reflexivity |].
  split; [repeat constructor; lra |].
  split; [auto |].
  split; [reflexivity |].
  split; [reflexivity |].
  intros Hggg.
  match goal with
  | H : _ && negb _ = false |- _ => rewrite Hggg in H; simpl in H; now apply negb_false_iff in H
  end.
Qed.

Lemma gate_sentinel (w : Window) :
  Exists (fun a => a = 999.0) (seven_angles w) -> gate w = None.
Proof.
  intros Hex.
  destruct (gate w) as [e |] eqn:Hg; [| reflexivity].
  apply gate_some_inv in Hg.
  destruct Hg as (_ & _ & _ & _ & Hall & _).
  apply Exists_exists in Hex; destruct Hex as (a & Hin & Ha).
  rewrite Forall_forall in Hall; now apply Hall in Hin.
Qed.


Lemma gate_pass (w : Window) (ca1 ca4 : Vector) :
  CAcoor (w1 w) = Some ca1 -> CAcoor (w4 w) = Some ca4 ->
  norm (vsub ca1 ca4) <= 7.0 ->
  String.eqb (window_dssp w) "HGGG" = false ->
  String.eqb (window_dssp w) "GGGH" = false ->
  String.eqb (window_dssp w) "GGGG" = false ->
  in_pair (dssp_ss (w2 w)) "H" "E" = false ->
  in_pair (dssp_ss (w3 w)) "H" "E" = false ->
  (startswith (window_dssp w) "GGG" || endswith (window_dssp w) "GGG")
    && negb (contains "3" (window_three10 w)) = false ->
  Forall (fun a => a <> 999.0) (seven_angles w) ->
  gate w = Some (mkEligible (norm (vsub ca1 ca4)) (window_dssp w)
                   (omega (w2 w)) (phi (w2 w)) (psi (w2 w))
                   (omega (w3 w)) (phi (w3 w)) (psi (w3 w)) (omega (w4 w))).
Proof.
  unfold window_dssp, window_three10, seven_angles, gate.
  intros -> -> Hd -> -> -> -> -> -> Hall; cbv zeta.
  repeat match goal with
         | H : Forall _ (_ :: _) |- _ => inversion H; subst; clear H
         end.
  repeat match goal with
         | H : ?a <> 999.0 |- _ => apply Reqb_false in H; rewrite H
         end.
  apply Rgtb_false in Hd; rewrite Hd; reflexivity.
Qed.

(** ** Strings *)

Lemma contains_char (c : ascii) (s : string) :
  contains (String c "") s = true <-> In c (list_ascii_of_string s).
Proof.
  induction s as [| a s IH]; cbn -[ascii_dec].
  - split; [discriminate | tauto].
  - destruct (ascii_dec c a) as [-> | Hne].
    + assert (Hp : String.prefix "" s = true) by (destruct s; reflexivity).
      rewrite Hp; simpl; split; auto.
    + simpl; rewrite IH; split; [auto | intros [Heq | Hin]; congruence].
Qed.

Lemma one_letter (s : string) : String.length s = 1%nat -> exists c, s = String c "".
Proof.
  destruct s as [| c [| c' s]]; simpl; try discriminate.
  intros _; now exists c.
Qed.

Lemma ggg_middle (c1 c2 c3 c4 : ascii) :
  let S := ((String c1 "" ++ String c2 "") ++ String c3 "") ++ String c4 "" in
  startswith S "GGG" = true \/ endswith S "GGG" = true ->
  c2 = "G"%char /\ c3 = "G"%char.
Proof.
  unfold startswith, endswith; cbn -[ascii_dec Ascii.eqb].
  intros [Hs | He].
  - destruct (ascii_dec "G" c1); [| discriminate].
    destruct (ascii_dec "G" c2); [| discriminate].
    destruct (ascii_dec "G" c3); [| discriminate].
    split; congruence.
  - destruct (Ascii.eqb_spec c2 "G"); [| discriminate].
    destruct (Ascii.eqb_spec c3 "G"); [| discriminate].
    split; assumption.
Qed.


Lemma eligible_geometry (w : Window) (e : Eligible) :
  gate w = Some e -> geometry_resolved w.
Proof.
  intros Hg; apply gate_some_inv in Hg.
  destruct Hg as ((ca1 & ca4 & H1 & H4 & Hd) & Hle & _ & _ & Hall & _).
  split; [| exact Hall].
  exists ca1, ca4; repeat split; try assumption; lra.
Qed.

(** C4 (as amended). For a window of one-letter codes whose
    secondary-structure string starts or ends with GGG and is none of HGGG,
    GGGH, GGGG: without the character 3 among the four 3-10 markers the
    window is rejected; and it passes the gate if and only if the character
    3 occurs among the markers and the coordinate and dihedral checks hold
    (both C-alpha present, their distance at most 7.0, none of the seven
    dihedrals the sentinel). *)
Theorem ggg_marker_rule (w : Window) :
  one_letter_code (w1 w) -> one_letter_code (w2 w) ->
  one_letter_code (w3 w) -> one_letter_code (w4 w) ->
  startswith (window_dssp w) "GGG" = true \/ endswith (window_dssp w) "GGG" = true ->
  window_dssp w <> "HGGG" -> window_dssp w <> "GGGH" -> window_dssp w <> "GGGG" ->
  (~ In "3"%char (list_ascii_of_string (window_three10 w)) -> gate w = None) /\
  ((exists e, gate w = Some e) <->
   In "3"%char (list_ascii_of_string (window_three10 w)) /\ geometry_resolved w).
Proof.
  intros L1 L2 L3 L4 Hggg N1 N2 N3.
  assert (Hor : (startswith (window_dssp w) "GGG" || endswith (window_dssp w) "GGG") = true)
    by (apply orb_true_iff; exact Hggg).
  split.
  - intros Hno.
    destruct (gate w) as [e |] eqn:Hg; [| reflexivity].
    apply gate_some_inv in Hg.
    destruct Hg as (_ & _ & _ & _ & _ & _ & _ & _ & Hc).
    apply Hc, contains_char in Hor; contradiction.
  - split.
    + intros [e Hg]; split; [| now apply eligible_geometry with e].
      apply gate_some_inv in Hg.
      destruct Hg as (_ & _ & _ & _ & _ & _ & _ & _ & Hc).
      now apply contains_char, Hc.
    + intros [H3 [(ca1 & ca4 & Hc1 & Hc4 & Hd) Hall]].
      apply contains_char in H3.
      unfold one_letter_code in L1, L2, L3, L4.
      apply one_letter in L1, L2, L3, L4.
      destruct L1 as [c1 E1], L2 as [c2 E2], L3 as [c3 E3], L4 as [c4 E4].
      assert (Hmid : c2 = "G"%char /\ c3 = "G"%char).
      { apply (ggg_middle c1 c2 c3 c4).
        unfold window_dssp in Hggg; rewrite E1, E2, E3, E4 in Hggg; exact Hggg. }
      destruct Hmid as [-> ->].
      eexists; eapply gate_pass; try eassumption.
      * now apply String.eqb_neq.
      * now apply String.eqb_neq.
      * now apply String.eqb_neq.
      * rewrite E2; reflexivity.
      * rewrite E3; reflexivity.
      * rewrite H3, Hor; reflexivity.
Qed.

Lemma ggg_marker_rule_witness :
  (~ In "3"%char (list_ascii_of_string (window_three10 (ggg_window "3"))) ->
   gate (ggg_window "3") = None) /\
  ((exists e, gate (ggg_window "3") = Some e) <->
   In "3"%char (list_ascii_of_string (window_three10 (ggg_window "3"))) /\
   geometry_resolved (ggg_window "3")).
Proof.
  apply (ggg_marker_rule (ggg_window "3")); try reflexivity; try discriminate.
  left; reflexivity.
Defined.

(** C4 (as stated) fails: the window [ggg_window_broken] has the string GGGC
    and the marker 3, and is rejected all the same, because its last
    dihedral is the sentinel. *)
Lemma ggg_marker_present_yet_rejected :
  (one_letter_code (w1 ggg_window_broken) /\ one_letter_code (w2 ggg_window_broken) /\
   one_letter_code (w3 ggg_window_broken) /\ one_letter_code (w4 ggg_window_broken)) /\
  (window_dssp ggg_window_broken = "GGGC" /\
   startswith (window_dssp ggg_window_broken) "GGG" = true /\
   In "3"%char (list_ascii_of_string (window_three10 ggg_window_broken)) /\
   gate ggg_window_broken = None) /\
  ~ ((exists e, gate ggg_window_broken = Some e) <->
     In "3"%char (list_ascii_of_string (window_three10 ggg_window_broken))).
Proof.
  assert (Hrej : gate ggg_window_broken = None).
  { apply gate_sentinel; unfold seven_angles.
    do 6 apply Exists_cons_tl; apply Exists_cons_hd; reflexivity. }
  assert (H3 : In "3"%char (list_ascii_of_string (window_three10 ggg_window_broken))).
  { apply contains_char; reflexivity. }
  split; [repeat split |].
  split.
  - repeat split; try reflexivity; assumption.
  - intros [_ Hback]; destruct (Hback H3) as [e He]; congruence.
Qed.

End GateFacts.

(* ================================================================== *)
(** * Properties of the classifier *)

Module ClassifierFacts.

Import Py Bio Run Table Library Search Model Examples.
Import MetricFacts GateFacts.

Local Open Scope string_scope.

(** ** The score of a cluster *)

Lemma mean_distance_range (e : Eligible) (c : TurnCluster) :
  0 <= mean_distance e c <= 4.
Proof.
  unfold mean_distance.
  pose proof (angle_distance_range (omega2 e) (medoid_omega2 c)).
  pose proof (angle_distance_range (phi2 e) (medoid_phi2 c)).
  pose proof (angle_distance_range (psi2 e) (medoid_psi2 c)).
  pose proof (angle_distance_range (omega3 e) (medoid_omega3 c)).
  pose proof (angle_distance_range (phi3 e) (medoid_phi3 c)).
  pose proof (angle_distance_range (psi3 e) (medoid_psi3 c)).
  pose proof (angle_distance_range (omega4 e) (medoid_omega4 c)).
  lra.
Qed.

(** ** The running minimum *)

Section Nearest.

Variable e : Eligible.

Let D (entry : string * TurnCluster) : R := mean_distance e (snd entry).

Lemma nearest_cons (t : string) (c : TurnCluster) (rest : pydict string TurnCluster)
    (m : R) (mt : option string) :
  nearest e ((t, c) :: rest) m mt =
  if Rltb (mean_distance e c) m then nearest e rest (mean_distance e c) (Some t)
  else nearest e rest m mt.
Proof. reflexivity. Qed.

Lemma nearest_le_init (entries : pydict string TurnCluster) (m : R) (mt : option string) :
  fst (nearest e entries m mt) <= m.
Proof.
  revert m mt; induction entries as [| [t c] rest IH]; intros m mt.
  - simpl; lra.
  - rewrite nearest_cons; destruct (Rltb (mean_distance e c) m) eqn:Hlt.
    + apply Rltb_true in Hlt; specialize (IH (mean_distance e c) (Some t)); lra.
    + apply IH.
Qed.

Lemma nearest_le_all (entries : pydict string TurnCluster) (m : R) (mt : option string) :
  Forall (fun entry => fst (nearest e entries m mt) <= D entry) entries.
Proof.
  revert m mt; induction entries as [| [t c] rest IH]; intros m mt; [constructor |].
  rewrite nearest_cons; destruct (Rltb (mean_distance e c) m) eqn:Hlt.
  - constructor; [apply nearest_le_init | apply IH].
  - constructor; [| apply IH].
    apply Rltb_false in Hlt; unfold D; simpl.
    pose proof (nearest_le_init rest m mt); lra.
Qed.

Lemma nearest_unchanged (entries : pydict string TurnCluster) (m : R) (mt : option string) :
  Forall (fun entry => m <= D entry) entries -> nearest e entries m mt = (m, mt).
Proof.
  induction entries as [| [t c] rest IH]; intros Hall; [reflexivity |].
  inversion Hall as [| ? ? Hc Hrest]; subst.
  rewrite nearest_cons.
  replace (Rltb (mean_distance e c) m) with false
    by (symmetry; apply Rltb_false; exact Hc).
  now apply IH.
Qed.

Lemma below_dec (entries : pydict string TurnCluster) (m : R) :
  {Exists (fun entry => D entry < m) entries} + {Forall (fun entry => m <= D entry) entries}.
Proof.
  induction entries as [| entry rest [IH | IH]].
  - right; constructor.
  - left; now apply Exists_cons_tl.
  - destruct (Rlt_dec (D entry) m) as [Hlt | Hge].
    + left; now apply Exists_cons_hd.
    + right; constructor; [lra | exact IH].
Qed.

(** When some entry scores below the initial [minD], the loop ends on the
    first entry of minimum score. *)
Lemma nearest_first_min (entries : pydict string TurnCluster) (m : R) (mt : option string) :
  Exists (fun entry => D entry < m) entries ->
  exists k t c,
    nth_error entries k = Some (t, c) /\
    nearest e entries m mt = (mean_distance e c, Some t) /\
    mean_distance e c < m /\
    forall j t' c', nth_error entries j = Some (t', c') ->
                    mean_distance e c <= mean_distance e c' /\
                    ((j < k)%nat -> mean_distance e c < mean_distance e c').
Proof.
  revert m mt; induction entries as [| [t c] rest IH]; intros m mt Hex.
  - inversion Hex.
  - rewrite nearest_cons; destruct (Rltb (mean_distance e c) m) eqn:Hlt.
    + apply Rltb_true in Hlt.
      destruct (below_dec rest (mean_distance e c)) as [Hbelow | Hnone].
      * destruct (IH _ (Some t) Hbelow) as (k & t0 & c0 & Hk & Hres & Hlt0 & Hmin).
        exists (S k), t0, c0; repeat split; try assumption; try lra.
        -- destruct j as [| j]; simpl in H.
           ++ injection H as <- <-; lra.
           ++ now apply (Hmin j t' c').
        -- intros Hj; destruct j as [| j]; simpl in H.
           ++ injection H as <- <-; lra.
           ++ apply (Hmin j t' c'); [assumption | lia].
      * exists 0%nat, t, c; repeat split; try assumption.
        -- now apply nearest_unchanged.
        -- destruct j as [| j]; simpl in H.
           ++ injection H as <- <-; lra.
           ++ rewrite Forall_forall in Hnone.
              apply nth_error_In in H; apply Hnone in H; exact H.
        -- intros Hj; lia.
    + apply Rltb_false in Hlt.
      assert (Hrest : Exists (fun entry => D entry < m) rest).
      { inversion Hex as [? ? Hhd | ? ? Htl]; subst; [unfold D in Hhd; simpl in Hhd; lra | exact Htl]. }
      destruct (IH m mt Hrest) as (k & t0 & c0 & Hk & Hres & Hlt0 & Hmin).
      exists (S k), t0, c0; repeat split; try assumption.
      * destruct j as [| j]; simpl in H.
        -- injection H as <- <-; lra.
        -- now apply (Hmin j t' c').
      * intros Hj; destruct j as [| j]; simpl in H.
        -- injection H as <- <-; lra.
        -- apply (Hmin j t' c'); [assumption | lia].
Qed.

End Nearest.


(** ** Running the loop over the library *)

Section Loop.

Variable lib : pydict string TurnCluster.

Lemma cluster_distance_run (e : Eligible) (turn : string) (c : TurnCluster) (s : RunState) :
  get lib turn = Some c ->
  cluster_distance lib e turn s =
  (Ok (mean_distance e c), after_loop s (minturn s) (calls7 e c)).
Proof.
  intros Hget; unfold cluster_distance, subscript, lift, call_angle_distance, after_loop.
  simpl; rewrite Hget; simpl.
  rewrite <- !app_assoc; reflexivity.
Qed.

Lemma library_loop_run (e : Eligible) (entries : pydict string TurnCluster) :
  Forall (fun entry => get lib (fst entry) = Some (snd entry)) entries ->
  forall (minD : R) (s : RunState),
    library_loop lib (map fst entries) e minD s =
    (Ok (fst (nearest e entries minD (minturn s))),
     after_loop s (snd (nearest e entries minD (minturn s)))
                (flat_map (calls7 e) (map snd entries))).
Proof.
  induction 1 as [| [t c] rest Hget Hrest IH]; intros minD s.
  - unfold after_loop; simpl; rewrite app_nil_r; destruct s; reflexivity.
  - simpl in Hget.
    change (library_loop lib (map fst ((t, c) :: rest)) e minD s)
      with (match cluster_distance lib e t s with
            | (Ok D, s') =>
                (if Rltb D minD
                 then set_minturn t ;; library_loop lib (map fst rest) e D
                 else library_loop lib (map fst rest) e minD) s'
            | (Raise ex, s') => (Raise ex, s')
            end).
    rewrite (cluster_distance_run e t c s Hget), nearest_cons.
    destruct (Rltb (mean_distance e c) minD).
    + change ((set_minturn t ;; library_loop lib (map fst rest) e (mean_distance e c))
                (after_loop s (minturn s) (calls7 e c)))
        with (library_loop lib (map fst rest) e (mean_distance e c)
                (after_loop s (Some t) (calls7 e c))).
      rewrite IH; unfold after_loop; simpl; rewrite <- !app_assoc; reflexivity.
    + rewrite IH; unfold after_loop; simpl; rewrite <- !app_assoc; reflexivity.
Qed.

End Loop.

Lemma int_of_str_of_int (n : Z) : int_of_str (str_of_int n) = Ok n.
Proof.
  unfold int_of_str, str_of_int.
  rewrite NilZero.isi.
  - now rewrite DecimalZ.of_to.
  - destruct n; simpl; try discriminate.
    intros Heq; injection Heq as Heq; now apply Unsigned.to_uint_nonnil in Heq.
  - destruct n; simpl; try discriminate.
    intros Heq; injection Heq as Heq; now apply Unsigned.to_uint_nonnil in Heq.
Qed.


(** ** One iteration of the window loop *)

Section Step.

Variable lib : pydict string TurnCluster.
Variable shortfilename : string.
Variable chain : Chain.
Variable rows : list Row.
Variable i : nat.
Variable w : Window.

Hypothesis window_i : get_window rows i = Ok w.

Lemma window_step_skip (s : RunState) :
  gate w = None -> window_step lib shortfilename chain rows i s = (Ok tt, s).
Proof.
  intros Hg; unfold window_step, lift; cbn [bind M_monad].
  rewrite window_i, Hg; reflexivity.
Qed.

Variable e : Eligible.

Hypothesis eligible : gate w = Some e.
Hypothesis lib_lookups : lookups lib.

Lemma window_step_loop (s : RunState) :
  window_step lib shortfilename chain rows i s =
  (let minD := fst (nearest e lib 100.0 (minturn s)) in
   if Rleb minD Metric.TURN_DIST_CUTOFF then
     nturns <- incr_nturns ;;
     resnum1 <- lift (int_of_str (snd (auth_key (w1 w)))) ;;
     let resnum4 := (resnum1 + 3)%Z in
     minturn <- read_minturn ;;
     c <- lift (subscript lib minturn) ;;
     let prevname := prev_name c in
     mintheta <- lift (Metric.find_theta_in_degrees minD) ;;
     let seq := ((res1 (w1 w) ++ res1 (w2 w)) ++ res1 (w3 w)) ++ res1 (w4 w) in
     print (Turn (mkTurnLine nturns (chain_id chain) resnum1 resnum4 seq
                    (dssp_string e) minturn prevname minD mintheta
                    (CA1_CA4_distance e)
                    (omega2 e) (phi2 e) (psi2 e) (omega3 e) (phi3 e) (psi3 e)
                    (omega4 e) shortfilename))
   else ret tt)
    (after_loop s (snd (nearest e lib 100.0 (minturn s)))
                (flat_map (calls7 e) (map snd lib))).
Proof.
  unfold window_step, lift at 1; cbn [bind M_monad].
  rewrite window_i, eligible.
  cbv zeta; cbn [bind M_monad].
  rewrite (library_loop_run lib e lib lib_lookups); reflexivity.
Qed.

Lemma window_step_reject (s : RunState) :
  Metric.TURN_DIST_CUTOFF < fst (nearest e lib 100.0 (minturn s)) ->
  window_step lib shortfilename chain rows i s =
  (Ok tt, after_loop s (snd (nearest e lib 100.0 (minturn s)))
                     (flat_map (calls7 e) (map snd lib))).
Proof.
  intros Hfar; rewrite window_step_loop; cbv zeta.
  apply Rleb_false in Hfar; rewrite Hfar; reflexivity.
Qed.

Lemma window_step_accept (s : RunState) (minD : R) (turn : string) (c : TurnCluster)
    (resnum1 : Z) :
  nearest e lib 100.0 (minturn s) = (minD, Some turn) ->
  get lib turn = Some c ->
  0 <= minD <= Metric.TURN_DIST_CUTOFF ->
  int_of_str (snd (auth_key (w1 w))) = Ok resnum1 ->
  window_step lib shortfilename chain rows i s =
  (Ok tt,
   mkRunState (nturns s + 1) (Some turn)
              (stdout s ++ [Turn (turn_line shortfilename chain w e resnum1
                                            (nturns s + 1) turn c minD)])%list
              (stderr s)
              (dist_calls s ++ flat_map (calls7 e) (map snd lib))%list).
Proof.
  intros Hnear Hget [Hlo Hhi] Hkey; rewrite window_step_loop, Hnear; cbv zeta.
  cbn [fst snd].
  replace (Rleb minD Metric.TURN_DIST_CUTOFF) with true
    by (symmetry; now apply Rleb_true).
  unfold incr_nturns, lift, read_minturn, print, subscript, after_loop;
    cbn [bind M_monad nturns minturn stdout stderr dist_calls].
  rewrite Hkey, Hget.
  rewrite find_theta_in_range by (unfold Metric.TURN_DIST_CUTOFF in Hhi; lra).
  reflexivity.
Qed.

Lemma window_step_bad_key (s : RunState) (ex : PyError) :
  fst (nearest e lib 100.0 (minturn s)) <= Metric.TURN_DIST_CUTOFF ->
  int_of_str (snd (auth_key (w1 w))) = Raise ex ->
  window_step lib shortfilename chain rows i s =
  (Raise ex,
   mkRunState (nturns s + 1) (snd (nearest e lib 100.0 (minturn s)))
              (stdout s) (stderr s)
              (dist_calls s ++ flat_map (calls7 e) (map snd lib))%list).
Proof.
  intros Hnear Hbad; rewrite window_step_loop; cbv zeta.
  apply Rleb_true in Hnear; rewrite Hnear.
  unfold incr_nturns, lift, after_loop;
    cbn [bind M_monad nturns minturn stdout stderr dist_calls].
  rewrite Hbad; reflexivity.
Qed.

End Step.


(** ** The library of the source *)

Lemma library_lookups : lookups define_turn_library.
Proof. unfold lookups, define_turn_library; repeat constructor. Qed.

Lemma library_size : List.length define_turn_library = 18%nat.
Proof. reflexivity. Qed.

Lemma lookups_nth (lib : pydict string TurnCluster) (k : nat) (t : string) (c : TurnCluster) :
  lookups lib -> nth_error lib k = Some (t, c) -> get lib t = Some c.
Proof.
  intros Hl Hk; apply nth_error_In in Hk.
  unfold lookups in Hl; rewrite Forall_forall in Hl; now apply Hl in Hk.
Qed.

Lemma library_below_initial (e : Eligible) :
  Exists (fun entry => mean_distance e (snd entry) < 100.0) define_turn_library.
Proof.
  apply Exists_cons_hd.
  pose proof (mean_distance_range e (snd ("AD", mkTurnCluster 1 6413 "AD" "I"
      184.88 (-65.27) (-23.52) 182.83 (-98.73) (-18.06) 181.10))) as Hr.
  simpl in *; lra.
Qed.

(** C1. For a window that passes the gate, one iteration of the search
    calls [angle_distance] on the seven pairs (window dihedral, medoid
    angle) of each of the 18 clusters in library order, and there is a cluster of minimum mean
    distance, the first such in library order, for which: if its mean
    distance is at most 0.2359 exactly one line, naming this cluster and
    this distance, is printed and the turn counter advances; otherwise
    nothing is printed; and no exception is raised either way. *)
Theorem classifier_decision (shortfilename : string) (chain : Chain)
    (rows : list Row) (i : nat) (w : Window) (e : Eligible) (s : RunState) :
  get_window rows i = Ok w ->
  gate w = Some e ->
  keyed_by_resnum (w1 w) ->
  let out := window_step define_turn_library shortfilename chain rows i s in
  eligible_angles e = seven_angles w /\
  List.length define_turn_library = 18%nat /\
  called_since s (snd out) (flat_map (calls7 e) (map snd define_turn_library)) /\
  fst out = Ok tt /\
  exists k turn c,
    nth_error define_turn_library k = Some (turn, c) /\
    (forall j t' c',
        nth_error define_turn_library j = Some (t', c') ->
        mean_distance e c <= mean_distance e c' /\
        ((j < k)%nat -> mean_distance e c < mean_distance e c')) /\
    (mean_distance e c <= 0.2359 ->
     printed_since s (snd out)
       [Turn (turn_line shortfilename chain w e (resnum (w1 w)) (nturns s + 1)
                        turn c (mean_distance e c))] /\
     nturns (snd out) = (nturns s + 1)%Z) /\
    (0.2359 < mean_distance e c ->
     printed_since s (snd out) [] /\ nturns (snd out) = nturns s).
Proof.
  intros Hw Hg Hkey out.
  change 0.2359 with Metric.TURN_DIST_CUTOFF.
  destruct (nearest_first_min e define_turn_library 100.0 (minturn s)
              (library_below_initial e))
    as (k & turn & c & Hk & Hnear & Hlt & Hmin).
  pose proof (lookups_nth _ _ _ _ library_lookups Hk) as Hget.
  pose proof (mean_distance_range e c) as [Hlo Hhi].
  split; [apply gate_some_inv in Hg; tauto |].
  split; [reflexivity |].
  destruct (Rle_dec (mean_distance e c) Metric.TURN_DIST_CUTOFF) as [Hnearby | Hfar].
  - assert (Hout : out = (Ok tt,
        mkRunState (nturns s + 1) (Some turn)
          (stdout s ++ [Turn (turn_line shortfilename chain w e (resnum (w1 w))
                                        (nturns s + 1) turn c (mean_distance e c))])%list
          (stderr s)
          (dist_calls s ++ flat_map (calls7 e) (map snd define_turn_library))%list)).
    { subst out; eapply window_step_accept; eauto using library_lookups.
      unfold keyed_by_resnum in Hkey; rewrite Hkey; apply int_of_str_of_int. }
    rewrite Hout; cbn [fst snd].
    split; [reflexivity |].
    split; [reflexivity |].
    exists k, turn, c.
    split; [exact Hk |].
    split; [exact Hmin |].
    split; [intros _; split; reflexivity | intros Hfar; lra].
  - assert (Hfar' : Metric.TURN_DIST_CUTOFF < fst (nearest e define_turn_library 100.0 (minturn s)))
      by (rewrite Hnear; cbn [fst]; lra).
    assert (Hout : out = (Ok tt,
        after_loop s (snd (nearest e define_turn_library 100.0 (minturn s)))
                   (flat_map (calls7 e) (map snd define_turn_library)))).
    { subst out; eapply window_step_reject; eauto using library_lookups. }
    rewrite Hout; cbn [fst snd].
    split; [reflexivity |].
    split; [reflexivity |].
    exists k, turn, c.
    split; [exact Hk |].
    split; [exact Hmin |].
    split; [intros Hnearby; contradiction |].
    intros _; split; [| reflexivity].
    unfold printed_since, after_loop; simpl; now rewrite app_nil_r.
Qed.


(** ** Self-consistency of the library *)

Lemma mean_distance_pos (e : Eligible) (c : TurnCluster) :
  apart (phi2 e) (medoid_phi2 c) \/ apart (psi2 e) (medoid_psi2 c) \/
  apart (phi3 e) (medoid_phi3 c) \/ apart (psi3 e) (medoid_psi3 c) \/
  apart (omega2 e) (medoid_omega2 c) \/ apart (omega3 e) (medoid_omega3 c) \/
  apart (omega4 e) (medoid_omega4 c) ->
  0 < mean_distance e c.
Proof.
  intros Hapart; unfold mean_distance.
  pose proof (angle_distance_range (omega2 e) (medoid_omega2 c)).
  pose proof (angle_distance_range (phi2 e) (medoid_phi2 c)).
  pose proof (angle_distance_range (psi2 e) (medoid_psi2 c)).
  pose proof (angle_distance_range (omega3 e) (medoid_omega3 c)).
  pose proof (angle_distance_range (phi3 e) (medoid_phi3 c)).
  pose proof (angle_distance_range (psi3 e) (medoid_psi3 c)).
  pose proof (angle_distance_range (omega4 e) (medoid_omega4 c)).
  destruct Hapart as [Ha | [Ha | [Ha | [Ha | [Ha | [Ha | Ha]]]]]];
    apply angle_distance_pos in Ha; lra.
Qed.

Lemma mean_distance_at_medoid (e : Eligible) (c : TurnCluster) :
  eligible_angles e = medoid_angles c -> mean_distance e c = 0.
Proof.
  unfold eligible_angles, medoid_angles, mean_distance.
  intros Heq; injection Heq as -> -> -> -> -> -> ->.
  rewrite !angle_distance_refl; lra.
Qed.

Ltac show_apart :=
  unfold apart; simpl;
  first [ left; lra
        | right; left; lra
        | right; right; left; lra
        | right; right; right; left; lra
        | right; right; right; right; left; lra
        | right; right; right; right; right; left; lra
        | right; right; right; right; right; right; lra ].

Ltac other_cluster :=
  let Hne := fresh "Hne" in
  intros Hne;
  first [ exfalso; apply Hne; reflexivity
        | apply mean_distance_pos; show_apart ].

Lemma medoids_apart :
  Forall (fun entry =>
            forall e, eligible_angles e = medoid_angles (snd entry) ->
                      Forall (fun other => fst other <> fst entry ->
                                           0 < mean_distance e (snd other))
                             define_turn_library)
         define_turn_library.
Proof.
  unfold define_turn_library.
  repeat (apply Forall_cons;
          [ intros e He; unfold eligible_angles, medoid_angles in He; simpl in He;
            injection He as E1 E2 E3 E4 E5 E6 E7;
            repeat (apply Forall_cons; [other_cluster |]); apply Forall_nil
          | ]).
  apply Forall_nil.
Qed.


Lemma nearest_at_medoid (entry : string * TurnCluster) (e : Eligible) (mt : option string) :
  In entry define_turn_library ->
  eligible_angles e = medoid_angles (snd entry) ->
  nearest e define_turn_library 100.0 mt = (0, Some (fst entry)).
Proof.
  intros Hin He.
  pose proof medoids_apart as Hapart.
  rewrite Forall_forall in Hapart; specialize (Hapart entry Hin e He).
  rewrite Forall_forall in Hapart.
  destruct (nearest_first_min e define_turn_library 100.0 mt (library_below_initial e))
    as (k & t & c & Hk & Hnear & _ & Hmin).
  destruct (In_nth_error _ _ Hin) as [j Hj].
  destruct entry as [t0 c0]; cbn [fst snd] in *.
  destruct (Hmin j t0 c0 Hj) as [Hle _].
  rewrite (mean_distance_at_medoid e c0 He) in Hle.
  pose proof (mean_distance_range e c) as [Hlo _].
  destruct (string_dec t t0) as [-> | Hne].
  - rewrite Hnear; f_equal; lra.
  - apply nth_error_In in Hk.
    specialize (Hapart (t, c) Hk Hne); cbn [fst snd] in Hapart; lra.
Qed.

(** C8. For each of the 18 clusters of the library and a window whose
    seven dihedrals are the cluster's medoid: the cluster's mean distance is
    0, every other cluster's is positive, and the loop over the library ends
    with [minD] 0 and [minturn] this cluster (which the cutoff accepts). *)
Theorem library_self_consistent :
  List.length define_turn_library = 18%nat /\
  Forall (fun entry =>
            forall e, eligible_angles e = medoid_angles (snd entry) ->
              mean_distance e (snd entry) = 0 /\
              (forall other, In other define_turn_library ->
                             fst other <> fst entry ->
                             0 < mean_distance e (snd other)) /\
              (forall s,
                  library_loop define_turn_library (map fst define_turn_library)
                               e 100.0 s =
                  (Ok 0, after_loop s (Some (fst entry))
                                    (flat_map (calls7 e) (map snd define_turn_library)))) /\
              Rleb 0 Metric.TURN_DIST_CUTOFF = true)
         define_turn_library.
Proof.
  split; [reflexivity |].
  apply Forall_forall; intros entry Hin e He.
  split; [now apply mean_distance_at_medoid |].
  split.
  - pose proof medoids_apart as Hapart.
    rewrite Forall_forall in Hapart; specialize (Hapart entry Hin e He).
    rewrite Forall_forall in Hapart; exact Hapart.
  - split.
    + intros s.
      rewrite (library_loop_run _ e _ library_lookups).
      now rewrite (nearest_at_medoid entry e (minturn s) Hin He).
    + apply Rleb_true; unfold Metric.TURN_DIST_CUTOFF; lra.
Qed.


(** ** Invariants of the scan *)

Lemma advances_refl (s : RunState) : advances s s.
Proof.
  split; exists []; (split; [| constructor]).
  - unfold printed_since; now rewrite app_nil_r.
  - unfold called_since; now rewrite app_nil_r.
Qed.

Lemma advances_trans (s1 s2 s3 : RunState) :
  advances s1 s2 -> advances s2 s3 -> advances s1 s3.
Proof.
  unfold advances, printed_since, called_since.
  intros [(l1 & Hl1 & Fl1) (c1 & Hc1 & Fc1)] [(l2 & Hl2 & Fl2) (c2 & Hc2 & Fc2)].
  split.
  - exists (l1 ++ l2)%list; split; [| now apply Forall_app].
    now rewrite Hl2, Hl1, app_assoc.
  - exists (c1 ++ c2)%list; split; [| now apply Forall_app].
    now rewrite Hc2, Hc1, app_assoc.
Qed.

Lemma for_each_advances {A : Type} (xs : list A) (body : A -> M unit)
    (allowed : PyError -> Prop) :
  (forall x s, In x xs ->
               advances s (snd (body x s)) /\ returns_or allowed (fst (body x s))) ->
  forall s, advances s (snd (for_each xs body s)) /\
            returns_or allowed (fst (for_each xs body s)).
Proof.
  induction xs as [| x xs IH]; intros Hbody s.
  - split; [apply advances_refl | now left].
  - change (for_each (x :: xs) body s)
      with (match body x s with
            | (Ok _, s') => for_each xs body s'
            | (Raise ex, s') => (Raise ex, s')
            end).
    destruct (Hbody x s (or_introl eq_refl)) as [Hadv Hret].
    destruct (body x s) as [[[] | ex] s1]; cbn [fst snd] in *.
    + destruct (IH (fun y s' Hy => Hbody y s' (or_intror Hy)) s1) as [Hadv' Hret'].
      split; [eapply advances_trans; eassumption | exact Hret'].
    + split; assumption.
Qed.

Lemma medoids_resolved :
  Forall (fun entry => Forall (fun a => a <> 999.0) (medoid_angles (snd entry)))
         define_turn_library.
Proof.
  unfold define_turn_library, medoid_angles;
    repeat (apply Forall_cons; [cbn; repeat (apply Forall_cons; [lra |]); apply Forall_nil |]);
    apply Forall_nil.
Qed.

Lemma calls7_resolved (e : Eligible) (c : TurnCluster) :
  Forall (fun a => a <> 999.0) (eligible_angles e) ->
  Forall (fun a => a <> 999.0) (medoid_angles c) ->
  Forall resolved_call (calls7 e c).
Proof.
  unfold eligible_angles, medoid_angles, calls7, resolved_call.
  intros He Hc.
  repeat match goal with
         | H : Forall _ (_ :: _) |- _ => inversion H; subst; clear H
         end.
  repeat constructor; assumption.
Qed.

Lemma library_calls_resolved (e : Eligible) :
  Forall (fun a => a <> 999.0) (eligible_angles e) ->
  Forall resolved_call (flat_map (calls7 e) (map snd define_turn_library)).
Proof.
  intros He.
  pose proof medoids_resolved as Hm.
  induction Hm as [| entry rest Hentry Hrest IH]; [constructor |].
  cbn [map flat_map]; apply Forall_app; split; [| exact IH].
  now apply calls7_resolved.
Qed.


Lemma int_of_str_raises (key : string) (ex : PyError) :
  int_of_str key = Raise ex -> ex = ValueError int_literal_msg.
Proof.
  unfold int_of_str; destruct (NilZero.int_of_string key); [discriminate |].
  now intros [= <-].
Qed.

Lemma window_step_advances (shortfilename : string) (chain : Chain)
    (rows : list Row) (i : nat) (w : Window) (s : RunState) :
  get_window rows i = Ok w ->
  let out := window_step define_turn_library shortfilename chain rows i s in
  advances s (snd out) /\
  returns_or (fun ex => ex = ValueError int_literal_msg /\ ~ keyed_by_resnum (w1 w))
             (fst out).
Proof.
  intros Hw out; subst out.
  destruct (gate w) as [e |] eqn:Hg.
  2: { rewrite (window_step_skip _ _ _ _ _ _ Hw s Hg).
       split; [apply advances_refl | now left]. }
  assert (Hcalls : Forall resolved_call
                          (flat_map (calls7 e) (map snd define_turn_library))).
  { apply library_calls_resolved.
    apply gate_some_inv in Hg; destruct Hg as (_ & _ & _ & Heq & Hall & _).
    unfold eligible_angles; rewrite Heq; exact Hall. }
  destruct (nearest_first_min e define_turn_library 100.0 (minturn s)
              (library_below_initial e))
    as (k & turn & c & Hk & Hnear & Hlt & Hmin).
  pose proof (lookups_nth _ _ _ _ library_lookups Hk) as Hget.
  pose proof (mean_distance_range e c) as [Hlo Hhi].
  destruct (Rle_dec (mean_distance e c) Metric.TURN_DIST_CUTOFF) as [Hnearby | Hfar].
  - destruct (int_of_str (snd (auth_key (w1 w)))) as [resnum1 | ex] eqn:Hkey.
    + rewrite (window_step_accept _ _ _ _ _ _ Hw e Hg library_lookups s
                 (mean_distance e c) turn c resnum1 Hnear Hget (conj Hlo Hnearby) Hkey).
      cbn [fst snd]; split; [| now left].
      split.
      * eexists; split; [reflexivity |].
        constructor; [| constructor].
        cbn; split; [lra |].
        apply find_theta_in_range; unfold Metric.TURN_DIST_CUTOFF in Hnearby; lra.
      * eexists; split; [reflexivity | exact Hcalls].
    + assert (Hle : fst (nearest e define_turn_library 100.0 (minturn s))
                    <= Metric.TURN_DIST_CUTOFF) by (rewrite Hnear; exact Hnearby).
      rewrite (window_step_bad_key _ _ _ _ _ _ Hw e Hg library_lookups s ex Hle Hkey).
      cbn [fst snd]; split.
      * split.
        -- exists []; split; [| constructor].
           unfold printed_since; cbn; now rewrite app_nil_r.
        -- eexists; split; [reflexivity | exact Hcalls].
      * right; exists ex; split; [reflexivity |].
        split; [now apply int_of_str_raises with (key := snd (auth_key (w1 w))) |].
        intros Hk'; unfold keyed_by_resnum in Hk'.
        rewrite Hk', int_of_str_of_int in Hkey; discriminate.
  - assert (Hfar' : Metric.TURN_DIST_CUTOFF
                    < fst (nearest e define_turn_library 100.0 (minturn s)))
      by (rewrite Hnear; cbn [fst]; lra).
    rewrite (window_step_reject _ _ _ _ _ _ Hw e Hg library_lookups s Hfar').
    cbn [fst snd]; split; [| now left].
    split.
    + exists []; split; [| constructor].
      unfold printed_since, after_loop; cbn; now rewrite app_nil_r.
    + eexists; split; [reflexivity | exact Hcalls].
Qed.

Lemma get_window_in_range (rows : list Row) (i : nat) :
  In i (seq 0 (List.length rows - 3)) ->
  exists w, get_window rows i = Ok w /\
            nth_error rows i = Some (w1 w) /\ nth_error rows (i + 1) = Some (w2 w) /\
            nth_error rows (i + 2) = Some (w3 w) /\ nth_error rows (i + 3) = Some (w4 w).
Proof.
  intros Hi; apply in_seq in Hi.
  unfold get_window, index.
  destruct (nth_error rows i) as [r1 |] eqn:H1;
    [| apply nth_error_None in H1; lia].
  destruct (nth_error rows (i + 1)) as [r2 |] eqn:H2;
    [| apply nth_error_None in H2; lia].
  destruct (nth_error rows (i + 2)) as [r3 |] eqn:H3;
    [| apply nth_error_None in H3; lia].
  destruct (nth_error rows (i + 3)) as [r4 |] eqn:H4;
    [| apply nth_error_None in H4; lia].
  exists (mkWindow r1 r2 r3 r4); repeat split.
Qed.

Lemma scan_chain_advances (shortfilename : string) (chain : Chain)
    (rows : list Row) (s : RunState) :
  let out := scan_chain define_turn_library shortfilename chain rows s in
  advances s (snd out) /\
  returns_or (fun ex => ex = ValueError int_literal_msg /\ ~ Forall keyed_by_resnum rows)
             (fst out).
Proof.
  unfold scan_chain; apply for_each_advances.
  intros i s' Hi.
  destruct (get_window_in_range rows i Hi) as (w & Hw & H1 & _).
  destruct (window_step_advances shortfilename chain rows i w s' Hw) as [Hadv Hret].
  split; [exact Hadv |].
  destruct Hret as [Hok | (ex & Hex & Hmsg & Hkey)]; [now left |].
  right; exists ex; repeat split; try assumption.
  intros Hall; apply Hkey.
  rewrite Forall_forall in Hall; apply Hall.
  now apply nth_error_In with i.
Qed.

Lemma find_turns_advances (shortfilename : string)
    (datadict : list (Chain * list Row)) (s : RunState) :
  let out := find_turns define_turn_library shortfilename datadict s in
  advances s (snd out) /\
  returns_or (fun ex => ex = ValueError int_literal_msg /\
                        ~ Forall (fun entry => Forall keyed_by_resnum (snd entry)) datadict)
             (fst out).
Proof.
  unfold find_turns; apply for_each_advances.
  intros [chain rows] s' Hin; cbn [fst snd].
  destruct (scan_chain_advances shortfilename chain rows s') as [Hadv Hret].
  split; [exact Hadv |].
  destruct Hret as [Hok | (ex & Hex & Hmsg & Hkey)]; [now left |].
  right; exists ex; repeat split; try assumption.
  intros Hall; apply Hkey.
  rewrite Forall_forall in Hall; now apply (Hall (chain, rows)).
Qed.

End ClassifierFacts.

(* ================================================================== *)
(** * Properties of the feature table *)

Module TableFacts.

Import Py Bio Run Dihedral Table Library Search Model Examples.
Import MetricFacts DihedralFacts GateFacts ClassifierFacts.

Local Open Scope string_scope.

Lemma same_search_state_refl (s : RunState) : same_search_state s s.
Proof. repeat split. Qed.

Lemma same_search_state_trans (s1 s2 s3 : RunState) :
  same_search_state s1 s2 -> same_search_state s2 s3 -> same_search_state s1 s3.
Proof.
  unfold same_search_state; intros (A1 & A2 & A3 & A4) (B1 & B2 & B3 & B4).
  repeat split; congruence.
Qed.

Section Build.

Context `{BioPDB}.

Variable seqscheme_dict : AnnotationTable.
Variable dssp_dict : AnnotationTable.

Lemma build_row_spec (chain1_id : string) (aa_residues : list Residue) (i : nat)
    (res : Residue) (s : RunState) :
  nth_error aa_residues i = Some res ->
  let out := build_row seqscheme_dict dssp_dict chain1_id aa_residues i res s in
  same_search_state s (snd out) /\
  (fst out = Raise KeyError \/
   exists row, fst out = Ok row /\ row_of chain1_id aa_residues i res row).
Proof.
  intros Hi out; subst out; unfold build_row.
  assert (Hlen : (i < List.length aa_residues)%nat)
    by (apply nth_error_Some; congruence).
  (* phi and omega *)
  assert (Hpo : exists po,
             (if (0 <? i)%nat
              then prev <- lift (index aa_residues (i - 1)) ;;
                   phi <- lift (compute_phi prev res) ;;
                   omega <- lift (compute_omega prev res) ;;
                   ret (phi, omega)
              else ret (999.0, 999.0)) s = (Ok po, s) /\
             (fst po <> 999.0 ->
              exists prev, nth_error aa_residues (i - 1) = Some prev /\ (0 < i)%nat /\
                           seqnum res = (seqnum prev + 1)%Z) /\
             (snd po <> 999.0 ->
              exists prev, nth_error aa_residues (i - 1) = Some prev /\ (0 < i)%nat /\
                           seqnum res = (seqnum prev + 1)%Z)).
  { destruct (0 <? i)%nat eqn:Hpos.
    - apply Nat.ltb_lt in Hpos.
      destruct (nth_error aa_residues (i - 1)) as [prev |] eqn:Hprev;
        [| apply nth_error_None in Hprev; lia].
      destruct (compute_phi_total prev res) as [x Hx].
      destruct (compute_omega_total prev res) as [y Hy].
      exists (x, y); unfold lift, index; cbn [bind M_monad ret].
      rewrite Hprev, Hx, Hy; split; [reflexivity |].
      split; intros Hne; exists prev; repeat split; try assumption.
      + now apply compute_phi_consecutive with x.
      + now apply compute_omega_consecutive with y.
    - exists (999.0, 999.0); split; [reflexivity |].
      split; intros Hne; now contradiction Hne. }
  destruct Hpo as (po & Hpo & Hphi & Homega).
  assert (Hpsi : exists x,
             (if (i + 1 <? List.length aa_residues)%nat
              then next <- lift (index aa_residues (i + 1)) ;; lift (compute_psi res next)
              else ret 999.0) s = (Ok x, s)).
  { destruct (i + 1 <? List.length aa_residues)%nat eqn:Hnext.
    - apply Nat.ltb_lt in Hnext.
      destruct (nth_error aa_residues (i + 1)) as [next |] eqn:Hn;
        [| apply nth_error_None in Hn; lia].
      destruct (compute_psi_total res next) as [x Hx].
      exists x; unfold lift, index; cbn [bind M_monad ret]; now rewrite Hn, Hx.
    - now exists 999.0. }
  destruct Hpsi as (x & Hpsi).
  set (phi_omega_step := if (0 <? i)%nat then _ else _) in *.
  set (psi_step := if (i + 1 <? List.length aa_residues)%nat then _ else _) in *.
  cbn [bind M_monad]; rewrite Hpo, Hpsi; cbv zeta.
  assert (Hca : exists ca,
             forall s', (if has_id res "CA"
                         then v <- lift (get_vector res "CA") ;; ret (Some v)
                         else ret None) s' = (Ok ca, s')).
  { destruct (has_id res "CA") eqn:Hhas.
    - apply has_id_true in Hhas; destruct Hhas as [v Hv].
      exists (Some v); intros s'; unfold lift, get_vector, subscript; cbn [bind M_monad ret].
      now rewrite Hv.
    - now exists None. }
  destruct Hca as (ca & Hca).
  set (ca_step := if has_id res "CA" then _ else _) in *.
  destruct (get seqscheme_dict (chain1_id, str_of_int (seqnum res))) as [scheme |].
  - unfold lift, subscript; cbn [bind M_monad ret].
    destruct (get scheme "asym_id") as [asym |];
      [| split; [apply same_search_state_refl | now left]].
    destruct (get scheme "seq_id") as [seq_id |];
      [| split; [apply same_search_state_refl | now left]].
    rewrite Hca.
    cbn [fst snd]; split; [apply same_search_state_refl |].
    right; eexists; split; [reflexivity |].
    repeat split; assumption.
  - unfold print_stderr; cbn [bind M_monad ret].
    rewrite Hca.
    cbn [fst snd]; split; [repeat split |].
    right; eexists; split; [reflexivity |].
    repeat split; assumption.
Qed.


Lemma build_rows_from_spec (chain1_id : string) (aa_residues : list Residue)
    (todo : list Residue) :
  forall (i : nat) (s : RunState),
    (forall j res, nth_error todo j = Some res ->
                   nth_error aa_residues (i + j) = Some res) ->
    let out := build_rows_from seqscheme_dict dssp_dict chain1_id aa_residues i todo s in
    same_search_state s (snd out) /\
    (fst out = Raise KeyError \/
     exists rows,
       fst out = Ok rows /\
       forall j row,
         nth_error rows j = Some row ->
         exists res, nth_error aa_residues (i + j) = Some res /\
                     row_of chain1_id aa_residues (i + j) res row).
Proof.
  induction todo as [| res todo IH]; intros i s Hin out; subst out.
  - split; [apply same_search_state_refl |].
    right; exists []; split; [reflexivity |].
    intros [| j] row Hj; discriminate.
  - assert (Hi : nth_error aa_residues i = Some res)
      by (rewrite <- (Nat.add_0_r i); now apply Hin).
    change (build_rows_from seqscheme_dict dssp_dict chain1_id aa_residues i (res :: todo) s)
      with (match build_row seqscheme_dict dssp_dict chain1_id aa_residues i res s with
            | (Ok row, s') =>
                match build_rows_from seqscheme_dict dssp_dict chain1_id aa_residues
                                      (S i) todo s' with
                | (Ok rows, s'') => (Ok (row :: rows), s'')
                | (Raise ex, s'') => (Raise ex, s'')
                end
            | (Raise ex, s') => (Raise ex, s')
            end).
    destruct (build_row_spec chain1_id aa_residues i res s Hi) as [Hsame Hrow].
    destruct (build_row seqscheme_dict dssp_dict chain1_id aa_residues i res s)
      as [[row | ex] s1]; cbn [fst snd] in *.
    2: { split; [exact Hsame |]; left.
         destruct Hrow as [Hrow | (row & Hrow & _)]; [now injection Hrow as -> | discriminate]. }
    destruct Hrow as [Hrow | (row' & Hrow & Hof)]; [discriminate |].
    injection Hrow as <-.
    assert (Hin' : forall j r, nth_error todo j = Some r ->
                               nth_error aa_residues (S i + j) = Some r).
    { intros j r Hj; replace (S i + j)%nat with (i + S j)%nat by lia.
      now apply Hin. }
    destruct (IH (S i) s1 Hin') as [Hsame' Hrows].
    destruct (build_rows_from seqscheme_dict dssp_dict chain1_id aa_residues (S i) todo s1)
      as [[rows | ex] s2]; cbn [fst snd] in *.
    2: { split; [eapply same_search_state_trans; eassumption |]; left.
         destruct Hrows as [Hrows | (rows & Hrows & _)]; [now injection Hrows as -> | discriminate]. }
    destruct Hrows as [Hrows | (rows' & Hrows & Hall)]; [discriminate |].
    injection Hrows as <-.
    split; [eapply same_search_state_trans; eassumption |].
    right; exists (row :: rows); split; [reflexivity |].
    intros [| j] r Hj; cbn [nth_error] in Hj.
    + injection Hj as <-; exists res; rewrite Nat.add_0_r; split; assumption.
    + replace (i + S j)%nat with (S i + j)%nat by lia; now apply Hall.
Qed.

Lemma build_chain_spec (chain1 : Chain) (s : RunState) :
  let out := build_chain seqscheme_dict dssp_dict chain1 s in
  same_search_state s (snd out) /\
  (fst out = Raise KeyError \/ fst out = Ok None \/
   exists rows, fst out = Ok (Some (chain1, rows)) /\ table_of chain1 rows).
Proof.
  unfold build_chain; cbv zeta.
  destruct (List.length (filter is_aa (residues chain1)) <? 4)%nat.
  - split; [apply same_search_state_refl | right; now left].
  - cbn [bind M_monad].
    destruct (build_rows_from_spec (chain_id chain1) (filter is_aa (residues chain1))
                (filter is_aa (residues chain1)) 0 s (fun j res Hj => Hj))
      as [Hsame Hrows].
    destruct (build_rows_from seqscheme_dict dssp_dict (chain_id chain1)
                (filter is_aa (residues chain1)) 0 (filter is_aa (residues chain1)) s)
      as [[rows | ex] s1]; cbn [fst snd ret M_monad] in *.
    + split; [exact Hsame |].
      destruct Hrows as [Hrows | (rows' & Hrows & Hall)]; [discriminate |].
      injection Hrows as <-.
      right; right; exists rows; split; [reflexivity | exact Hall].
    + split; [exact Hsame |]; left.
      destruct Hrows as [Hrows | (rows & Hrows & _)]; [now injection Hrows as -> | discriminate].
Qed.

Lemma build_chains_spec (cs : list Chain) :
  forall s,
    let out := build_chains seqscheme_dict dssp_dict cs s in
    same_search_state s (snd out) /\
    (fst out = Raise KeyError \/ exists datadict, fst out = Ok datadict /\ tables datadict).
Proof.
  induction cs as [| chain1 cs IH]; intros s out; subst out.
  - split; [apply same_search_state_refl |].
    right; exists []; split; [reflexivity | constructor].
  - change (build_chains seqscheme_dict dssp_dict (chain1 :: cs) s)
      with (match build_chain seqscheme_dict dssp_dict chain1 s with
            | (Ok entry, s') =>
                match build_chains seqscheme_dict dssp_dict cs s' with
                | (Ok rest, s'') =>
                    (Ok (match entry with Some en => en :: rest | None => rest end), s'')
                | (Raise ex, s'') => (Raise ex, s'')
                end
            | (Raise ex, s') => (Raise ex, s')
            end).
    destruct (build_chain_spec chain1 s) as [Hsame Hentry].
    destruct (build_chain seqscheme_dict dssp_dict chain1 s) as [[entry | ex] s1];
      cbn [fst snd] in *.
    2: { split; [exact Hsame |]; left.
         destruct Hentry as [He | [He | (rows & He & _)]];
           [now injection He as -> | discriminate | discriminate]. }
    destruct (IH s1) as [Hsame' Hrest].
    destruct (build_chains seqscheme_dict dssp_dict cs s1) as [[rest | ex] s2];
      cbn [fst snd] in *.
    2: { split; [eapply same_search_state_trans; eassumption |]; left.
         destruct Hrest as [Hr | (dd & Hr & _)]; [now injection Hr as -> | discriminate]. }
    split; [eapply same_search_state_trans; eassumption |].
    destruct Hrest as [Hr | (dd & Hr & Htabs)]; [discriminate |].
    injection Hr as <-.
    right; eexists; split; [reflexivity |].
    destruct Hentry as [He | [He | (rows & He & Htab)]]; [discriminate | |].
    + injection He as ->; exact Htabs.
    + injection He as ->; constructor; assumption.
Qed.

Lemma build_datadict_spec (structure1 : Structure) :
  forall s,
    let out := build_datadict seqscheme_dict dssp_dict structure1 s in
    same_search_state s (snd out) /\
    (fst out = Raise KeyError \/ exists datadict, fst out = Ok datadict /\ tables datadict).
Proof.
  induction structure1 as [| model1 ms IH]; intros s out; subst out.
  - split; [apply same_search_state_refl |].
    right; exists []; split; [reflexivity | constructor].
  - change (build_datadict seqscheme_dict dssp_dict (model1 :: ms) s)
      with (match build_chains seqscheme_dict dssp_dict (chains model1) s with
            | (Ok here, s') =>
                match build_datadict seqscheme_dict dssp_dict ms s' with
                | (Ok rest, s'') => (Ok (here ++ rest)%list, s'')
                | (Raise ex, s'') => (Raise ex, s'')
                end
            | (Raise ex, s') => (Raise ex, s')
            end).
    destruct (build_chains_spec (chains model1) s) as [Hsame Hhere].
    destruct (build_chains seqscheme_dict dssp_dict (chains model1) s) as [[here | ex] s1];
      cbn [fst snd] in *.
    2: { split; [exact Hsame |]; left.
         destruct Hhere as [Hh | (dd & Hh & _)]; [now injection Hh as -> | discriminate]. }
    destruct (IH s1) as [Hsame' Hrest].
    destruct (build_datadict seqscheme_dict dssp_dict ms s1) as [[rest | ex] s2];
      cbn [fst snd] in *.
    2: { split; [eapply same_search_state_trans; eassumption |]; left.
         destruct Hrest as [Hr | (dd & Hr & _)]; [now injection Hr as -> | discriminate]. }
    split; [eapply same_search_state_trans; eassumption |].
    destruct Hhere as [Hh | (dd1 & Hh & Ht1)]; [discriminate |].
    destruct Hrest as [Hr | (dd2 & Hr & Ht2)]; [discriminate |].
    injection Hh as <-; injection Hr as <-.
    right; eexists; split; [reflexivity | now apply Forall_app].
Qed.

Lemma table_keyed (chain1 : Chain) (rows : list Row) :
  table_of chain1 rows -> Forall keyed_by_resnum rows.
Proof.
  intros Htab; apply Forall_forall; intros row Hin.
  destruct (In_nth_error _ _ Hin) as [j Hj].
  destruct (Htab j row Hj) as (res & _ & Hnum & Hkey & _).
  unfold keyed_by_resnum; now rewrite Hkey, Hnum.
Qed.

End Build.

End TableFacts.

(* ================================================================== *)
(** * Properties of the scan *)

Module ScanFacts.

Import Py Bio Run Dihedral Table Library Search Model Examples.
Import MetricFacts DihedralFacts GateFacts ClassifierFacts TableFacts.

Local Open Scope string_scope.

Lemma not_printed (s : RunState) (l : OutLine) : ~ printed_since s s [l].
Proof.
  unfold printed_since; intros Heq.
  apply (f_equal (@List.length OutLine)) in Heq.
  rewrite length_app in Heq; simpl in Heq; lia.
Qed.

Lemma get_window_inv (rows : list Row) (i : nat) (w : Window) :
  get_window rows i = Ok w ->
  nth_error rows i = Some (w1 w) /\ nth_error rows (i + 1) = Some (w2 w) /\
  nth_error rows (i + 2) = Some (w3 w) /\ nth_error rows (i + 3) = Some (w4 w).
Proof.
  unfold get_window, index.
  destruct (nth_error rows i); [| discriminate].
  destruct (nth_error rows (i + 1)); [| discriminate].
  destruct (nth_error rows (i + 2)); [| discriminate].
  destruct (nth_error rows (i + 3)); [| discriminate].
  cbn; intros [= <-]; repeat split.
Qed.

(** A line is printed by an iteration only for a window that passed the
    gate, and carries the residue number parsed from the first row's key. *)
Lemma window_step_printed (shortfilename : string) (chain : Chain)
    (rows : list Row) (i : nat) (s : RunState) (line : TurnLine) :
  printed_since s (snd (window_step define_turn_library shortfilename chain rows i s))
                [Turn line] ->
  exists w e resnum1,
    get_window rows i = Ok w /\ gate w = Some e /\
    int_of_str (snd (auth_key (w1 w))) = Ok resnum1 /\
    t_res1 line = resnum1 /\ t_res4 line = (resnum1 + 3)%Z /\
    0 <= t_Dist line <= Metric.TURN_DIST_CUTOFF.
Proof.
  intros Hp.
  destruct (get_window rows i) as [w | ex] eqn:Hw.
  2: { exfalso; revert Hp; unfold window_step, lift; cbn [bind M_monad].
       rewrite Hw; apply not_printed. }
  destruct (gate w) as [e |] eqn:Hg.
  2: { exfalso; revert Hp; rewrite (window_step_skip _ _ _ _ _ _ Hw s Hg).
       apply not_printed. }
  destruct (nearest_first_min e define_turn_library 100.0 (minturn s)
              (library_below_initial e))
    as (k & turn & c & Hk & Hnear & Hlt & Hmin).
  pose proof (lookups_nth _ _ _ _ library_lookups Hk) as Hget.
  pose proof (mean_distance_range e c) as [Hlo Hhi].
  destruct (Rle_dec (mean_distance e c) Metric.TURN_DIST_CUTOFF) as [Hnearby | Hfar].
  - destruct (int_of_str (snd (auth_key (w1 w)))) as [resnum1 | ex] eqn:Hkey.
    + rewrite (window_step_accept _ _ _ _ _ _ Hw e Hg library_lookups s
                 (mean_distance e c) turn c resnum1 Hnear Hget (conj Hlo Hnearby) Hkey)
        in Hp.
      unfold printed_since in Hp; cbn [snd stdout] in Hp.
      apply app_inv_head in Hp; injection Hp as <-.
      exists w, e, resnum1; cbn; repeat split; try assumption; reflexivity.
    + exfalso; revert Hp.
      assert (Hle : fst (nearest e define_turn_library 100.0 (minturn s))
                    <= Metric.TURN_DIST_CUTOFF) by (rewrite Hnear; exact Hnearby).
      rewrite (window_step_bad_key _ _ _ _ _ _ Hw e Hg library_lookups s ex Hle Hkey).
      unfold printed_since; cbn [snd stdout]; intros Heq.
      apply (f_equal (@List.length OutLine)) in Heq.
      rewrite length_app in Heq; simpl in Heq; lia.
  - exfalso; revert Hp.
    assert (Hfar' : Metric.TURN_DIST_CUTOFF
                    < fst (nearest e define_turn_library 100.0 (minturn s)))
      by (rewrite Hnear; cbn [fst]; lra).
    rewrite (window_step_reject _ _ _ _ _ _ Hw e Hg library_lookups s Hfar').
    unfold printed_since, after_loop; cbn [snd stdout]; intros Heq.
    apply (f_equal (@List.length OutLine)) in Heq.
    rewrite length_app in Heq; simpl in Heq; lia.
Qed.

(** C9. For a line printed for a window of a chain's table, as [main]
    builds it: the four amino-acid residues of the window have consecutive
    sequence numbers, the line's first residue number is the first residue's
    sequence number, and its last residue number is that number plus 3,
    which is the sequence number of the fourth residue. *)
Theorem last_residue_number `{BioPDB} (seqscheme_dict dssp_dict : AnnotationTable)
    (shortfilename : string) (chain1 : Chain) (rows : list Row)
    (s0 s1 s : RunState) (i : nat) (line : TurnLine) :
  build_chain seqscheme_dict dssp_dict chain1 s0 = (Ok (Some (chain1, rows)), s1) ->
  printed_since s (snd (window_step define_turn_library shortfilename chain1 rows i s))
                [Turn line] ->
  let aa_residues := filter is_aa (residues chain1) in
  exists r1 r2 r3 r4,
    nth_error aa_residues i = Some r1 /\ nth_error aa_residues (i + 1) = Some r2 /\
    nth_error aa_residues (i + 2) = Some r3 /\ nth_error aa_residues (i + 3) = Some r4 /\
    seqnum r2 = (seqnum r1 + 1)%Z /\ seqnum r3 = (seqnum r2 + 1)%Z /\
    seqnum r4 = (seqnum r3 + 1)%Z /\
    t_res1 line = seqnum r1 /\
    t_res4 line = (seqnum r1 + 3)%Z /\
    t_res4 line = seqnum r4.
Proof.
  intros Hbuild Hp aa_residues.
  assert (Htab : table_of chain1 rows).
  { destruct (build_chain_spec seqscheme_dict dssp_dict chain1 s0) as [_ Hspec].
    rewrite Hbuild in Hspec; cbn [fst] in Hspec.
    destruct Hspec as [Hs | [Hs | (rows' & Hs & Ht)]]; try discriminate.
    now injection Hs as <-. }
  apply window_step_printed in Hp.
  destruct Hp as (w & e & resnum1 & Hw & Hg & Hkey & Hres1 & Hres4 & _).
  apply get_window_inv in Hw; destruct Hw as (Hw1 & Hw2 & Hw3 & Hw4).
  destruct (Htab _ _ Hw1) as (r1 & Hr1 & _ & Hkey1 & _).
  destruct (Htab _ _ Hw2) as (r2 & Hr2 & _ & _ & Hphi2 & _).
  destruct (Htab _ _ Hw3) as (r3 & Hr3 & _ & _ & _ & Homega3).
  destruct (Htab _ _ Hw4) as (r4 & Hr4 & _ & _ & _ & Homega4).
  apply gate_some_inv in Hg.
  destruct Hg as (_ & _ & _ & _ & Hall & _).
  unfold seven_angles in Hall.
  repeat match goal with
         | Hf : Forall _ (_ :: _) |- _ =>
             let a := fresh "a" in let l := fresh "l" in
             let Ha := fresh "Ha" in let Hl := fresh "Hl" in
             inversion Hf as [| a l Ha Hl]; clear Hf
         end.
  destruct Hphi2 as (p2 & Hp2 & _ & Hs2); [assumption |].
  destruct Homega3 as (p3 & Hp3 & _ & Hs3); [assumption |].
  destruct Homega4 as (p4 & Hp4 & _ & Hs4); [assumption |].
  replace (i + 1 - 1)%nat with i in Hp2 by lia.
  replace (i + 2 - 1)%nat with (i + 1)%nat in Hp3 by lia.
  replace (i + 3 - 1)%nat with (i + 2)%nat in Hp4 by lia.
  fold aa_residues in Hr1, Hr2, Hr3, Hr4, Hp2, Hp3, Hp4.
  assert (p2 = r1) by congruence; assert (p3 = r2) by congruence;
    assert (p4 = r3) by congruence; subst p2 p3 p4.
  rewrite Hkey1 in Hkey; cbn [snd] in Hkey.
  rewrite int_of_str_of_int in Hkey; injection Hkey as Hnum.
  exists r1, r2, r3, r4; repeat split; try assumption; lia.
Qed.


(** C7. A window with the sentinel among its seven dihedrals is rejected
    by the gate and its iteration leaves the state as it was, the trace of
    [angle_distance] calls included; and over a whole search, whatever the
    table, no call of [angle_distance] has the sentinel as an argument. *)
Theorem sentinel_never_scored :
  (forall w : Window,
      Exists (fun a => a = 999.0) (seven_angles w) ->
      gate w = None /\
      forall shortfilename chain rows i s,
        get_window rows i = Ok w ->
        window_step define_turn_library shortfilename chain rows i s = (Ok tt, s)) /\
  (forall shortfilename datadict s,
      exists calls,
        called_since s (snd (find_turns define_turn_library shortfilename datadict s))
                     calls /\
        Forall (fun call => fst call <> 999.0 /\ snd call <> 999.0) calls).
Proof.
  split.
  - intros w Hex; pose proof (gate_sentinel w Hex) as Hg.
    split; [exact Hg |].
    intros shortfilename chain rows i s Hw.
    now apply window_step_skip with w.
  - intros shortfilename datadict s.
    destruct (find_turns_advances shortfilename datadict s) as [[_ Hcalls] _].
    exact Hcalls.
Qed.

Lemma sentinel_never_scored_example :
  gate ggg_window_broken = None.
Proof.
  apply (proj1 sentinel_never_scored ggg_window_broken).
  unfold seven_angles.
  do 6 apply Exists_cons_tl; apply Exists_cons_hd; reflexivity.
Defined.

Lemma loop_distance_range (e : Eligible) (s : RunState) :
  exists minD s',
    library_loop define_turn_library (map fst define_turn_library) e 100.0 s
    = (Ok minD, s') /\ 0 <= minD <= 4.
Proof.
  rewrite (library_loop_run _ e _ library_lookups).
  destruct (nearest_first_min e define_turn_library 100.0 (minturn s)
              (library_below_initial e))
    as (k & turn & c & _ & Hnear & _ & _).
  do 2 eexists; split; [reflexivity |].
  rewrite Hnear; apply mean_distance_range.
Qed.

Lemma main_runs `{BioPDB} (shortfilename : string)
    (seqscheme_dict dssp_dict : AnnotationTable) (structure1 : Structure)
    (s : RunState) :
  let out := main shortfilename seqscheme_dict dssp_dict structure1 s in
  (fst out = Ok tt \/ fst out = Raise KeyError) /\ advances s (snd out).
Proof.
  unfold main; cbv zeta; cbn [bind M_monad].
  destruct (build_datadict_spec seqscheme_dict dssp_dict structure1 s)
    as [(_ & _ & Hout & Hcalls) Hbuilt].
  destruct (build_datadict seqscheme_dict dssp_dict structure1 s) as [[datadict | ex] s1];
    cbn [fst snd] in *.
  2: { destruct Hbuilt as [Hb | (dd & Hb & _)]; [| discriminate].
       injection Hb as ->; split; [now right |].
       split; exists []; (split; [| constructor]).
       - unfold printed_since; now rewrite Hout, app_nil_r.
       - unfold called_since; now rewrite Hcalls, app_nil_r. }
  destruct Hbuilt as [Hb | (dd & Hb & Htabs)]; [discriminate |].
  injection Hb as <-.
  unfold reset_nturns, print; cbn [bind M_monad nturns minturn stdout stderr dist_calls].
  match goal with
  | |- context [find_turns _ _ _ ?s2] =>
      destruct (find_turns_advances shortfilename datadict s2) as [Hadv Hret];
      destruct (find_turns define_turn_library shortfilename datadict s2) as [r s3]
  end.
  cbn [fst snd] in *; split.
  - destruct Hret as [Hok | (ex & _ & _ & Hkeys)]; [now left |].
    exfalso; apply Hkeys.
    unfold tables in Htabs; rewrite Forall_forall in Htabs.
    apply Forall_forall; intros entry Hin.
    apply (table_keyed (fst entry)); now apply Htabs.
  - destruct Hadv as [(lines & Hl & Fl) (calls & Hc & Fc)].
    unfold printed_since, called_since in *; cbn [stdout dist_calls] in *.
    split.
    + exists (Header :: lines); split; [| constructor; [exact I | exact Fl]].
      unfold printed_since; rewrite Hl, Hout, <- app_assoc; reflexivity.
    + exists calls; split; [| exact Fc].
      unfold called_since; now rewrite Hc, Hcalls.
Qed.

(** C10. The [minD] the loop over the library ends with lies between 0
    and 4.  A search, whatever the table, never raises the [ValueError] of
    [find_theta_in_degrees] nor that of [math.acos]; every line it prints
    has a distance between 0 and 0.2359, for which [find_theta_in_degrees]
    returned the printed angular deviation.  A run of [main] returns
    normally or stops with a [KeyError] while it builds the table. *)
Theorem reporting_transform_never_aborts :
  (forall e s, exists minD s',
      library_loop define_turn_library (map fst define_turn_library) e 100.0 s
      = (Ok minD, s') /\ 0 <= minD <= 4) /\
  (forall shortfilename datadict s,
      let out := find_turns define_turn_library shortfilename datadict s in
      fst out <> Raise (ValueError Metric.theta_domain_msg) /\
      fst out <> Raise (ValueError "math domain error") /\
      (fst out = Ok tt \/ fst out = Raise (ValueError int_literal_msg)) /\
      exists lines,
        printed_since s (snd out) lines /\
        Forall (fun l => match l with
                         | Header => True
                         | Turn t =>
                             0 <= t_Dist t <= 0.2359 /\
                             Metric.find_theta_in_degrees (t_Dist t) = Ok (t_DistAng t)
                         end) lines) /\
  (forall (B : BioPDB) shortfilename seqscheme_dict dssp_dict structure1 s,
      let out := main shortfilename seqscheme_dict dssp_dict structure1 s in
      fst out = Ok tt \/ fst out = Raise KeyError).
Proof.
  split; [exact loop_distance_range |].
  split.
  - intros shortfilename datadict s out; subst out.
    destruct (find_turns_advances shortfilename datadict s) as [[Hlines _] Hret].
    assert (Hres : fst (find_turns define_turn_library shortfilename datadict s) = Ok tt \/
                   fst (find_turns define_turn_library shortfilename datadict s)
                   = Raise (ValueError int_literal_msg)).
    { destruct Hret as [Hok | (ex & Hex & -> & _)]; [now left | now right]. }
    split; [destruct Hres as [-> | ->]; discriminate |].
    split; [destruct Hres as [-> | ->]; discriminate |].
    split; [exact Hres | exact Hlines].
  - intros B shortfilename seqscheme_dict dssp_dict structure1 s.
    apply main_runs.
Qed.

End ScanFacts.

(* ================================================================== *)
(** * The sample inputs, run *)

Module SampleFacts.

Import Py Bio Run Dihedral Table Library Search Model Examples.
Import MetricFacts DihedralFacts GateFacts ClassifierFacts TableFacts ScanFacts.

Local Open Scope string_scope.

Lemma Int_part_IZR (z : Z) : Int_part (IZR z) = z.
Proof.
  unfold Int_part.
  rewrite <- (tech_up (IZR z) (z + 1)); [lia | |]; rewrite plus_IZR; lra.
Qed.

Lemma round_half_even_IZR (z : Z) : round_half_even (IZR z) = z.
Proof.
  unfold round_half_even; rewrite Int_part_IZR.
  destruct (Rlt_dec (IZR z - IZR z) (1 / 2)); [reflexivity | lra].
Qed.

Lemma degrees_radians (x : R) : Metric.degrees (Metric.radians x) = x.
Proof.
  unfold Metric.degrees, Metric.radians; field; apply PI_neq0.
Qed.

(** Rounding to 6 digits leaves a number of at most 6 decimals as it is. *)
Lemma round_decimal (x : R) (z : Z) :
  x * 1000000 = IZR z -> round (Metric.degrees (Metric.radians x)) 6 = x.
Proof.
  intros Hz; rewrite degrees_radians; unfold round.
  change (10 ^ 6)%Z with 1000000%Z.
  rewrite Hz, round_half_even_IZR, <- Hz; field.
Qed.

Lemma sample_rows_built :
  fst (@build_chain sample_bio sample_seqscheme sample_dssp sample_chain initial)
  = Ok (Some (sample_chain, sample_rows)).
Proof.
  unfold build_chain, sample_chain, sample_residues.
  cbn [residues filter is_aa sample_bio List.length Nat.ltb Nat.leb].
  unfold build_rows_from, build_row.
  cbn -[round Metric.degrees Metric.radians].
  rewrite (round_decimal (-60.0) (-60000000)) by lra.
  rewrite (round_decimal 11.10 11100000) by lra.
  rewrite (round_decimal (-86.47) (-86470000)) by lra.
  rewrite (round_decimal 4.44 4440000) by lra.
  rewrite (round_decimal 169.99 169990000) by lra.
  rewrite (round_decimal (-71.39) (-71390000)) by lra.
  rewrite (round_decimal 157.80 157800000) by lra.
  rewrite (round_decimal 175.12 175120000) by lra.
  rewrite (round_decimal 3.0 3000000) by lra.
  reflexivity.
Qed.

Lemma sample_distance : norm (vsub (mkVector 0 0 0) (mkVector 3.0 4 0)) = 5.
Proof.
  unfold norm, vsub; cbn [vx vy vz].
  replace ((0 - 3.0) * (0 - 3.0) + (0 - 4) * (0 - 4) + (0 - 0) * (0 - 0)) with (5 * 5) by lra.
  apply sqrt_square; lra.
Qed.

Lemma sample_window_at : get_window sample_rows 0 = Ok sample_window.
Proof. reflexivity. Qed.

Lemma sample_window_eligible : gate sample_window = Some sample_eligible.
Proof.
  apply (gate_pass sample_window (mkVector 0 0 0) (mkVector 3.0 4 0));
    try reflexivity.
  - rewrite sample_distance; lra.
  - unfold seven_angles; cbn; repeat constructor; lra.
Qed.

Lemma sample_window_keyed : keyed_by_resnum (w1 sample_window).
Proof. reflexivity. Qed.


Lemma sample_medoid : In ("cisDP", cisDP) define_turn_library.
Proof. apply nth_error_In with 17%nat; reflexivity. Qed.

(** The sample window is classified as cisDP at distance 0. *)
Lemma sample_step (shortfilename : string) (s : RunState) :
  window_step define_turn_library shortfilename sample_chain sample_rows 0 s =
  (Ok tt,
   mkRunState (nturns s + 1) (Some "cisDP")
              (stdout s ++ [Turn (turn_line shortfilename sample_chain sample_window
                                            sample_eligible 1 (nturns s + 1)
                                            "cisDP" cisDP 0)])%list
              (stderr s)
              (dist_calls s ++ flat_map (calls7 sample_eligible)
                                        (map snd define_turn_library))%list).
Proof.
  apply window_step_accept.
  - exact sample_window_at.
  - exact sample_window_eligible.
  - exact library_lookups.
  - exact (nearest_at_medoid ("cisDP", cisDP) sample_eligible (minturn s)
                             sample_medoid eq_refl).
  - reflexivity.
  - unfold Metric.TURN_DIST_CUTOFF; lra.
  - reflexivity.
Qed.

Lemma near_window_at : get_window near_rows 0 = Ok near_window.
Proof. reflexivity. Qed.

Lemma near_window_eligible : gate near_window = Some near_eligible.
Proof.
  apply (gate_pass near_window (mkVector 0 0 0) (mkVector 3.0 4 0));
    try reflexivity.
  - rewrite sample_distance; lra.
  - unfold seven_angles; cbn; repeat constructor; lra.
Qed.

Lemma far_window_at : get_window far_rows 0 = Ok far_window.
Proof. reflexivity. Qed.

Lemma far_window_eligible : gate far_window = Some far_eligible.
Proof.
  apply (gate_pass far_window (mkVector 0 0 0) (mkVector 3.0 4 0));
    try reflexivity.
  - rewrite sample_distance; lra.
  - unfold seven_angles; cbn; repeat constructor; lra.
Qed.

Lemma angle_distance_60 (a b : R) : a - b = 60 -> Metric.angle_distance a b = 1.
Proof.
  intros Hd; rewrite MetricFacts.angle_distance_eq, Hd.
  replace (Metric.radians 60) with (PI / 3) by (unfold Metric.radians; field).
  rewrite cos_PI3; lra.
Qed.

Lemma angle_distance_opposed (a b : R) :
  -270 <= a - b <= -90 -> 2 <= Metric.angle_distance a b.
Proof.
  intros [Hlo Hhi]; rewrite MetricFacts.angle_distance_sym, MetricFacts.angle_distance_eq.
  pose proof PI_RGT_0 as Hpi.
  assert (Hc : cos (Metric.radians (b - a)) <= 0).
  { apply cos_le_0; unfold Metric.radians.
    - apply Rmult_le_reg_r with (r := 180 / PI); [apply Rdiv_lt_0_compat; lra |].
      field_simplify; lra.
    - apply Rmult_le_reg_r with (r := 180 / PI); [apply Rdiv_lt_0_compat; lra |].
      field_simplify; lra. }
  lra.
Qed.

(** The near window is at mean distance 1/7 of cisDP and at a positive
    distance of every cluster; the far window is at mean distance 2/7 at
    least of every cluster. *)
Lemma near_cisDP : mean_distance near_eligible cisDP = 1 / 7.
Proof.
  unfold mean_distance, near_eligible, cisDP; cbn.
  rewrite !MetricFacts.angle_distance_refl.
  rewrite (angle_distance_60 64.44 4.44) by lra.
  lra.
Qed.

Lemma near_positive :
  Forall (fun entry => 0 < mean_distance near_eligible (snd entry)) define_turn_library.
Proof.
  unfold define_turn_library.
  repeat (apply Forall_cons; [apply mean_distance_pos; show_apart |]).
  apply Forall_nil.
Qed.

Lemma mean_distance_opposed (e : Eligible) (c : TurnCluster) :
  -270 <= omega4 e - medoid_omega4 c <= -90 -> 2 / 7 <= mean_distance e c.
Proof.
  intros Ho; apply angle_distance_opposed in Ho; unfold mean_distance.
  pose proof (MetricFacts.angle_distance_range (omega2 e) (medoid_omega2 c)).
  pose proof (MetricFacts.angle_distance_range (phi2 e) (medoid_phi2 c)).
  pose proof (MetricFacts.angle_distance_range (psi2 e) (medoid_psi2 c)).
  pose proof (MetricFacts.angle_distance_range (omega3 e) (medoid_omega3 c)).
  pose proof (MetricFacts.angle_distance_range (phi3 e) (medoid_phi3 c)).
  pose proof (MetricFacts.angle_distance_range (psi3 e) (medoid_psi3 c)).
  lra.
Qed.

Lemma far_from_all :
  Forall (fun entry => 2 / 7 <= mean_distance far_eligible (snd entry)) define_turn_library.
Proof.
  unfold define_turn_library.
  repeat (apply Forall_cons; [apply mean_distance_opposed; simpl; lra |]).
  apply Forall_nil.
Qed.

Lemma classifier_decision_witness :
  (exists turn c,
      0 < mean_distance near_eligible c <= 1 / 7 /\
      printed_since initial
        (snd (window_step define_turn_library "sample" sample_chain near_rows 0 initial))
        [Turn (turn_line "sample" sample_chain near_window near_eligible
                         (resnum (w1 near_window)) (nturns initial + 1) turn c
                         (mean_distance near_eligible c))] /\
      nturns (snd (window_step define_turn_library "sample" sample_chain near_rows 0
                               initial)) = (nturns initial + 1)%Z) /\
  (exists c,
      2 / 7 <= mean_distance far_eligible c /\
      printed_since initial
        (snd (window_step define_turn_library "sample" sample_chain far_rows 0 initial))
        [] /\
      nturns (snd (window_step define_turn_library "sample" sample_chain far_rows 0
                               initial)) = nturns initial).
Proof.
  split.
  - pose proof (classifier_decision "sample" sample_chain near_rows 0 near_window
                  near_eligible initial near_window_at near_window_eligible eq_refl) as Hn.
    cbv zeta in Hn.
    destruct Hn as (_ & _ & _ & _ & k & turn & c & Hk & Hmin & Hacc & _).
    assert (Hle : mean_distance near_eligible c <= 1 / 7).
    { rewrite <- near_cisDP.
      exact (proj1 (Hmin 17%nat "cisDP"%string cisDP eq_refl)). }
    assert (Hpos : 0 < mean_distance near_eligible c).
    { pose proof near_positive as Hall; rewrite Forall_forall in Hall.
      exact (Hall (turn, c) (nth_error_In _ _ Hk)). }
    exists turn, c.
    assert (Hcut : mean_distance near_eligible c <= 0.2359) by lra.
    destruct (Hacc Hcut) as [Hp Hn1].
    split; [split; [exact Hpos | exact Hle] |].
    split; [exact Hp | exact Hn1].
  - pose proof (classifier_decision "sample" sample_chain far_rows 0 far_window
                  far_eligible initial far_window_at far_window_eligible eq_refl) as Hf.
    cbv zeta in Hf.
    destruct Hf as (_ & _ & _ & _ & k & turn & c & Hk & _ & _ & Hrej).
    assert (Hge : 2 / 7 <= mean_distance far_eligible c).
    { pose proof far_from_all as Hall; rewrite Forall_forall in Hall.
      exact (Hall (turn, c) (nth_error_In _ _ Hk)). }
    exists c.
    assert (Hcut : 0.2359 < mean_distance far_eligible c) by lra.
    destruct (Hrej Hcut) as [Hp Hn0].
    split; [exact Hge |].
    split; [exact Hp | exact Hn0].
Defined.

Lemma last_residue_number_witness :
  exists r1 r2 r3 r4,
    nth_error (filter (@is_aa sample_bio) (residues sample_chain)) 0 = Some r1 /\
    nth_error (filter (@is_aa sample_bio) (residues sample_chain)) (0 + 1) = Some r2 /\
    nth_error (filter (@is_aa sample_bio) (residues sample_chain)) (0 + 2) = Some r3 /\
    nth_error (filter (@is_aa sample_bio) (residues sample_chain)) (0 + 3) = Some r4 /\
    seqnum r2 = (seqnum r1 + 1)%Z /\ seqnum r3 = (seqnum r2 + 1)%Z /\
    seqnum r4 = (seqnum r3 + 1)%Z /\
    t_res1 sample_line = seqnum r1 /\
    t_res4 sample_line = (seqnum r1 + 3)%Z /\
    t_res4 sample_line = seqnum r4.
Proof.
  apply (@last_residue_number sample_bio sample_seqscheme sample_dssp "sample"
           sample_chain sample_rows initial
           (snd (@build_chain sample_bio sample_seqscheme sample_dssp sample_chain initial))
           initial 0%nat sample_line).
  - rewrite <- sample_rows_built; apply surjective_pairing.
  - rewrite sample_step; reflexivity.
Defined.

End SampleFacts.

(* ================================================================== *)
(** * More on the angular metric *)

Module MetricMore.

Import Metric MetricFacts.

Lemma cos_turns (x : R) (k : Z) : cos (x + 2 * IZR k * PI) = cos x.
Proof.
  destruct (Z_le_gt_dec 0 k) as [Hk | Hk].
  - rewrite <- (Z2Nat.id k Hk), <- INR_IZR_INZ; apply cos_period.
  - replace (IZR k) with (- INR (Z.to_nat (- k))).
    + rewrite <- (cos_period (x + 2 * - INR (Z.to_nat (- k)) * PI) (Z.to_nat (- k))).
      f_equal; lra.
    + rewrite INR_IZR_INZ, Z2Nat.id by lia.
      rewrite opp_IZR; lra.
Qed.

(** X1. The per-angle distance does not change when either angle is shifted
    by whole turns (multiples of 360 degrees). *)
Theorem angle_distance_periodic (a b : R) (k : Z) :
  angle_distance (a + 360 * IZR k) b = angle_distance a b /\
  angle_distance a (b + 360 * IZR k) = angle_distance a b.
Proof.
  assert (Hleft : forall x y j, angle_distance (x + 360 * IZR j) y = angle_distance x y).
  { intros x y j; rewrite !angle_distance_eq.
    replace (radians (x + 360 * IZR j - y)) with (radians (x - y) + 2 * IZR j * PI)
      by (unfold radians; field).
    now rewrite cos_turns. }
  split; [apply Hleft |].
  rewrite (angle_distance_sym a (b + 360 * IZR k)), Hleft; apply angle_distance_sym.
Qed.

Lemma radians_abs (x : R) : radians (Rabs x) = Rabs (radians x).
Proof.
  unfold radians; rewrite Rabs_mult.
  rewrite (Rabs_pos_eq (PI / 180)); [reflexivity |].
  pose proof PI_RGT_0; apply Rlt_le, Rdiv_lt_0_compat; lra.
Qed.

Lemma cos_abs (x : R) : cos (Rabs x) = cos x.
Proof.
  unfold Rabs; destruct (Rcase_abs x); [apply cos_neg | reflexivity].
Qed.

Lemma degrees_of_radians (x : R) : degrees (radians x) = x.
Proof. unfold degrees, radians; field; apply PI_neq0. Qed.

(** X2. For two angles at most 180 degrees apart, [find_theta_in_degrees]
    applied to their [angle_distance] returns the absolute difference of the
    angles. *)
Theorem find_theta_inverts_angle_distance (a b : R) :
  - 180 <= a - b <= 180 ->
  find_theta_in_degrees (angle_distance a b) = Ok (Rabs (a - b)).
Proof.
  intros Hd.
  rewrite find_theta_in_range by apply angle_distance_range.
  rewrite angle_distance_eq.
  replace (1 - 2 * (1 - cos (radians (a - b))) / 2) with (cos (radians (a - b))) by lra.
  rewrite <- cos_abs, <- radians_abs, acos_cos, degrees_of_radians; [reflexivity |].
  assert (Habs : 0 <= Rabs (a - b) <= 180)
    by (split; [apply Rabs_pos | apply Rabs_le; lra]).
  pose proof PI_RGT_0 as Hpi; unfold radians; split.
  - apply Rmult_le_pos; [lra | apply Rlt_le, Rdiv_lt_0_compat; lra].
  - replace PI with (180 * (PI / 180)) at 2 by field.
    apply Rmult_le_compat_r; [apply Rlt_le, Rdiv_lt_0_compat; lra | lra].
Qed.

Lemma find_theta_inverts_angle_distance_witness :
  find_theta_in_degrees (angle_distance 150 (- 150 + 360)) = Ok (Rabs (150 - (- 150 + 360))).
Proof.
  apply (find_theta_inverts_angle_distance 150 (- 150 + 360)); lra.
Defined.

Lemma acos_decreasing (x y : R) : -1 <= x <= 1 -> -1 <= y <= 1 -> x <= y -> acos y <= acos x.
Proof.
  intros Hx Hy Hxy.
  destruct (Rle_dec (acos y) (acos x)) as [Hle | Hgt]; [exact Hle | exfalso].
  apply Rnot_le_lt in Hgt.
  pose proof (acos_bound x) as Bx; pose proof (acos_bound y) as By.
  assert (Hcos : cos (acos y) < cos (acos x)) by (apply cos_decreasing_1; lra).
  rewrite !cos_acos in Hcos by assumption; lra.
Qed.

(** X3. On the range from 0 to 4 [find_theta_in_degrees] returns values
    between 0 and 180 degrees and is monotone: a larger distance gives a
    larger (or equal) angular deviation. *)
Theorem find_theta_monotone (D1 D2 : R) :
  0 <= D1 -> D1 <= D2 -> D2 <= 4 ->
  exists t1 t2,
    find_theta_in_degrees D1 = Ok t1 /\ find_theta_in_degrees D2 = Ok t2 /\
    0 <= t1 /\ t1 <= t2 /\ t2 <= 180.
Proof.
  intros H0 H12 H4.
  rewrite !find_theta_in_range by lra.
  do 2 eexists; split; [reflexivity |]; split; [reflexivity |].
  pose proof PI_RGT_0 as Hpi.
  assert (Hk : 0 < 180 / PI) by (apply Rdiv_lt_0_compat; lra).
  pose proof (acos_bound (1 - D1 / 2)) as [B1 _].
  pose proof (acos_bound (1 - D2 / 2)) as [_ B2].
  assert (Hm : acos (1 - D1 / 2) <= acos (1 - D2 / 2))
    by (apply acos_decreasing; lra).
  unfold degrees; split; [apply Rmult_le_pos; lra |].
  split; [apply Rmult_le_compat_r; lra |].
  replace 180 with (PI * (180 / PI)) at 2 by (field; lra).
  apply Rmult_le_compat_r; lra.
Qed.

Lemma find_theta_monotone_witness :
  exists t1 t2,
    find_theta_in_degrees 0 = Ok t1 /\ find_theta_in_degrees 0.2359 = Ok t2 /\
    0 <= t1 /\ t1 <= t2 /\ t2 <= 180.
Proof.
  apply (find_theta_monotone 0 0.2359); lra.
Defined.

End MetricMore.

(* ================================================================== *)
(** * What a search prints *)

Module ReportFacts.

Import Py Bio Run Dihedral Table Library Search Model Examples Report.
Import MetricFacts DihedralFacts GateFacts ClassifierFacts TableFacts ScanFacts MetricMore.

Local Open Scope string_scope.

Lemma map_seq_shift {B : Type} (f : nat -> B) (a k : nat) :
  forall start, map f (seq (start + a) k) = map (fun j => f (j + a)%nat) (seq start k).
Proof.
  induction k as [| k IH]; intros start; [reflexivity |].
  cbn [seq map]; f_equal; apply (IH (S start)).
Qed.

Lemma count_from_app (n : Z) (k1 k2 : nat) :
  count_from n (k1 + k2) =
  (count_from n k1 ++ count_from (n + Z.of_nat k1) k2)%list.
Proof.
  unfold count_from; rewrite seq_app, map_app; f_equal.
  rewrite (map_seq_shift _ k1 k2 0).
  apply map_ext; intros j; lia.
Qed.

Lemma search_step_refl (Q : TurnLine -> Prop) (s : RunState) : search_step Q s (Ok tt) s.
Proof.
  exists []; repeat split; try constructor.
  - unfold printed_since; cbn; now rewrite app_nil_r.
  - cbn; lia.
Qed.

Lemma search_step_trans (Q : TurnLine -> Prop) (s1 s2 s3 : RunState) (r : result unit) :
  search_step Q s1 (Ok tt) s2 -> search_step Q s2 r s3 -> search_step Q s1 r s3.
Proof.
  intros (ts1 & P1 & F1 & N1 & E1 & C1) (ts2 & P2 & F2 & N2 & E2 & C2).
  specialize (C1 eq_refl).
  exists (ts1 ++ ts2)%list; unfold printed_since in *.
  split; [rewrite P2, P1, map_app, app_assoc; reflexivity |].
  split; [now apply Forall_app |].
  split; [rewrite map_app, length_app, count_from_app, N1, N2, C1; reflexivity |].
  split; [congruence |].
  intros Hr; rewrite (C2 Hr), C1, length_app; lia.
Qed.

Lemma search_step_weaken (Q Q' : TurnLine -> Prop) (s s' : RunState) (r : result unit) :
  (forall t, Q t -> Q' t) -> search_step Q s r s' -> search_step Q' s r s'.
Proof.
  intros Himp (ts & P & F & N & E & C); exists ts; repeat split; try assumption.
  eapply Forall_impl; eassumption.
Qed.

Lemma for_each_search_step {A : Type} (Q : TurnLine -> Prop) (xs : list A)
    (body : A -> M unit) :
  (forall x s, In x xs -> search_step Q s (fst (body x s)) (snd (body x s))) ->
  forall s, search_step Q s (fst (for_each xs body s)) (snd (for_each xs body s)).
Proof.
  induction xs as [| x xs IH]; intros Hbody s.
  - apply search_step_refl.
  - change (for_each (x :: xs) body s)
      with (match body x s with
            | (Ok _, s') => for_each xs body s'
            | (Raise ex, s') => (Raise ex, s')
            end).
    pose proof (Hbody x s (or_introl eq_refl)) as Hx.
    destruct (body x s) as [[[] | ex] s1]; cbn [fst snd] in *.
    + eapply search_step_trans; [exact Hx |].
      apply IH; intros y s' Hy; apply Hbody; now right.
    + exact Hx.
Qed.

Lemma quiet_step (Q : TurnLine -> Prop) (s s' : RunState) (r : result unit) :
  stdout s' = stdout s -> stderr s' = stderr s ->
  (r = Ok tt -> nturns s' = nturns s) ->
  search_step Q s r s'.
Proof.
  intros Ho He Hn; exists []; repeat split; try constructor; try assumption.
  - unfold printed_since; cbn; now rewrite app_nil_r.
  - intros Hr; cbn; rewrite (Hn Hr); lia.
Qed.

(** One iteration either prints nothing, or returns normally having printed
    exactly one line, numbered by the advanced counter. *)
Lemma window_step_cases (shortfilename : string) (chain : Chain)
    (rows : list Row) (i : nat) (s : RunState) :
  let out := window_step define_turn_library shortfilename chain rows i s in
  (stdout (snd out) = stdout s /\ stderr (snd out) = stderr s /\
   (fst out = Ok tt -> nturns (snd out) = nturns s)) \/
  (exists t, stdout (snd out) = (stdout s ++ [Turn t])%list /\
             stderr (snd out) = stderr s /\
             fst out = Ok tt /\
             nturns (snd out) = (nturns s + 1)%Z /\
             t_num t = (nturns s + 1)%Z /\
             reports shortfilename chain rows i t).
Proof.
  intros out; subst out.
  destruct (get_window rows i) as [w | ex] eqn:Hw.
  2: { unfold window_step, lift; cbn [bind M_monad]; rewrite Hw; cbn [fst snd].
       left; repeat split. }
  destruct (gate w) as [e |] eqn:Hg.
  2: { rewrite (window_step_skip _ _ _ _ _ _ Hw s Hg); cbn [fst snd].
       left; repeat split. }
  destruct (nearest_first_min e define_turn_library 100.0 (minturn s)
              (library_below_initial e))
    as (k & turn & c & Hk & Hnear & Hlt & Hmin).
  pose proof (lookups_nth _ _ _ _ library_lookups Hk) as Hget.
  pose proof (mean_distance_range e c) as [Hlo Hhi].
  destruct (Rle_dec (mean_distance e c) Metric.TURN_DIST_CUTOFF) as [Hnearby | Hfar].
  - destruct (int_of_str (snd (auth_key (w1 w)))) as [resnum1 | ex] eqn:Hkey.
    + rewrite (window_step_accept _ _ _ _ _ _ Hw e Hg library_lookups s
                 (mean_distance e c) turn c resnum1 Hnear Hget (conj Hlo Hnearby) Hkey).
      cbn [fst snd stdout stderr nturns]; right.
      eexists; split; [reflexivity |].
      split; [reflexivity |]; split; [reflexivity |]; split; [reflexivity |].
      split; [reflexivity |].
      exists w, e, turn, c, resnum1; repeat split; try assumption.
      * now apply nth_error_In with k.
      * intros [t' c'] Hin; destruct (In_nth_error _ _ Hin) as [j Hj].
        now apply (Hmin j t' c').
    + assert (Hle : fst (nearest e define_turn_library 100.0 (minturn s))
                    <= Metric.TURN_DIST_CUTOFF) by (rewrite Hnear; exact Hnearby).
      rewrite (window_step_bad_key _ _ _ _ _ _ Hw e Hg library_lookups s ex Hle Hkey).
      cbn [fst snd]; left; repeat split; discriminate.
  - assert (Hfar' : Metric.TURN_DIST_CUTOFF
                    < fst (nearest e define_turn_library 100.0 (minturn s)))
      by (rewrite Hnear; cbn [fst]; lra).
    rewrite (window_step_reject _ _ _ _ _ _ Hw e Hg library_lookups s Hfar').
    cbn [fst snd]; left; repeat split.
Qed.

Lemma window_step_reports (shortfilename : string) (chain : Chain)
    (rows : list Row) (i : nat) (s : RunState) :
  let out := window_step define_turn_library shortfilename chain rows i s in
  search_step (reports shortfilename chain rows i) s (fst out) (snd out).
Proof.
  intros out; subst out.
  destruct (window_step_cases shortfilename chain rows i s)
    as [(Ho & He & Hn) | (t & Ho & He & Hr & Hn & Ht & Hrep)].
  - now apply quiet_step.
  - exists [t].
    split; [exact Ho |].
    split; [constructor; [exact Hrep | constructor] |].
    split; [cbn; now rewrite Ht, Z.add_0_r |].
    split; [exact He |].
    intros _; rewrite Hn; cbn; lia.
Qed.

Lemma scan_chain_reports (shortfilename : string) (chain : Chain) (rows : list Row)
    (s : RunState) :
  let out := scan_chain define_turn_library shortfilename chain rows s in
  search_step (fun t => exists i, (i + 3 < List.length rows)%nat /\
                                  reports shortfilename chain rows i t)
              s (fst out) (snd out).
Proof.
  unfold scan_chain; apply for_each_search_step.
  intros i s' Hi; apply in_seq in Hi.
  eapply search_step_weaken; [| apply window_step_reports].
  intros t Ht; exists i; split; [lia | exact Ht].
Qed.

Lemma find_turns_reports (shortfilename : string) (datadict : list (Chain * list Row))
    (s : RunState) :
  let out := find_turns define_turn_library shortfilename datadict s in
  search_step (reported_from shortfilename datadict) s (fst out) (snd out).
Proof.
  unfold find_turns; apply for_each_search_step.
  intros [chain rows] s' Hin; cbn [fst snd].
  eapply search_step_weaken; [| apply scan_chain_reports].
  intros t (i & Hi & Ht); exists chain, rows, i; auto.
Qed.


(** X4. The lines a search prints are turn lines, numbered consecutively
    across chains from the counter's value plus one; on a normal return the
    counter has advanced by the number of lines; and the search writes
    nothing to standard error. *)
Theorem turn_numbers_consecutive (shortfilename : string)
    (datadict : list (Chain * list Row)) (s : RunState) :
  let out := find_turns define_turn_library shortfilename datadict s in
  exists ts,
    printed_since s (snd out) (map Turn ts) /\
    map t_num ts = count_from (nturns s) (List.length ts) /\
    (fst out = Ok tt -> nturns (snd out) = (nturns s + Z.of_nat (List.length ts))%Z) /\
    stderr (snd out) = stderr s.
Proof.
  destruct (find_turns_reports shortfilename datadict s) as (ts & P & _ & N & E & C).
  exists ts; split; [exact P |]; split; [exact N |]; split; [exact C | exact E].
Qed.

(** X5. Every line a search prints reports a window of one of the tables
    that passed the gate: its type is a cluster of minimum mean distance over
    the library, this distance is at most 0.2359, and every field of the line
    but its number is that of the window, the cluster and the run: the chain
    id, the first residue number (the number in the key of the window's
    first row) and the last (the first plus 3), the sequence (the four
    one-letter codes), the secondary-structure string, the type and previous
    name, the distance and its angular deviation, the C-alpha distance, the
    seven dihedrals and the file tag. *)
Theorem printed_lines_report_windows (shortfilename : string)
    (datadict : list (Chain * list Row)) (s : RunState) :
  let out := find_turns define_turn_library shortfilename datadict s in
  exists ts,
    printed_since s (snd out) (map Turn ts) /\
    Forall (fun t =>
              exists chain rows i w e turn c,
                In (chain, rows) datadict /\ (i + 3 < List.length rows)%nat /\
                get_window rows i = Ok w /\ gate w = Some e /\
                In (turn, c) define_turn_library /\
                (forall other, In other define_turn_library ->
                               mean_distance e c <= mean_distance e (snd other)) /\
                mean_distance e c <= 0.2359 /\
                t_chn t = chain_id chain /\
                int_of_str (snd (auth_key (w1 w))) = Ok (t_res1 t) /\
                t_res4 t = (t_res1 t + 3)%Z /\
                t_seq t = ((res1 (w1 w) ++ res1 (w2 w)) ++ res1 (w3 w)) ++ res1 (w4 w) /\
                t_dssp t = window_dssp w /\
                t_type t = turn /\ t_prev_name t = prev_name c /\
                t_Dist t = mean_distance e c /\
                t_DistAng t = Metric.degrees (acos (1 - mean_distance e c / 2)) /\
                t_CA1_CA4 t = CA1_CA4_distance e /\
                line_angles t = seven_angles w /\
                t_filename t = shortfilename)
           ts.
Proof.
  destruct (find_turns_reports shortfilename datadict s) as (ts & P & F & _).
  exists ts; split; [exact P |].
  eapply Forall_impl; [| exact F].
  intros t (chain & rows & i & Hin & Hi & Hrep).
  destruct Hrep as (w & e & turn & c & resnum1 & Hw & Hg & Hlib & Hget & Hmin & Hcut & Hkey & Ht).
  exists chain, rows, i, w, e, turn, c.
  pose proof (gate_some_inv w e Hg) as (_ & _ & Hd & Ha & _).
  rewrite Ht; unfold turn_line, line_angles;
    cbn [t_chn t_res1 t_res4 t_seq t_type t_prev_name t_Dist t_DistAng t_CA1_CA4
         t_dssp t_filename
         t_omega2 t_phi2 t_psi2 t_omega3 t_phi3 t_psi3 t_omega4].
  unfold Metric.TURN_DIST_CUTOFF in Hcut.
  split; [exact Hin |].
  split; [exact Hi |].
  split; [exact Hw |].
  split; [exact Hg |].
  split; [exact Hlib |].
  split; [exact Hmin |].
  split; [exact Hcut |].
  split; [reflexivity |].
  split; [exact Hkey |].
  split; [reflexivity |].
  split; [reflexivity |].
  split; [exact Hd |].
  split; [reflexivity |].
  split; [reflexivity |].
  split; [reflexivity |].
  split; [reflexivity |].
  split; [reflexivity |].
  split; [exact Ha | reflexivity].
Qed.


Lemma norm_nonneg (v : Vector) : 0 <= norm v.
Proof. unfold norm; apply sqrt_pos. Qed.

Lemma reports_fields (shortfilename : string) (chain : Chain) (rows : list Row)
    (i : nat) (t : TurnLine) :
  reports shortfilename chain rows i t ->
  t_res4 t = (t_res1 t + 3)%Z /\
  0 <= t_CA1_CA4 t <= 7.0 /\
  Forall (fun a => a <> 999.0) (line_angles t) /\
  t_dssp t <> "HGGG" /\ t_dssp t <> "GGGH" /\ t_dssp t <> "GGGG" /\
  exists c, get define_turn_library (t_type t) = Some c /\
            t_prev_name t = prev_name c.
Proof.
  intros (w & e & turn & c & resnum1 & Hw & Hg & Hlib & Hget & Hmin & Hcut & Hkey & Ht).
  pose proof (gate_some_inv w e Hg)
    as ((ca1 & ca4 & _ & _ & Hca) & Hle & Hd & Ha & Hall & (N1 & N2 & N3) & _).
  rewrite Ht; unfold turn_line, line_angles;
    cbn [t_res1 t_res4 t_CA1_CA4 t_dssp t_type t_prev_name
         t_omega2 t_phi2 t_psi2 t_omega3 t_phi3 t_psi3 t_omega4].
  split; [reflexivity |].
  split; [split; [rewrite Hca; apply norm_nonneg | exact Hle] |].
  split; [rewrite Ha; exact Hall |].
  rewrite Hd.
  split; [now apply String.eqb_neq |].
  split; [now apply String.eqb_neq |].
  split; [now apply String.eqb_neq |].
  exists c; split; [exact Hget | reflexivity].
Qed.

(** X6. A search never prints a line whose last residue number is not the
    first plus 3, whose C-alpha distance exceeds 7.0, that shows the sentinel
    among its seven dihedrals, whose secondary-structure string is HGGG,
    GGGH or GGGG, or whose type is not a key of the library with the printed
    previous name. *)
Theorem printed_lines_well_formed (shortfilename : string)
    (datadict : list (Chain * list Row)) (s : RunState) :
  let out := find_turns define_turn_library shortfilename datadict s in
  exists ts,
    printed_since s (snd out) (map Turn ts) /\
    Forall (fun t =>
              t_res4 t = (t_res1 t + 3)%Z /\
              0 <= t_CA1_CA4 t <= 7.0 /\
              Forall (fun a => a <> 999.0) (line_angles t) /\
              t_dssp t <> "HGGG" /\ t_dssp t <> "GGGH" /\ t_dssp t <> "GGGG" /\
              exists c, get define_turn_library (t_type t) = Some c /\
                        t_prev_name t = prev_name c)
           ts.
Proof.
  destruct (find_turns_reports shortfilename datadict s) as (ts & P & F & _).
  exists ts; split; [exact P |].
  eapply Forall_impl; [| exact F].
  intros t (chain & rows & i & _ & _ & Hrep).
  now apply reports_fields with shortfilename chain rows i.
Qed.

Lemma close_angle (a m bound : R) :
  Metric.angle_distance a m <= bound ->
  1 - bound / 2 <= cos (Metric.radians (a - m)).
Proof. rewrite angle_distance_eq; lra. Qed.

Lemma mean_distance_parts (e : Eligible) (c : TurnCluster) (bound : R) :
  mean_distance e c <= bound ->
  Forall2 (fun a m => Metric.angle_distance a m <= 7 * bound)
          (eligible_angles e) (medoid_angles c).
Proof.
  unfold mean_distance, eligible_angles, medoid_angles; intros Hm.
  pose proof (angle_distance_range (omega2 e) (medoid_omega2 c)).
  pose proof (angle_distance_range (phi2 e) (medoid_phi2 c)).
  pose proof (angle_distance_range (psi2 e) (medoid_psi2 c)).
  pose proof (angle_distance_range (omega3 e) (medoid_omega3 c)).
  pose proof (angle_distance_range (phi3 e) (medoid_phi3 c)).
  pose proof (angle_distance_range (psi3 e) (medoid_psi3 c)).
  pose proof (angle_distance_range (omega4 e) (medoid_omega4 c)).
  repeat (apply Forall2_cons; [lra |]); apply Forall2_nil.
Qed.

(** X7. In every printed line each of the seven dihedrals is close to the
    corresponding medoid angle of the printed cluster: their per-angle
    distance is at most 7 * 0.2359, so the cosine of their difference exceeds
    0.17 (they are less than a quarter turn apart). *)
Theorem printed_angles_near_medoid (shortfilename : string)
    (datadict : list (Chain * list Row)) (s : RunState) :
  let out := find_turns define_turn_library shortfilename datadict s in
  exists ts,
    printed_since s (snd out) (map Turn ts) /\
    Forall (fun t =>
              exists c, get define_turn_library (t_type t) = Some c /\
                        Forall2 (fun a m =>
                                   Metric.angle_distance a m <= 7 * 0.2359 /\
                                   0.17 < cos (Metric.radians (a - m)))
                                (line_angles t) (medoid_angles c))
           ts.
Proof.
  destruct (find_turns_reports shortfilename datadict s) as (ts & P & F & _).
  exists ts; split; [exact P |].
  eapply Forall_impl; [| exact F].
  intros t (chain & rows & i & _ & _ & Hrep).
  destruct Hrep as (w & e & turn & c & resnum1 & Hw & Hg & Hlib & Hget & Hmin & Hcut & Hkey & Ht).
  exists c; rewrite Ht; unfold turn_line, line_angles;
    cbn [t_type t_omega2 t_phi2 t_psi2 t_omega3 t_phi3 t_psi3 t_omega4].
  split; [exact Hget |].
  apply mean_distance_parts in Hcut; unfold Metric.TURN_DIST_CUTOFF in Hcut.
  eapply Forall2_impl; [| exact Hcut].
  intros a m Ham; split; [exact Ham |].
  apply close_angle in Ham; lra.
Qed.

Lemma theta_at_most_30 (D : R) :
  0 <= D <= 0.2359 -> 0 <= Metric.degrees (acos (1 - D / 2)) <= 30.
Proof.
  intros [Hlo Hhi].
  pose proof PI_RGT_0 as Hpi.
  assert (Hk : 0 < 180 / PI) by (apply Rdiv_lt_0_compat; lra).
  pose proof (acos_bound (1 - D / 2)) as [B0 _].
  assert (Hs : sqrt 3 / 2 <= 1 - D / 2).
  { assert (H3 : sqrt 3 <= 1.7641).
    { replace 1.7641 with (sqrt (1.7641 * 1.7641)) by (apply sqrt_square; lra).
      apply sqrt_le_1; lra. }
    lra. }
  assert (Hsq : 0 <= sqrt 3) by apply sqrt_pos.
  assert (Hc : acos (1 - D / 2) <= PI / 6).
  { rewrite <- (acos_cos (PI / 6)) by lra.
    rewrite cos_PI6; apply acos_decreasing; lra. }
  unfold Metric.degrees; split; [apply Rmult_le_pos; lra |].
  replace 30 with (PI / 6 * (180 / PI)) by (field; lra).
  apply Rmult_le_compat_r; lra.
Qed.

(** X8. The angular deviation of every printed line lies between 0 and 30
    degrees. *)
Theorem printed_deviation_at_most_30 (shortfilename : string)
    (datadict : list (Chain * list Row)) (s : RunState) :
  let out := find_turns define_turn_library shortfilename datadict s in
  exists ts,
    printed_since s (snd out) (map Turn ts) /\
    Forall (fun t => 0 <= t_DistAng t <= 30) ts.
Proof.
  destruct (find_turns_reports shortfilename datadict s) as (ts & P & F & _).
  exists ts; split; [exact P |].
  eapply Forall_impl; [| exact F].
  intros t (chain & rows & i & _ & _ & Hrep).
  destruct Hrep as (w & e & turn & c & resnum1 & Hw & Hg & Hlib & Hget & Hmin & Hcut & Hkey & Ht).
  rewrite Ht; unfold turn_line; cbn [t_DistAng].
  apply theta_at_most_30; split; [apply mean_distance_range | exact Hcut].
Qed.


Lemma for_each_prints_at_most {A : Type} (bound : A -> nat) (xs : list A)
    (body : A -> M unit) :
  (forall x s, In x xs ->
               exists ls, printed_since s (snd (body x s)) ls /\
                          (List.length ls <= bound x)%nat) ->
  forall s, exists ls, printed_since s (snd (for_each xs body s)) ls /\
                       (List.length ls <= list_sum (map bound xs))%nat.
Proof.
  induction xs as [| x xs IH]; intros Hbody s.
  - exists []; split; [unfold printed_since; cbn; now rewrite app_nil_r | cbn; lia].
  - change (for_each (x :: xs) body s)
      with (match body x s with
            | (Ok _, s') => for_each xs body s'
            | (Raise ex, s') => (Raise ex, s')
            end).
    destruct (Hbody x s (or_introl eq_refl)) as (l1 & P1 & B1).
    destruct (body x s) as [[[] | ex] s1]; cbn [fst snd] in *.
    + destruct (IH (fun y s' Hy => Hbody y s' (or_intror Hy)) s1) as (l2 & P2 & B2).
      exists (l1 ++ l2)%list; unfold printed_since in *; split.
      * now rewrite P2, P1, app_assoc.
      * rewrite length_app.
        change (list_sum (map bound (x :: xs)))
          with (bound x + list_sum (map bound xs))%nat; lia.
    + exists l1; split; [exact P1 |].
      change (list_sum (map bound (x :: xs)))
        with (bound x + list_sum (map bound xs))%nat; lia.
Qed.

Lemma list_sum_ones {A : Type} (xs : list A) :
  list_sum (map (fun _ => 1%nat) xs) = List.length xs.
Proof.
  induction xs as [| x xs IH]; [reflexivity |].
  change (list_sum (map (fun _ : A => 1%nat) (x :: xs)))
    with (1 + list_sum (map (fun _ : A => 1%nat) xs))%nat.
  rewrite IH; reflexivity.
Qed.

Lemma scan_chain_prints_at_most (shortfilename : string) (chain : Chain)
    (rows : list Row) (s : RunState) :
  exists ls,
    printed_since s (snd (scan_chain define_turn_library shortfilename chain rows s)) ls /\
    (List.length ls <= List.length rows - 3)%nat.
Proof.
  unfold scan_chain.
  destruct (for_each_prints_at_most (fun _ : nat => 1%nat)
              (seq 0 (List.length rows - 3))
              (window_step define_turn_library shortfilename chain rows)) with (s := s)
    as (ls & P & B).
  - intros i s' _.
    destruct (window_step_cases shortfilename chain rows i s')
      as [(Ho & _) | (t & Ho & _)].
    + exists []; split; [unfold printed_since; rewrite Ho; cbn; now rewrite app_nil_r | cbn; lia].
    + exists [Turn t]; split; [exact Ho | cbn; lia].
  - exists ls; split; [exact P |].
    now rewrite list_sum_ones, length_seq in B.
Qed.

(** X9. The scan of a chain's table prints at most one line per window,
    that is at most (number of rows - 3) lines, so none for fewer than 4
    rows; a search prints at most the sum of these bounds over the chains. *)
Theorem lines_bounded_by_windows :
  (forall shortfilename chain rows s,
      exists ls,
        printed_since s (snd (scan_chain define_turn_library shortfilename chain rows s)) ls /\
        (List.length ls <= List.length rows - 3)%nat) /\
  (forall shortfilename datadict s,
      exists ls,
        printed_since s (snd (find_turns define_turn_library shortfilename datadict s)) ls /\
        (List.length ls
         <= list_sum (map (fun entry => List.length (snd entry) - 3) datadict))%nat).
Proof.
  split; [exact scan_chain_prints_at_most |].
  intros shortfilename datadict s; unfold find_turns.
  apply for_each_prints_at_most.
  intros [chain rows] s' _; cbn [fst snd]; apply scan_chain_prints_at_most.
Qed.

(** X10. A run of [main] either stops with [KeyError] while it builds the
    table, having printed nothing, or returns normally having printed the
    header followed by turn lines numbered 1, 2, ... in one sequence for the
    whole run, with the counter equal to their number. *)
Theorem main_output_shape `{BioPDB} (shortfilename : string)
    (seqscheme_dict dssp_dict : AnnotationTable) (structure1 : Structure)
    (s : RunState) :
  let out := main shortfilename seqscheme_dict dssp_dict structure1 s in
  (fst out = Raise KeyError /\ stdout (snd out) = stdout s) \/
  (fst out = Ok tt /\
   exists ts,
     stdout (snd out) = (stdout s ++ Header :: map Turn ts)%list /\
     map t_num ts = count_from 0 (List.length ts) /\
     nturns (snd out) = Z.of_nat (List.length ts)).
Proof.
  unfold main; cbv zeta; cbn [bind M_monad].
  destruct (build_datadict_spec seqscheme_dict dssp_dict structure1 s)
    as [(_ & _ & Hout & _) Hbuilt].
  destruct (build_datadict seqscheme_dict dssp_dict structure1 s) as [[datadict | ex] s1];
    cbn [fst snd] in *.
  2: { destruct Hbuilt as [Hb | (dd & Hb & _)]; [| discriminate].
       injection Hb as ->; left; split; [reflexivity | exact Hout]. }
  destruct Hbuilt as [Hb | (dd & Hb & Htabs)]; [discriminate |].
  injection Hb as <-.
  unfold reset_nturns, print; cbn [bind M_monad nturns minturn stdout stderr dist_calls].
  match goal with
  | |- context [find_turns _ _ _ ?s2] =>
      destruct (find_turns_reports shortfilename datadict s2) as (ts & P & _ & N & _ & C);
      destruct (find_turns_advances shortfilename datadict s2) as [_ Hret];
      destruct (find_turns define_turn_library shortfilename datadict s2) as [r s3]
  end.
  cbn [fst snd nturns stdout] in *.
  assert (Hr : r = Ok tt).
  { destruct Hret as [Hok | (ex & _ & _ & Hkeys)]; [exact Hok |].
    exfalso; apply Hkeys.
    unfold tables in Htabs; rewrite Forall_forall in Htabs.
    apply Forall_forall; intros entry Hin.
    apply (table_keyed (fst entry)); now apply Htabs. }
  right; split; [exact Hr |].
  exists ts; unfold printed_since in P; cbn [stdout] in P.
  split; [rewrite P, Hout, <- app_assoc; reflexivity |].
  split; [exact N |].
  rewrite (C Hr); lia.
Qed.

End ReportFacts.

(* ================================================================== *)
(** * The annotation table of a chain *)

Module TableMore.

Import Py Bio Run Dihedral Table Library Search Model Examples Report TableSpec.
Import MetricFacts DihedralFacts GateFacts ClassifierFacts TableFacts ScanFacts ReportFacts.

Local Open Scope string_scope.

Section Build.

Context `{BioPDB}.

Variable seqscheme_dict : AnnotationTable.
Variable dssp_dict : AnnotationTable.

Lemma build_row_result (chain1_id : string) (aa_residues : list Residue) (i : nat)
    (res : Residue) (s : RunState) :
  nth_error aa_residues i = Some res ->
  row_result seqscheme_dict dssp_dict chain1_id aa_residues i res s
             (build_row seqscheme_dict dssp_dict chain1_id aa_residues i res s).
Proof.
  intros Hi; unfold build_row.
  assert (Hlen : (i < List.length aa_residues)%nat)
    by (apply nth_error_Some; congruence).
  assert (Hpo : exists po,
             (if (0 <? i)%nat
              then prev <- lift (index aa_residues (i - 1)) ;;
                   phi <- lift (compute_phi prev res) ;;
                   omega <- lift (compute_omega prev res) ;;
                   ret (phi, omega)
              else ret (999.0, 999.0)) s = (Ok po, s) /\
             (i = 0%nat -> fst po = 999.0 /\ snd po = 999.0) /\
             ((0 < i)%nat ->
              exists prev, nth_error aa_residues (i - 1) = Some prev /\
                           compute_phi prev res = Ok (fst po) /\
                           compute_omega prev res = Ok (snd po))).
  { destruct (0 <? i)%nat eqn:Hpos.
    - apply Nat.ltb_lt in Hpos.
      destruct (nth_error aa_residues (i - 1)) as [prev |] eqn:Hprev;
        [| apply nth_error_None in Hprev; lia].
      destruct (compute_phi_total prev res) as [x Hx].
      destruct (compute_omega_total prev res) as [y Hy].
      exists (x, y); unfold lift, index; cbn [bind M_monad ret].
      rewrite Hprev, Hx, Hy; split; [reflexivity |].
      split; [intros ->; lia |].
      intros _; exists prev; repeat split; assumption.
    - apply Nat.ltb_ge in Hpos.
      exists (999.0, 999.0); split; [reflexivity |].
      split; [intros _; split; reflexivity | intros Hlt; lia]. }
  destruct Hpo as (po & Hpo & Hfirst & Hprev).
  assert (Hpsi : exists x,
             (if (i + 1 <? List.length aa_residues)%nat
              then next <- lift (index aa_residues (i + 1)) ;; lift (compute_psi res next)
              else ret 999.0) s = (Ok x, s) /\
             ((i + 1)%nat = List.length aa_residues -> x = 999.0) /\
             ((i + 1 < List.length aa_residues)%nat ->
              exists next, nth_error aa_residues (i + 1) = Some next /\
                           compute_psi res next = Ok x)).
  { destruct (i + 1 <? List.length aa_residues)%nat eqn:Hnext.
    - apply Nat.ltb_lt in Hnext.
      destruct (nth_error aa_residues (i + 1)) as [next |] eqn:Hn;
        [| apply nth_error_None in Hn; lia].
      destruct (compute_psi_total res next) as [x Hx].
      exists x; unfold lift, index; cbn [bind M_monad ret]; rewrite Hn, Hx.
      split; [reflexivity |].
      split; [intros Heq; lia | intros _; exists next; split; [reflexivity | assumption]].
    - apply Nat.ltb_ge in Hnext.
      exists 999.0; split; [reflexivity |].
      split; [reflexivity | intros Hlt; lia]. }
  destruct Hpsi as (x & Hpsi & Hlast & Hnext).
  set (phi_omega_step := if (0 <? i)%nat then _ else _) in *.
  set (psi_step := if (i + 1 <? List.length aa_residues)%nat then _ else _) in *.
  cbn [bind M_monad]; rewrite Hpo, Hpsi; cbv zeta.
  assert (Hca : forall s', (if has_id res "CA"
                            then v <- lift (get_vector res "CA") ;; ret (Some v)
                            else ret None) s' = (Ok (get (atoms res) "CA"), s')).
  { intros s'; unfold has_id, lift, get_vector, subscript; cbn [bind M_monad ret].
    destruct (get (atoms res) "CA"); reflexivity. }
  set (ca_step := if has_id res "CA" then _ else _) in *.
  unfold row_result, auth_key_of.
  destruct (get seqscheme_dict (chain1_id, str_of_int (seqnum res))) as [scheme |].
  - unfold lift, subscript; cbn [bind M_monad ret].
    destruct (get scheme "asym_id") as [asym |]; [| split; reflexivity].
    destruct (get scheme "seq_id") as [seq_id |]; [| split; reflexivity].
    rewrite Hca; cbn [fst snd]; split; [reflexivity |].
    eexists; split; [reflexivity |].
    split.
    + unfold residue_fields, auth_key_of;
        cbn [row_chain_id resnum row_resname res1 auth_key CAcoor phi omega psi].
      repeat split; try assumption; try (now apply Hfirst).
    + unfold annotation_fields; cbn [label_key dssp_ss three10].
      split; [reflexivity |].
      destruct (get dssp_dict (asym, seq_id)); cbn [fst snd]; split; reflexivity.
  - unfold print_stderr; cbn [bind M_monad ret].
    rewrite Hca; cbn [fst snd stderr]; split; [reflexivity |].
    eexists; split; [reflexivity |].
    split.
    + unfold residue_fields, auth_key_of;
        cbn [row_chain_id resnum row_resname res1 auth_key CAcoor phi omega psi].
      repeat split; try assumption; try (now apply Hfirst).
    + unfold annotation_fields; cbn [label_key dssp_ss three10 fst snd].
      repeat split.
Qed.


Lemma build_row_ok (chain1_id : string) (aa_residues : list Residue) (i : nat)
    (res : Residue) (s s' : RunState) (row : Row) :
  nth_error aa_residues i = Some res ->
  build_row seqscheme_dict dssp_dict chain1_id aa_residues i res s = (Ok row, s') ->
  residue_fields chain1_id aa_residues i res row /\
  row_annotated seqscheme_dict dssp_dict chain1_id res row /\
  stderr s' = (stderr s ++ warnings_for seqscheme_dict chain1_id [res])%list.
Proof.
  intros Hi Hb.
  pose proof (build_row_result chain1_id aa_residues i res s Hi) as Hr.
  rewrite Hb in Hr; unfold row_result in Hr; cbn [fst snd] in Hr.
  unfold row_annotated, warnings_for, unmapped; cbn [filter].
  destruct (get seqscheme_dict (auth_key_of chain1_id res)) as [scheme |].
  - destruct Hr as [He Hr].
    destruct (get scheme "asym_id") as [asym |]; [| discriminate].
    destruct (get scheme "seq_id") as [seq_id |]; [| discriminate].
    destruct Hr as (row' & Hrow & Hf & Ha); injection Hrow as <-.
    split; [exact Hf |]; split; [| cbn; now rewrite app_nil_r].
    exists asym, seq_id; auto.
  - destruct Hr as [He (row' & Hrow & Hf & Ha)]; injection Hrow as <-.
    split; [exact Hf |]; split; [exact Ha | exact He].
Qed.

Lemma build_row_raises (chain1_id : string) (aa_residues : list Residue) (i : nat)
    (res : Residue) (s s' : RunState) (ex : PyError) :
  nth_error aa_residues i = Some res ->
  build_row seqscheme_dict dssp_dict chain1_id aa_residues i res s = (Raise ex, s') ->
  ex = KeyError /\ lacks_label seqscheme_dict chain1_id res.
Proof.
  intros Hi Hb.
  pose proof (build_row_result chain1_id aa_residues i res s Hi) as Hr.
  rewrite Hb in Hr; unfold row_result in Hr; cbn [fst snd] in Hr.
  unfold lacks_label.
  destruct (get seqscheme_dict (auth_key_of chain1_id res)) as [scheme |].
  - destruct Hr as [_ Hr].
    destruct (get scheme "asym_id") as [asym |] eqn:Ha.
    + destruct (get scheme "seq_id") as [seq_id |] eqn:Hs.
      * destruct Hr as (row & Hrow & _); discriminate.
      * injection Hr as ->; split; [reflexivity |].
        exists scheme; split; [reflexivity | now right].
    + injection Hr as ->; split; [reflexivity |].
      exists scheme; split; [reflexivity | now left].
  - destruct Hr as [_ (row & Hrow & _)]; discriminate.
Qed.

Lemma warnings_for_cons (chain1_id : string) (res : Residue) (rest : list Residue) :
  warnings_for seqscheme_dict chain1_id (res :: rest) =
  (warnings_for seqscheme_dict chain1_id [res]
   ++ warnings_for seqscheme_dict chain1_id rest)%list.
Proof.
  unfold warnings_for, unmapped; cbn [filter].
  destruct (get seqscheme_dict (auth_key_of chain1_id res)); reflexivity.
Qed.

Lemma build_rows_from_result (chain1_id : string) (aa_residues : list Residue)
    (todo : list Residue) :
  forall (i : nat) (s : RunState),
    (forall j res, nth_error todo j = Some res ->
                   nth_error aa_residues (i + j) = Some res) ->
    let out := build_rows_from seqscheme_dict dssp_dict chain1_id aa_residues i todo s in
    match fst out with
    | Ok rows =>
        List.length rows = List.length todo /\
        (forall j res row,
            nth_error todo j = Some res -> nth_error rows j = Some row ->
            residue_fields chain1_id aa_residues (i + j) res row /\
            row_annotated seqscheme_dict dssp_dict chain1_id res row) /\
        stderr (snd out) = (stderr s ++ warnings_for seqscheme_dict chain1_id todo)%list
    | Raise ex =>
        ex = KeyError /\ Exists (lacks_label seqscheme_dict chain1_id) todo
    end.
Proof.
  induction todo as [| res todo IH]; intros i s Hin out; subst out.
  - cbn; split; [reflexivity |]; split; [| now rewrite app_nil_r].
    intros [| j] r rw Hj; discriminate.
  - assert (Hi : nth_error aa_residues i = Some res)
      by (rewrite <- (Nat.add_0_r i); now apply Hin).
    change (build_rows_from seqscheme_dict dssp_dict chain1_id aa_residues i (res :: todo) s)
      with (match build_row seqscheme_dict dssp_dict chain1_id aa_residues i res s with
            | (Ok row, s') =>
                match build_rows_from seqscheme_dict dssp_dict chain1_id aa_residues
                                      (S i) todo s' with
                | (Ok rows, s'') => (Ok (row :: rows), s'')
                | (Raise ex, s'') => (Raise ex, s'')
                end
            | (Raise ex, s') => (Raise ex, s')
            end).
    destruct (build_row seqscheme_dict dssp_dict chain1_id aa_residues i res s)
      as [[row | ex] s1] eqn:Hrow.
    2: { cbn [fst]; destruct (build_row_raises _ _ _ _ _ _ _ Hi Hrow) as [-> Hl].
         split; [reflexivity | now apply Exists_cons_hd]. }
    destruct (build_row_ok _ _ _ _ _ _ _ Hi Hrow) as (Hf & Ha & He).
    assert (Hin' : forall j r, nth_error todo j = Some r ->
                               nth_error aa_residues (S i + j) = Some r).
    { intros j r Hj; replace (S i + j)%nat with (i + S j)%nat by lia.
      now apply Hin. }
    specialize (IH (S i) s1 Hin').
    destruct (build_rows_from seqscheme_dict dssp_dict chain1_id aa_residues (S i) todo s1)
      as [[rows | ex] s2]; cbn [fst snd] in *.
    + destruct IH as (Hlen & Hall & Herr).
      split; [cbn; now rewrite Hlen |].
      split.
      * intros [| j] r rw Hj Hjr; cbn [nth_error] in Hj, Hjr.
        -- injection Hj as <-; injection Hjr as <-.
           rewrite Nat.add_0_r; split; assumption.
        -- replace (i + S j)%nat with (S i + j)%nat by lia; now apply Hall.
      * rewrite (warnings_for_cons chain1_id res todo), Herr, He, app_assoc; reflexivity.
    + destruct IH as [-> Hex]; split; [reflexivity | now apply Exists_cons_tl].
Qed.

Lemma build_chain_result (chain1 : Chain) (s : RunState) :
  let aa_residues := filter is_aa (residues chain1) in
  let out := build_chain seqscheme_dict dssp_dict chain1 s in
  if long_enough chain1 then
    match fst out with
    | Ok entry =>
        exists rows,
          entry = Some (chain1, rows) /\
          List.length rows = List.length aa_residues /\
          (forall j res row,
              nth_error aa_residues j = Some res -> nth_error rows j = Some row ->
              residue_fields (chain_id chain1) aa_residues j res row /\
              row_annotated seqscheme_dict dssp_dict (chain_id chain1) res row) /\
          stderr (snd out)
          = (stderr s ++ warnings_for seqscheme_dict (chain_id chain1) aa_residues)%list
    | Raise ex =>
        ex = KeyError /\ Exists (lacks_label seqscheme_dict (chain_id chain1)) aa_residues
    end
  else out = (Ok None, s).
Proof.
  unfold long_enough, build_chain; cbv zeta.
  destruct (List.length (filter is_aa (residues chain1)) <? 4)%nat; cbn [negb];
    [reflexivity |].
  cbn [bind M_monad].
  pose proof (build_rows_from_result (chain_id chain1) (filter is_aa (residues chain1))
                (filter is_aa (residues chain1)) 0 s (fun j res Hj => Hj)) as Hr.
  cbv zeta in Hr.
  destruct (build_rows_from seqscheme_dict dssp_dict (chain_id chain1)
              (filter is_aa (residues chain1)) 0 (filter is_aa (residues chain1)) s)
    as [[rows | ex] s1]; cbn [fst snd ret M_monad] in *.
  - exists rows; split; [reflexivity | exact Hr].
  - exact Hr.
Qed.


(** X11. A chain's table, when [build_chain] returns one, belongs to a
    chain of at least 4 amino-acid residues and has one row per such residue,
    in order: the row carries the residue's chain id, sequence number, name,
    one-letter code, key and C-alpha coordinate; its phi and omega are the
    sentinel for the first residue and otherwise computed with the previous
    residue; its psi is the sentinel for the last residue and otherwise
    computed with the next one. *)
Theorem table_follows_residues (chain1 : Chain) (entry : Chain * list Row)
    (s s' : RunState) :
  build_chain seqscheme_dict dssp_dict chain1 s = (Ok (Some entry), s') ->
  let aa_residues := filter is_aa (residues chain1) in
  fst entry = chain1 /\
  (4 <= List.length aa_residues)%nat /\
  List.length (snd entry) = List.length aa_residues /\
  (forall j res row,
      nth_error aa_residues j = Some res -> nth_error (snd entry) j = Some row ->
      row_chain_id row = chain_id chain1 /\ resnum row = seqnum res /\
      row_resname row = resname res /\ res1 row = getres1 (resname res) /\
      auth_key row = (chain_id chain1, str_of_int (seqnum res)) /\
      CAcoor row = get (atoms res) "CA" /\
      (j = 0%nat -> phi row = 999.0 /\ omega row = 999.0) /\
      ((0 < j)%nat ->
       exists prev, nth_error aa_residues (j - 1) = Some prev /\
                    compute_phi prev res = Ok (phi row) /\
                    compute_omega prev res = Ok (omega row)) /\
      ((j + 1)%nat = List.length aa_residues -> psi row = 999.0) /\
      ((j + 1 < List.length aa_residues)%nat ->
       exists next, nth_error aa_residues (j + 1) = Some next /\
                    compute_psi res next = Ok (psi row))).
Proof.
  intros Hb aa_residues.
  pose proof (build_chain_result chain1 s) as Hr; cbv zeta in Hr.
  unfold long_enough in Hr.
  destruct (List.length (filter is_aa (residues chain1)) <? 4)%nat eqn:Hlen;
    cbn [negb] in Hr.
  - rewrite Hb in Hr; discriminate.
  - apply Nat.ltb_ge in Hlen.
    rewrite Hb in Hr; cbn [fst snd] in Hr.
    destruct Hr as (rows & He & Hl & Hall & _).
    injection He as ->; cbn [fst snd].
    split; [reflexivity |]; split; [exact Hlen |]; split; [exact Hl |].
    intros j res row Hj Hjr.
    destruct (Hall j res row Hj Hjr) as [Hf _]; exact Hf.
Qed.

Lemma annotated_not_dot (chain1_id : string) (res : Residue) (row : Row) :
  row_annotated seqscheme_dict dssp_dict chain1_id res row -> dssp_ss row <> ".".
Proof.
  assert (Hany : forall label, annotation_fields dssp_dict label row -> dssp_ss row <> ".").
  { intros label [_ Ha].
    destruct label as [key |]; [destruct (get dssp_dict key) as [summary |] |].
    - destruct Ha as [-> _].
      destruct (String.eqb (get_default summary "secondary_structure" ".") ".") eqn:Hd;
        [discriminate | now apply String.eqb_neq].
    - destruct Ha as [-> _]; discriminate.
    - destruct Ha as [-> _]; discriminate. }
  unfold row_annotated.
  destruct (get seqscheme_dict (auth_key_of chain1_id res)) as [scheme |].
  - intros (asym & seq_id & _ & _ & Ha); now apply Hany with (Some (asym, seq_id)).
  - apply Hany.
Qed.

(** X12. Building a chain's table writes to standard error exactly one
    warning per amino-acid residue whose key is not in the correspondence
    table, in residue order.  No row has the secondary-structure code ".":
    a residue without correspondence entry, or whose label key is not in the
    annotator's summary table, gets the code "C" and the marker "."; a
    summary without a code, or with the code ".", gives "C"; any other code
    is kept, and the marker is the summary's (default "."). *)
Theorem table_annotation_defaults (chain1 : Chain) (entry : Chain * list Row)
    (s s' : RunState) :
  build_chain seqscheme_dict dssp_dict chain1 s = (Ok (Some entry), s') ->
  let aa_residues := filter is_aa (residues chain1) in
  stderr s'
  = (stderr s
     ++ map (fun res => missing_warning (chain_id chain1, str_of_int (seqnum res)))
            (filter (fun res =>
                       match get seqscheme_dict (chain_id chain1, str_of_int (seqnum res)) with
                       | Some _ => false
                       | None => true
                       end)
                    aa_residues))%list /\
  (forall j res row,
      nth_error aa_residues j = Some res -> nth_error (snd entry) j = Some row ->
      dssp_ss row <> "." /\
      (get seqscheme_dict (chain_id chain1, str_of_int (seqnum res)) = None ->
       label_key row = None /\ dssp_ss row = "C" /\ three10 row = ".") /\
      (forall key, label_key row = Some key -> get dssp_dict key = None ->
                   dssp_ss row = "C" /\ three10 row = ".") /\
      (forall key summary,
          label_key row = Some key -> get dssp_dict key = Some summary ->
          three10 row = get_default summary "helix_3_10" "." /\
          (get summary "secondary_structure" = None -> dssp_ss row = "C") /\
          (get summary "secondary_structure" = Some "." -> dssp_ss row = "C") /\
          (forall code, get summary "secondary_structure" = Some code ->
                        code <> "." -> dssp_ss row = code))).
Proof.
  intros Hb aa_residues.
  pose proof (build_chain_result chain1 s) as Hr; cbv zeta in Hr.
  unfold long_enough in Hr.
  destruct (List.length (filter is_aa (residues chain1)) <? 4)%nat eqn:Hlen;
    cbn [negb] in Hr.
  - rewrite Hb in Hr; discriminate.
  - rewrite Hb in Hr; cbn [fst snd] in Hr.
    destruct Hr as (rows & He & Hl & Hall & Herr).
    injection He as ->; cbn [fst snd].
    split; [exact Herr |].
    intros j res row Hj Hjr.
    destruct (Hall j res row Hj Hjr) as [_ Ha].
    split; [now apply annotated_not_dot with (chain_id chain1) res |].
    unfold row_annotated, auth_key_of in Ha.
    destruct (get seqscheme_dict (chain_id chain1, str_of_int (seqnum res)))
      as [scheme |].
    + destruct Ha as (asym & seq_id & _ & _ & Hlab & Ha).
      split; [discriminate |].
      split.
      * intros key Hk Hnone; rewrite Hlab in Hk; injection Hk as <-.
        now rewrite Hnone in Ha.
      * intros key summary Hk Hsome; rewrite Hlab in Hk; injection Hk as <-.
        rewrite Hsome in Ha; destruct Ha as [Hss H310].
        split; [exact H310 |].
        unfold get_default in Hss; split.
        -- intros Hn; rewrite Hn in Hss; exact Hss.
        -- split; [intros Hd; rewrite Hd in Hss; exact Hss |].
           intros code Hc Hne; rewrite Hc in Hss.
           apply String.eqb_neq in Hne; now rewrite Hne in Hss.
    + destruct Ha as [Hlab Ha].
      split; [intros _; split; [exact Hlab | exact Ha] |].
      split; [intros key Hk; congruence | intros key summary Hk; congruence].
Qed.

(** X13. [build_chain] raises nothing but [KeyError], and only when some
    amino-acid residue of the chain has a correspondence entry that lacks the
    column asym_id or seq_id. *)
Theorem build_raises_only_for_missing_label (chain1 : Chain) (ex : PyError)
    (s s' : RunState) :
  build_chain seqscheme_dict dssp_dict chain1 s = (Raise ex, s') ->
  ex = KeyError /\
  exists res scheme,
    In res (filter is_aa (residues chain1)) /\
    get seqscheme_dict (chain_id chain1, str_of_int (seqnum res)) = Some scheme /\
    (get scheme "asym_id" = None \/ get scheme "seq_id" = None).
Proof.
  intros Hb.
  pose proof (build_chain_result chain1 s) as Hr; cbv zeta in Hr.
  destruct (long_enough chain1); [| rewrite Hb in Hr; discriminate].
  rewrite Hb in Hr; cbn [fst] in Hr; destruct Hr as [-> Hex].
  split; [reflexivity |].
  apply Exists_exists in Hex; destruct Hex as (res & Hin & scheme & Hget & Hlack).
  now exists res, scheme.
Qed.


Lemma build_chains_result (cs : list Chain) :
  forall s,
    let out := build_chains seqscheme_dict dssp_dict cs s in
    match fst out with
    | Ok datadict => map fst datadict = filter long_enough cs
    | Raise ex =>
        exists chain1, In chain1 cs /\
                       Exists (lacks_label seqscheme_dict (chain_id chain1))
                              (filter is_aa (residues chain1))
    end.
Proof.
  induction cs as [| chain1 cs IH]; intros s out; subst out; [reflexivity |].
  change (build_chains seqscheme_dict dssp_dict (chain1 :: cs) s)
    with (match build_chain seqscheme_dict dssp_dict chain1 s with
          | (Ok entry, s') =>
              match build_chains seqscheme_dict dssp_dict cs s' with
              | (Ok rest, s'') =>
                  (Ok (match entry with Some en => en :: rest | None => rest end), s'')
              | (Raise ex, s'') => (Raise ex, s'')
              end
          | (Raise ex, s') => (Raise ex, s')
          end).
  pose proof (build_chain_result chain1 s) as Hr; cbv zeta in Hr.
  cbn [filter].
  destruct (long_enough chain1).
  - destruct (build_chain seqscheme_dict dssp_dict chain1 s) as [[entry | ex] s1];
      cbn [fst snd] in *.
    + destruct Hr as (rows & -> & _).
      specialize (IH s1).
      destruct (build_chains seqscheme_dict dssp_dict cs s1) as [[rest | ex] s2];
        cbn [fst snd map] in *.
      * now rewrite IH.
      * destruct IH as (c & Hc & Hex); exists c; split; [now right | exact Hex].
    + destruct Hr as [_ Hex]; exists chain1; split; [now left | exact Hex].
  - rewrite Hr; specialize (IH s).
    destruct (build_chains seqscheme_dict dssp_dict cs s) as [[rest | ex] s2];
      cbn [fst snd] in *.
    + exact IH.
    + destruct IH as (c & Hc & Hex); exists c; split; [now right | exact Hex].
Qed.

Lemma build_datadict_result (structure1 : Structure) :
  forall s,
    let out := build_datadict seqscheme_dict dssp_dict structure1 s in
    match fst out with
    | Ok datadict => map fst datadict = filter long_enough (all_chains structure1)
    | Raise ex =>
        exists chain1, In chain1 (all_chains structure1) /\
                       Exists (lacks_label seqscheme_dict (chain_id chain1))
                              (filter is_aa (residues chain1))
    end.
Proof.
  induction structure1 as [| model1 ms IH]; intros s out; subst out; [reflexivity |].
  change (build_datadict seqscheme_dict dssp_dict (model1 :: ms) s)
    with (match build_chains seqscheme_dict dssp_dict (chains model1) s with
          | (Ok here, s') =>
              match build_datadict seqscheme_dict dssp_dict ms s' with
              | (Ok rest, s'') => (Ok (here ++ rest)%list, s'')
              | (Raise ex, s'') => (Raise ex, s'')
              end
          | (Raise ex, s') => (Raise ex, s')
          end).
  pose proof (build_chains_result (chains model1) s) as Hr; cbv zeta in Hr.
  unfold all_chains; cbn [flat_map]; fold (all_chains ms).
  destruct (build_chains seqscheme_dict dssp_dict (chains model1) s) as [[here | ex] s1];
    cbn [fst snd] in *.
  - specialize (IH s1).
    destruct (build_datadict seqscheme_dict dssp_dict ms s1) as [[rest | ex] s2];
      cbn [fst snd] in *.
    + now rewrite map_app, filter_app, Hr, IH.
    + destruct IH as (c & Hc & Hex); exists c; split; [| exact Hex].
      apply in_or_app; now right.
  - destruct Hr as (c & Hc & Hex); exists c; split; [| exact Hex].
    apply in_or_app; now left.
Qed.

(** X14. The tables [main] builds are those of the chains with at least 4
    amino-acid residues, in the order of the structure (model by model);
    shorter chains are left out. *)
Theorem datadict_keeps_long_chains (structure1 : Structure)
    (datadict : list (Chain * list Row)) (s s' : RunState) :
  build_datadict seqscheme_dict dssp_dict structure1 s = (Ok datadict, s') ->
  map fst datadict
  = filter (fun chain1 => (4 <=? List.length (filter is_aa (residues chain1)))%nat)
           (flat_map chains structure1).
Proof.
  intros Hb.
  pose proof (build_datadict_result structure1 s) as Hr; cbv zeta in Hr.
  rewrite Hb in Hr; cbn [fst] in Hr; rewrite Hr.
  apply filter_ext; intros chain1; unfold long_enough.
  destruct (Nat.ltb_spec (List.length (filter is_aa (residues chain1))) 4);
    destruct (Nat.leb_spec 4 (List.length (filter is_aa (residues chain1))));
    cbn; try reflexivity; lia.
Qed.

Lemma get_in {V : Type} (d : pydict (string * string) V) (k : string * string) (v : V) :
  get d k = Some v -> exists k', In (k', v) d.
Proof.
  induction d as [| [k0 v0] d IH]; cbn [get]; [discriminate |].
  destruct (key_eqb k0 k).
  - intros [= ->]; exists k0; now left.
  - intros Hg; destruct (IH Hg) as [k' Hk']; exists k'; now right.
Qed.

Lemma complete_never_lacks (chain1_id : string) (res : Residue) :
  complete_scheme seqscheme_dict -> ~ lacks_label seqscheme_dict chain1_id res.
Proof.
  intros Hc (scheme & Hget & Hlack).
  destruct (get_in _ _ _ Hget) as [k' Hin].
  unfold complete_scheme in Hc; rewrite Forall_forall in Hc.
  destruct (Hc _ Hin) as [Ha Hs]; cbn [snd] in *.
  destruct Hlack; contradiction.
Qed.

Lemma main_raises_lacking (shortfilename : string) (structure1 : Structure)
    (s : RunState) :
  fst (main shortfilename seqscheme_dict dssp_dict structure1 s) <> Ok tt ->
  exists chain1_id res, lacks_label seqscheme_dict chain1_id res.
Proof.
  intros Hne.
  destruct (main_runs shortfilename seqscheme_dict dssp_dict structure1 s) as [[Hok | Hkey] _];
    [contradiction |].
  clear Hne; revert Hkey; unfold main; cbv zeta; cbn [bind M_monad].
  pose proof (build_datadict_result structure1 s) as Hr; cbv zeta in Hr.
  destruct (build_datadict seqscheme_dict dssp_dict structure1 s) as [[datadict | ex] s1];
    cbn [fst snd] in *.
  - unfold reset_nturns, print; cbn [bind M_monad nturns minturn stdout stderr dist_calls].
    match goal with
    | |- context [find_turns _ _ _ ?s2] =>
        destruct (find_turns_advances shortfilename datadict s2) as [_ Hret];
        destruct (find_turns define_turn_library shortfilename datadict s2) as [r s3]
    end.
    cbn [fst snd] in *.
    destruct Hret as [-> | (ex & -> & -> & _)]; discriminate.
  - intros _; destruct Hr as (c & _ & Hex).
    apply Exists_exists in Hex; destruct Hex as (res & _ & Hl).
    now exists (chain_id c), res.
Qed.

(** X15. When every entry of the correspondence table has the columns
    asym_id and seq_id, a run of [main] returns normally. *)
Theorem main_returns_with_complete_scheme (shortfilename : string)
    (structure1 : Structure) (s : RunState) :
  complete_scheme seqscheme_dict ->
  fst (main shortfilename seqscheme_dict dssp_dict structure1 s) = Ok tt.
Proof.
  intros Hc.
  destruct (main shortfilename seqscheme_dict dssp_dict structure1 s) as [r s'] eqn:Hm.
  cbn [fst]; destruct r as [[] | e]; [reflexivity | exfalso].
  destruct (main_raises_lacking shortfilename structure1 s) as (chain1_id & res & Hl).
  - rewrite Hm; discriminate.
  - now apply complete_never_lacks in Hl.
Qed.

End Build.


Lemma sample_build :
  @build_chain sample_bio sample_seqscheme sample_dssp sample_chain initial
  = (Ok (Some (sample_chain, sample_rows)),
     snd (@build_chain sample_bio sample_seqscheme sample_dssp sample_chain initial)).
Proof.
  rewrite <- SampleFacts.sample_rows_built; apply surjective_pairing.
Qed.

Lemma table_follows_residues_witness :
  fst (sample_chain, sample_rows) = sample_chain /\
  (4 <= List.length (filter (@is_aa sample_bio) (residues sample_chain)))%nat.
Proof.
  pose proof (@table_follows_residues sample_bio sample_seqscheme sample_dssp
                sample_chain (sample_chain, sample_rows) initial _ sample_build) as Hw.
  cbv zeta in Hw; destruct Hw as (H1 & H2 & _); split; assumption.
Defined.

Lemma table_annotation_defaults_witness :
  stderr (snd (@build_chain sample_bio sample_seqscheme sample_dssp sample_chain initial))
  = [missing_warning ("A", "1"); missing_warning ("A", "4")].
Proof.
  pose proof (@table_annotation_defaults sample_bio sample_seqscheme sample_dssp
                sample_chain (sample_chain, sample_rows) initial _ sample_build) as Hw.
  cbv zeta in Hw; destruct Hw as [Herr _]; exact Herr.
Defined.

Lemma broken_build :
  @build_chain sample_bio MoreExamples.broken_seqscheme sample_dssp sample_chain initial
  = (Raise KeyError,
     snd (@build_chain sample_bio MoreExamples.broken_seqscheme sample_dssp
                       sample_chain initial)).
Proof.
  rewrite (surjective_pairing (build_chain _ _ _ _)) at 1; f_equal.
Qed.

Lemma build_raises_only_for_missing_label_witness :
  KeyError = KeyError /\
  exists res scheme,
    In res (filter (@is_aa sample_bio) (residues sample_chain)) /\
    get MoreExamples.broken_seqscheme (chain_id sample_chain, str_of_int (seqnum res))
    = Some scheme /\
    (get scheme "asym_id" = None \/ get scheme "seq_id" = None).
Proof.
  exact (@build_raises_only_for_missing_label sample_bio MoreExamples.broken_seqscheme
           sample_dssp sample_chain KeyError initial _ broken_build).
Defined.

Lemma sample_datadict :
  @build_datadict sample_bio sample_seqscheme sample_dssp MoreExamples.sample_structure
                  initial
  = (Ok [(sample_chain, sample_rows)],
     snd (@build_datadict sample_bio sample_seqscheme sample_dssp
                          MoreExamples.sample_structure initial)).
Proof.
  rewrite (surjective_pairing (build_datadict _ _ _ _)) at 1; f_equal.
  unfold MoreExamples.sample_structure; cbn [build_datadict chains].
  cbn [build_chains bind ret M_monad].
  change (@build_chain sample_bio sample_seqscheme sample_dssp MoreExamples.short_chain
                       initial) with (@Ok (option (Chain * list Row)) None, initial).
  cbv iota beta; rewrite sample_build; reflexivity.
Qed.

Lemma datadict_keeps_long_chains_witness :
  map fst [(sample_chain, sample_rows)]
  = filter (fun chain1 =>
              (4 <=? List.length (filter (@is_aa sample_bio) (residues chain1)))%nat)
           (flat_map chains MoreExamples.sample_structure).
Proof.
  exact (@datadict_keeps_long_chains sample_bio sample_seqscheme sample_dssp
           MoreExamples.sample_structure [(sample_chain, sample_rows)] initial _
           sample_datadict).
Defined.

Lemma sample_scheme_complete : complete_scheme sample_seqscheme.
Proof. repeat constructor; discriminate. Qed.

Lemma main_returns_with_complete_scheme_witness :
  fst (@main sample_bio "sample" sample_seqscheme sample_dssp
             MoreExamples.sample_structure initial) = Ok tt.
Proof.
  exact (@main_returns_with_complete_scheme sample_bio sample_seqscheme sample_dssp
           "sample" MoreExamples.sample_structure initial sample_scheme_complete).
Defined.

End TableMore.

(* ================================================================== *)
(** * The one-letter code *)

Module GetresFacts.
Import Py Table TableSpec.
Local Open Scope string_scope.

Lemma getres1_cases (res3 : string) :
  (In res3 standard_names /\ getres1 res3 <> "X") \/
  (~ In res3 standard_names /\ getres1 res3 = "X").
Proof.
  unfold getres1, standard_names.
  cbn [get key_eqb string_key].
  repeat match goal with
  | |- context [String.eqb ?a res3] =>
      destruct (String.eqb_spec a res3) as [<- | ?];
      [left; split; [cbn; tauto | discriminate] |]
  end.
  right; split; [cbn; intuition congruence | reflexivity].
Qed.

(** X16. [getres1] always returns a single character.  It returns "X"
    exactly for the names outside the 20 standard residue names (matched with
    the case they are written in), and no two standard names share a
    letter. *)
Theorem getres1_one_letter_code (res3 : string) :
  String.length (getres1 res3) = 1%nat /\
  (getres1 res3 = "X" <-> ~ In res3 standard_names) /\
  (forall other,
      In res3 standard_names -> In other standard_names ->
      getres1 res3 = getres1 other -> res3 = other).
Proof.
  split; [| split].
  - unfold getres1; cbn [get key_eqb string_key].
    repeat match goal with
    | |- context [String.eqb ?a res3] => destruct (String.eqb a res3); [reflexivity |]
    end.
    reflexivity.
  - destruct (getres1_cases res3) as [[Hin Hne] | [Hout He]]; split; intro; tauto.
  - intros other Ha Hb.
    unfold standard_names in Ha, Hb; cbn [In] in Ha, Hb.
    repeat (destruct Ha as [<- | Ha]; [
      repeat (destruct Hb as [<- | Hb]; [first [reflexivity | discriminate] |]);
      contradiction |]).
    contradiction.
Qed.

End GetresFacts.

(* ================================================================== *)
(** * The mmCIF loop parsers *)

Module CifFacts.
Import Py Bio Run Table Search Cif CifSpec TableSpec Examples MoreExamples CifExamples.
Local Open Scope string_scope.


Lemma skip_to_end_marker_suffix (lines : list string) :
  exists pre, lines = (pre ++ skip_to_end_marker lines)%list.
Proof.
  induction lines as [| line rest IH]; [now exists [] |].
  cbn [skip_to_end_marker]; destruct (strip line =? "#").
  - now exists [line].
  - destruct IH as [pre IH]; exists (line :: pre); cbn; now f_equal.
Qed.

Lemma read_item_names_spec (lines : list string) :
  forall item_names first_data_line item_names' first_data_line' rest,
    read_item_names lines item_names first_data_line
    = (item_names', first_data_line', rest) ->
    exists header,
      item_names' = (item_names ++ map strip header)%list /\
      Forall item_line header /\
      ((lines = header /\ rest = [] /\ first_data_line' = first_data_line) \/
       (exists first, lines = (header ++ first :: rest)%list /\
                      first_data_line' = Some first /\ ~ item_line first)).
Proof.
  induction lines as [| line more IH]; intros items fdl items' fdl' rest Hr.
  - cbn in Hr; injection Hr as <- <- <-; exists []; cbn.
    rewrite app_nil_r; split; [reflexivity | split; [constructor | now left]].
  - cbn [read_item_names] in Hr; cbv zeta in Hr.
    destruct (startswith (strip line) "_") eqn:Hi.
    + destruct (IH _ _ _ _ _ Hr) as (header & -> & Hall & Hcase).
      exists (line :: header); cbn [map]; rewrite <- app_assoc; split; [reflexivity |].
      split; [now constructor |].
      destruct Hcase as [(-> & -> & ->) | (first & -> & -> & Hn)].
      * now left.
      * right; exists first; now repeat split.
    + injection Hr as <- <- <-; exists []; cbn; rewrite app_nil_r.
      split; [reflexivity | split; [constructor |]].
      right; exists line; repeat split.
      unfold item_line; now rewrite Hi.
Qed.

Lemma read_pending_spec (lines : list string) :
  forall pending_lines pending_lines' rest,
    read_pending lines pending_lines = (pending_lines', rest) ->
    exists got,
      pending_lines' = (pending_lines ++ got)%list /\
      lines = (got ++ rest)%list /\
      ((rest = [] /\ Forall (fun l => ~ end_marker l) got) \/
       (exists body marker, got = (body ++ [marker])%list /\ end_marker marker /\
                            Forall (fun l => ~ end_marker l) body)).
Proof.
  induction lines as [| line more IH]; intros pend pend' rest Hr.
  - cbn in Hr; injection Hr as <- <-; exists []; rewrite app_nil_r.
    split; [reflexivity | split; [reflexivity | left; split; [reflexivity | constructor]]].
  - cbn [read_pending] in Hr.
    destruct (String.eqb_spec (strip line) "#") as [Hm | Hm].
    + injection Hr as <- <-; exists [line]; split; [reflexivity | split; [reflexivity |]].
      right; exists [], line; split; [reflexivity | split; [exact Hm | constructor]].
    + destruct (IH _ _ _ Hr) as (got & -> & -> & Hcase).
      exists (line :: got); rewrite <- app_assoc; split; [reflexivity | split; [reflexivity |]].
      destruct Hcase as [(-> & Hall) | (body & marker & -> & Hmk & Hall)].
      * left; split; [reflexivity | now constructor].
      * right; exists (line :: body), marker.
        split; [reflexivity | split; [assumption | now constructor]].
Qed.

Section WithShlex.

Context `{Shlex}.

Lemma collect_tokens_raises (pending_lines : list string) :
  forall tokens e,
    collect_tokens pending_lines tokens = Raise e ->
    exists s, In s pending_lines /\ shlex_split s = Raise e.
Proof.
  induction pending_lines as [| s rest IH]; intros tokens e Hc; [discriminate |].
  cbn [collect_tokens] in Hc.
  destruct ((strip s =? "") || (strip s =? "#")).
  - destruct (IH _ _ Hc) as (s' & Hin & Hs); exists s'; split; [now right | assumption].
  - cbn [bind result_monad] in Hc.
    destruct (shlex_split s) as [toks | e'] eqn:Hs.
    + destruct (IH _ _ Hc) as (s' & Hin & Hs'); exists s'; split; [now right | assumption].
    + injection Hc as ->; exists s; split; [now left | assumption].
Qed.

End WithShlex.


(** ** Dictionaries *)

Section Keys.

Context {K V : Type} `{PyKey K}.

Hypothesis key_eqb_eq : forall a b : K, key_eqb a b = true <-> a = b.

Lemma get_setitem (d : pydict K V) (k k' : K) (v : V) :
  get (setitem d k v) k' = if key_eqb k k' then Some v else get d k'.
Proof.
  induction d as [| [k0 v0] d IH]; cbn [setitem get].
  - reflexivity.
  - destruct (key_eqb k0 k) eqn:E0; cbn [get].
    + apply key_eqb_eq in E0; subst k0.
      now destruct (key_eqb k k').
    + rewrite IH.
      destruct (key_eqb k0 k') eqn:E1; [| reflexivity].
      destruct (key_eqb k k') eqn:E2; [| reflexivity].
      apply key_eqb_eq in E1, E2; subst k0 k'.
      assert (key_eqb k k = true) by now apply key_eqb_eq.
      congruence.
Qed.

Lemma setitem_in (d : pydict K V) (k0 : K) (v0 : V) (k : K) (v : V) :
  In (k, v) (setitem d k0 v0) -> (k = k0 /\ v = v0) \/ In (k, v) d.
Proof.
  induction d as [| [k1 v1] d IH]; cbn [setitem].
  - intros [E | []]; injection E as <- <-; now left.
  - destruct (key_eqb k1 k0) eqn:E0.
    + intros [E | Hin].
      * injection E as <- <-; apply key_eqb_eq in E0; now left.
      * right; now right.
    + intros [E | Hin].
      * right; now left.
      * destruct (IH Hin) as [? | ?]; [now left | right; now right].
Qed.

Lemma setitem_same (d : pydict K V) (k0 : K) (v0 : V) :
  In (k0, v0) (setitem d k0 v0).
Proof.
  induction d as [| [k1 v1] d IH]; cbn [setitem]; [now left |].
  destruct (key_eqb k1 k0) eqn:E0.
  - apply key_eqb_eq in E0; subst; now left.
  - now right.
Qed.

Lemma setitem_other (d : pydict K V) (k0 : K) (v0 : V) (k : K) (v : V) :
  k <> k0 -> In (k, v) d -> In (k, v) (setitem d k0 v0).
Proof.
  intro Hne; induction d as [| [k1 v1] d IH]; cbn [setitem]; [intros [] |].
  destruct (key_eqb k1 k0) eqn:E0.
  - apply key_eqb_eq in E0; subst k1.
    intros [E | Hin]; [injection E as <- <-; contradiction | now right].
  - intros [E | Hin]; [now left | right; now apply IH].
Qed.

Lemma setitem_keys (d : pydict K V) (k0 : K) (v0 : V) :
  NoDup (map fst d) -> NoDup (map fst (setitem d k0 v0)).
Proof.
  induction d as [| [k1 v1] d IH]; cbn [setitem map fst]; intro Hd.
  - repeat constructor; intros [].
  - inversion Hd as [| a l Hn Hd']; subst.
    destruct (key_eqb k1 k0) eqn:E0; cbn [map fst].
    + now constructor.
    + constructor; [| now apply IH].
      intro Hin; apply in_map_iff in Hin; destruct Hin as ([k v] & Hk & Hin).
      cbn in Hk; subst k.
      destruct (setitem_in _ _ _ _ _ Hin) as [[-> _] | Hin'].
      * assert (key_eqb k0 k0 = true) by now apply key_eqb_eq.
        congruence.
      * apply Hn; apply in_map_iff; now exists (k1, v).
Qed.

Lemma get_in_unique (d : pydict K V) (k : K) (v : V) :
  NoDup (map fst d) -> In (k, v) d -> get d k = Some v.
Proof.
  induction d as [| [k1 v1] d IH]; cbn [map fst get]; intros Hd Hin; [destruct Hin |].
  inversion Hd as [| a l Hn Hd']; subst.
  destruct Hin as [E | Hin].
  - injection E as -> ->.
    assert (key_eqb k k = true) as -> by now apply key_eqb_eq.
    reflexivity.
  - destruct (key_eqb k1 k) eqn:E1.
    + apply key_eqb_eq in E1; subst k1.
      exfalso; apply Hn; apply in_map_iff; now exists (k, v).
    + now apply IH.
Qed.

End Keys.

Lemma nat_key_eq (a b : nat) : key_eqb a b = true <-> a = b.
Proof. apply Nat.eqb_eq. Qed.

Lemma string_key_eq (a b : string) : key_eqb a b = true <-> a = b.
Proof. apply String.eqb_eq. Qed.

Lemma get_filter {V : Type} (f : string -> bool) (d : pydict string V) (k : string) :
  get (filter (fun kv => f (fst kv)) d) k = if f k then get d k else None.
Proof.
  induction d as [| [k1 v1] d IH]; cbn [filter get fst].
  - now destruct (f k).
  - destruct (key_eqb k1 k) eqn:E.
    + apply string_key_eq in E; subst k1.
      destruct (f k) eqn:Hf; [cbn [get]; now rewrite (proj2 (string_key_eq k k) eq_refl) |].
      exact IH.
    + destruct (f k1); [cbn [get]; now rewrite E |]; exact IH.
Qed.

Lemma tuple_key_eq (a b : string * string) : key_eqb a b = true <-> a = b.
Proof.
  destruct a as [a1 a2], b as [b1 b2]; cbn [key_eqb tuple_key]; unfold pair_eqb; cbn [fst snd].
  rewrite andb_true_iff, !String.eqb_eq; split; [intros [-> ->]; reflexivity |].
  intro E; injection E as -> ->; now split.
Qed.

(** ** The column map *)

Lemma prefix_app (p s : string) :
  String.prefix p s = true -> exists r, s = p ++ r.
Proof.
  revert s; induction p as [| c p IH]; intros s Hp.
  - now exists s.
  - destruct s as [| c' s]; [discriminate |].
    cbn [String.prefix] in Hp.
    destruct (ascii_dec c c') as [-> |]; [| discriminate].
    destruct (IH _ Hp) as [r ->]; now exists r.
Qed.

Lemma prefix_of_app (p r : string) : String.prefix p (p ++ r) = true.
Proof.
  induction p as [| c p IH]; cbn; [now destruct r |].
  destruct (ascii_dec c c); [exact IH | contradiction].
Qed.

Lemma dssp_short (name : string) :
  startswith name Dssp.category_prefix = true ->
  exists short, name = Dssp.category_prefix ++ short /\
                index (split_dot_once name) 1 = Ok short.
Proof.
  intro Hp; destruct (prefix_app _ _ Hp) as [r ->]; exists r; split; reflexivity.
Qed.

Lemma scheme_short (name : string) :
  startswith name Scheme.cat_prefix = true ->
  exists short, name = Scheme.cat_prefix ++ short /\
                index (split_dot_once name) 1 = Ok short.
Proof.
  intro Hp; destruct (prefix_app _ _ Hp) as [r ->]; exists r; split; reflexivity.
Qed.


Lemma map_columns_spec (category_prefix : string)
    (Hshort : forall name, startswith name category_prefix = true ->
                exists short, name = category_prefix ++ short /\
                              index (split_dot_once name) 1 = Ok short)
    (item_names : list string) :
  forall i d,
    (forall k short, In (k, short) d -> (k < i)%nat) ->
    exists d',
      map_columns category_prefix i item_names d = Ok d' /\
      (forall k short, In (k, short) d' ->
         In (k, short) d \/
         ((k < i + List.length item_names)%nat /\ In (category_prefix ++ short) item_names)) /\
      (forall k short, In (k, short) d -> In (k, short) d') /\
      (forall short, In (category_prefix ++ short) item_names -> exists k, In (k, short) d').
Proof.
  induction item_names as [| name rest IH]; intros i d Hd; cbn [map_columns].
  - exists d; split; [reflexivity |].
    split; [intros; now left | split; [tauto | intros short []]].
  - destruct (startswith name category_prefix) eqn:Hp.
    + destruct (Hshort _ Hp) as (short0 & -> & ->); cbn [bind result_monad].
      destruct (IH (S i) (setitem d i short0)) as (d' & -> & Hin & Hkeep & Hall).
      { intros k short Hk; destruct (setitem_in nat_key_eq _ _ _ _ _ Hk) as [[-> _] | Hk'].
        - lia.
        - specialize (Hd _ _ Hk'); lia. }
      exists d'; split; [reflexivity |].
      split; [| split].
      * intros k short Hk; destruct (Hin _ _ Hk) as [Hk' | [Hlt Hi]].
        -- destruct (setitem_in nat_key_eq _ _ _ _ _ Hk') as [[-> ->] | Hk''].
           ++ right; split; [cbn [List.length]; lia | now left].
           ++ now left.
        -- right; split; [cbn [List.length]; lia | now right].
      * intros k short Hk; apply Hkeep; apply (setitem_other nat_key_eq); [| assumption].
        specialize (Hd _ _ Hk); lia.
      * intros short [E | Hr].
        -- assert (short = short0) as ->.
           { clear -E; induction category_prefix as [| c p IHp]; cbn in E; [congruence |].
             injection E as E; now apply IHp. }
           exists i; apply Hkeep; apply (setitem_same nat_key_eq).
        -- now apply Hall.
    + destruct (IH (S i) d) as (d' & -> & Hin & Hkeep & Hall).
      { intros k short Hk; specialize (Hd _ _ Hk); lia. }
      exists d'; split; [reflexivity |].
      split; [| split].
      * intros k short Hk; destruct (Hin _ _ Hk) as [Hk' | [Hlt Hi]]; [now left |].
        right; split; [cbn [List.length]; lia | now right].
      * assumption.
      * intros short [E | Hr]; [| now apply Hall].
        subst name; unfold startswith in Hp; now rewrite prefix_of_app in Hp.
Qed.

Lemma extract_fields_spec (row : list string) (items : pydict nat string) :
  forall row_vals,
    (forall idx short, In (idx, short) items -> (idx < List.length row)%nat) ->
    exists row_vals',
      extract_fields row items row_vals = Ok row_vals' /\
      (NoDup (map fst row_vals) -> NoDup (map fst row_vals')) /\
      (forall short,
          (exists v, get row_vals' short = Some v) <->
          (exists v, get row_vals short = Some v) \/ In short (map snd items)).
Proof.
  induction items as [| [idx short0] rest IH]; intros row_vals Hlt; cbn [extract_fields].
  - exists row_vals; split; [reflexivity | split; [tauto |]].
    intros short; cbn; tauto.
  - unfold index.
    destruct (nth_error row idx) as [val |] eqn:Hn.
    2: { apply nth_error_None in Hn; specialize (Hlt idx short0 (or_introl eq_refl)); lia. }
    cbn [bind result_monad].
    destruct (IH (setitem row_vals short0 (norm val))) as (rv & -> & Hnd & Hget).
    { intros; eapply Hlt; right; eassumption. }
    exists rv; split; [reflexivity | split].
    + intro Hd; apply Hnd; now apply (setitem_keys string_key_eq).
    + intros short; rewrite Hget, (get_setitem string_key_eq); cbn [map snd In].
      destruct (key_eqb short0 short) eqn:E.
      * apply string_key_eq in E; subst; split; [intros _; right; now left |].
        intros _; left; now eexists.
      * split; [tauto |].
        intros [Hg | [Heq | Hin]]; [tauto | | tauto].
        subst; assert (key_eqb short short = true) by now apply string_key_eq.
        congruence.
Qed.

Lemma walk_rows_invariant (I : AnnotationTable -> Prop)
    (row_body : list string -> AnnotationTable -> result AnnotationTable)
    (tokens : list string) (ncols : nat) :
  (forall row acc acc', I acc -> row_body row acc = Ok acc' -> I acc') ->
  forall rstarts acc acc',
    I acc -> walk_rows row_body tokens ncols rstarts acc = Ok acc' -> I acc'.
Proof.
  intros Hbody; induction rstarts as [| rstart rest IH]; intros acc acc' Hi Hw.
  - cbn in Hw; now injection Hw as <-.
  - cbn [walk_rows bind result_monad] in Hw.
    destruct (row_body _ acc) as [acc1 | e] eqn:Hb; [| discriminate].
    eapply IH; [| exact Hw]; eapply Hbody; eassumption.
Qed.

Lemma walk_rows_returns
    (row_body : list string -> AnnotationTable -> result AnnotationTable)
    (tokens : list string) (ncols : nat) :
  (forall row acc, exists acc', row_body row acc = Ok acc') ->
  forall rstarts acc, exists acc', walk_rows row_body tokens ncols rstarts acc = Ok acc'.
Proof.
  intros Hbody; induction rstarts as [| rstart rest IH]; intros acc.
  - now exists acc.
  - cbn [walk_rows bind result_monad].
    destruct (Hbody (slice tokens rstart ncols) acc) as [acc1 ->].
    apply IH.
Qed.


Lemma existsb_of_category (category_prefix : string) (item_names : list string) :
  existsb (fun n => startswith n category_prefix) item_names = true <->
  of_category category_prefix item_names.
Proof. apply existsb_exists. Qed.

Lemma header_of_suffix (pre lines item_names : list string) :
  header_of lines item_names -> header_of (pre ++ lines) item_names.
Proof.
  intros (pre' & line & header & post & -> & Hl & Hi & He & Hp).
  exists (pre ++ pre')%list, line, header, post.
  rewrite <- app_assoc; now repeat split.
Qed.

Lemma truncated_header_suffix (pre lines item_names : list string) :
  truncated_header lines item_names -> truncated_header (pre ++ lines) item_names.
Proof.
  intros (pre' & line & header & -> & Hl & Hn & Hi & He).
  exists (pre ++ pre')%list, line, header.
  rewrite <- app_assoc; now repeat split.
Qed.

(** ** [parse_dssp_struct_summary] *)

Section DsspFacts.

Context `{Shlex}.

Lemma dssp_row_body_returns (idx_to_short : pydict nat string) (ncols : nat) :
  (forall idx short, In (idx, short) idx_to_short -> (idx < ncols)%nat) ->
  forall row acc, exists acc', Dssp.row_body idx_to_short ncols row acc = Ok acc'.
Proof.
  intros Hidx row acc; unfold Dssp.row_body.
  destruct (List.length row <? ncols)%nat eqn:Hlen; [now exists acc |].
  apply Nat.ltb_ge in Hlen.
  destruct (extract_fields_spec row idx_to_short []) as (rv & -> & _).
  { intros idx short Hin; specialize (Hidx _ _ Hin); lia. }
  cbn [bind result_monad].
  destruct rv as [| kv rv]; [now exists acc |].
  destruct (get (kv :: rv) "label_asym_id"); [| now exists acc].
  destruct (get (kv :: rv) "label_seq_id"); [| now exists acc].
  now eexists.
Qed.

(** One turn of the outer loop either moves on or stops with an exception of
    [shlex.split] or with the unbound local. *)
Lemma dssp_scan_returns (file : list string) :
  forall fuel lines first_data_line acc,
    (List.length lines <= fuel)%nat ->
    (exists pre, file = (pre ++ lines)%list) ->
    (forall l, first_data_line = Some l -> In l file) ->
    exists r,
      Dssp.scan fuel lines first_data_line acc = Some r /\
      forall e, r = Raise e ->
        (exists l, In l file /\ shlex_split l = Raise e) \/
        (e = UnboundLocalError /\
         exists item_names, truncated_header file item_names /\
                            of_category Dssp.category_prefix item_names).
Proof.
  induction fuel as [| fuel IH]; intros lines fdl acc Hlen [pre Hfile] Hfdl.
  { destruct lines; [| cbn in Hlen; lia].
    exists (Ok acc); split; [reflexivity | discriminate]. }
  destruct lines as [| line lines1].
  { exists (Ok acc); split; [reflexivity | discriminate]. }
  cbn [Dssp.scan]; cbn [List.length] in Hlen.
  destruct (String.eqb_spec (strip line) "loop_") as [Hloop | Hloop]; cbn [negb].
  2: { apply IH; [lia | | assumption].
       exists (pre ++ [line])%list; now rewrite <- app_assoc. }
  destruct (read_item_names lines1 [] fdl) as [[item_names fdl'] lines2] eqn:Hr.
  destruct (read_item_names_spec _ _ _ _ _ _ Hr) as (header & Hitems & Hhead & Hcase).
  cbn [app] in Hitems.
  assert (Hsuf : exists mid, lines1 = (mid ++ lines2)%list).
  { destruct Hcase as [(-> & -> & _) | (first & -> & _)].
    - exists header; now rewrite app_nil_r.
    - exists (header ++ [first])%list; now rewrite <- app_assoc. }
  destruct Hsuf as [mid Hmid].
  assert (Hfdl' : forall l, fdl' = Some l -> In l file).
  { destruct Hcase as [(_ & _ & ->) | (first & Hl & -> & _)]; [assumption |].
    intros l [= <-]; rewrite Hfile, Hl.
    apply in_or_app; right; right; apply in_or_app; right; now left. }
  assert (Hlen2 : (List.length lines2 <= fuel)%nat).
  { rewrite Hmid, length_app in Hlen; lia. }
  assert (Hskip : forall acc0,
    exists r,
      Dssp.scan fuel (skip_to_end_marker lines2) fdl' acc0 = Some r /\
      forall e, r = Raise e ->
        (exists l, In l file /\ shlex_split l = Raise e) \/
        (e = UnboundLocalError /\
         exists item_names, truncated_header file item_names /\
                            of_category Dssp.category_prefix item_names)).
  { intro acc0; destruct (skip_to_end_marker_suffix lines2) as [pre2 Hpre2].
    apply IH; [| | assumption].
    - rewrite Hpre2, length_app in Hlen2; lia.
    - exists (pre ++ line :: mid ++ pre2)%list.
      rewrite Hfile, Hmid, Hpre2 at 1.
      now rewrite <- !app_assoc, <- app_comm_cons, <- !app_assoc. }
  destruct item_names as [| name names] eqn:Hnames; [apply Hskip |].
  rewrite <- Hnames in *.
  destruct (existsb (fun n => startswith n Dssp.category_prefix) item_names) eqn:Hcat;
    cbn [negb]; [| apply Hskip].
  apply existsb_of_category in Hcat.
  destruct (map_columns_spec Dssp.category_prefix dssp_short item_names 0 [])
    as (idx_to_short & -> & Hidx & _); [intros k short [] |].
  assert (Hidx' : forall idx short, In (idx, short) idx_to_short ->
                                    (idx < List.length item_names)%nat).
  { intros idx short Hin; destruct (Hidx _ _ Hin) as [[] | [Hlt _]]; exact Hlt. }
  destruct fdl' as [first |]; cbn [read_local].
  2: { exists (Raise UnboundLocalError); split; [reflexivity |].
       intros e [= <-]; right; split; [reflexivity |].
       exists item_names; split; [| assumption].
       destruct Hcase as [(Hl & _ & _) | (first & _ & [=] & _)].
       rewrite Hfile; apply truncated_header_suffix.
       exists [], line, header; cbn [app]; subst lines1.
       repeat split; try assumption.
       intros ->; cbn in Hitems; congruence. }
  destruct (read_pending lines2 [first]) as [pending_lines lines3] eqn:Hp.
  destruct (read_pending_spec _ _ _ _ Hp) as (got & Hpend & Hgot & _).
  assert (Hnext : forall acc0,
    exists r,
      Dssp.scan fuel lines3 (Some first) acc0 = Some r /\
      forall e, r = Raise e ->
        (exists l, In l file /\ shlex_split l = Raise e) \/
        (e = UnboundLocalError /\
         exists item_names, truncated_header file item_names /\
                            of_category Dssp.category_prefix item_names)).
  { intro acc0; apply IH; [| | assumption].
    - rewrite Hgot, length_app in Hlen2; lia.
    - exists (pre ++ line :: mid ++ got)%list.
      rewrite Hfile, Hmid, Hgot at 1.
      now rewrite <- !app_assoc, <- app_comm_cons, <- !app_assoc. }
  destruct (collect_tokens pending_lines []) as [tokens | e] eqn:Hc.
  2: { exists (Raise e); split; [reflexivity |].
       intros e' [= <-]; left.
       destruct (collect_tokens_raises _ _ _ Hc) as (s & Hin & Hs).
       exists s; split; [| assumption].
       rewrite Hpend in Hin; destruct Hin as [<- | Hin]; [now apply Hfdl' |].
       rewrite Hfile, Hmid, Hgot.
       apply in_or_app; right; right; apply in_or_app; right.
       apply in_or_app; now left. }
  destruct (List.length item_names =? 0)%nat; [apply Hnext |].
  cbv zeta.
  destruct (walk_rows_returns _ (whole_rows tokens (List.length item_names))
              (List.length item_names)
              (dssp_row_body_returns idx_to_short (List.length item_names) Hidx')
              (range_step (List.length (whole_rows tokens (List.length item_names)))
                          (List.length item_names)) acc) as [acc' ->].
  apply Hnext.
Qed.


(** A property of the table that every row of every loop of the category
    keeps is a property of the parser's result. *)
Lemma dssp_scan_invariant (file : list string) (I : AnnotationTable -> Prop) :
  (forall item_names idx_to_short row acc acc',
      header_of file item_names ->
      of_category Dssp.category_prefix item_names ->
      map_columns Dssp.category_prefix 0 item_names [] = Ok idx_to_short ->
      I acc ->
      Dssp.row_body idx_to_short (List.length item_names) row acc = Ok acc' ->
      I acc') ->
  forall fuel lines first_data_line acc table,
    (exists pre, file = (pre ++ lines)%list) ->
    I acc ->
    Dssp.scan fuel lines first_data_line acc = Some (Ok table) ->
    I table.
Proof.
  intros Hbody.
  induction fuel as [| fuel IH]; intros lines fdl acc table [pre Hfile] Hacc Hscan.
  { destruct lines; [| discriminate]; now injection Hscan as <-. }
  destruct lines as [| line lines1]; [now injection Hscan as <- |].
  cbn [Dssp.scan] in Hscan.
  destruct (String.eqb_spec (strip line) "loop_") as [Hloop | Hloop]; cbn [negb] in Hscan.
  2: { eapply IH; [| exact Hacc | exact Hscan].
       exists (pre ++ [line])%list; now rewrite <- app_assoc. }
  destruct (read_item_names lines1 [] fdl) as [[item_names fdl'] lines2] eqn:Hr.
  destruct (read_item_names_spec _ _ _ _ _ _ Hr) as (header & Hitems & Hhead & Hcase).
  cbn [app] in Hitems.
  assert (Hsuf : exists mid, lines1 = (mid ++ lines2)%list).
  { destruct Hcase as [(-> & -> & _) | (first & -> & _)].
    - exists header; now rewrite app_nil_r.
    - exists (header ++ [first])%list; now rewrite <- app_assoc. }
  destruct Hsuf as [mid Hmid].
  assert (Hhd : header_of file item_names).
  { rewrite Hfile; apply header_of_suffix.
    destruct Hcase as [(Hl & _ & _) | (first & Hl & _ & Hn)].
    - exists [], line, header, []; rewrite app_nil_r; cbn [app]; subst lines1.
      now repeat split.
    - exists [], line, header, (first :: lines2); cbn [app]; subst lines1.
      now repeat split. }
  assert (Hskip : forall acc0 t0,
    I acc0 -> Dssp.scan fuel (skip_to_end_marker lines2) fdl' acc0 = Some (Ok t0) -> I t0).
  { intros acc0 t0 Hi Hs; destruct (skip_to_end_marker_suffix lines2) as [pre2 Hpre2].
    eapply IH; [| exact Hi | exact Hs].
    exists (pre ++ line :: mid ++ pre2)%list.
    rewrite Hfile, Hmid, Hpre2 at 1.
    now rewrite <- !app_assoc, <- app_comm_cons, <- !app_assoc. }
  destruct item_names as [| name names] eqn:Hnames; [now apply (Hskip acc) |].
  rewrite <- Hnames in *.
  destruct (existsb (fun n => startswith n Dssp.category_prefix) item_names) eqn:Hcat;
    cbn [negb] in Hscan; [| now apply (Hskip acc)].
  apply existsb_of_category in Hcat.
  destruct (map_columns Dssp.category_prefix 0 item_names []) as [idx_to_short | e] eqn:Hm;
    [| discriminate].
  destruct fdl' as [first |]; cbn [read_local] in Hscan; [| discriminate].
  destruct (read_pending lines2 [first]) as [pending_lines lines3] eqn:Hp.
  destruct (read_pending_spec _ _ _ _ Hp) as (got & Hpend & Hgot & _).
  assert (Hnext : forall acc0 t0,
    I acc0 -> Dssp.scan fuel lines3 (Some first) acc0 = Some (Ok t0) -> I t0).
  { intros acc0 t0 Hi Hs; eapply IH; [| exact Hi | exact Hs].
    exists (pre ++ line :: mid ++ got)%list.
    rewrite Hfile, Hmid, Hgot at 1.
    now rewrite <- !app_assoc, <- app_comm_cons, <- !app_assoc. }
  destruct (collect_tokens pending_lines []) as [tokens | e] eqn:Hc; [| discriminate].
  destruct (List.length item_names =? 0)%nat; [now apply (Hnext acc) |].
  cbv zeta in Hscan.
  match type of Hscan with
  | match ?w with _ => _ end = _ => destruct w as [acc' | e] eqn:Hw; [| discriminate]
  end.
  apply (Hnext acc'); [| exact Hscan].
  eapply walk_rows_invariant; [| exact Hacc | exact Hw].
  intros row a a' Ha Hb; eapply Hbody; eassumption.
Qed.

End DsspFacts.

(** ** [parse_pdbx_poly_seq_scheme] *)

Section SchemeFacts.

Context `{Shlex}.

Lemma scheme_row_body_returns (idx_to_short : pydict nat string) (ncols : nat) :
  (forall idx short, In (idx, short) idx_to_short -> (idx < ncols)%nat) ->
  forall row acc, exists acc', Scheme.row_body idx_to_short ncols row acc = Ok acc'.
Proof.
  intros Hidx row acc; unfold Scheme.row_body.
  destruct (List.length row <? ncols)%nat eqn:Hlen; [now exists acc |].
  apply Nat.ltb_ge in Hlen.
  destruct (extract_fields_spec row idx_to_short []) as (rv & -> & _).
  { intros idx short Hin; specialize (Hidx _ _ Hin); lia. }
  cbn [bind result_monad].
  destruct rv as [| kv rv]; [now exists acc |].
  cbv zeta.
  destruct (py_or (py_or _ _) _); [| now exists acc].
  destruct (py_or _ _); now eexists.
Qed.


Lemma scheme_scan_returns (file : list string) :
  forall fuel lines first_data_line acc,
    (List.length lines <= fuel)%nat ->
    (exists pre, file = (pre ++ lines)%list) ->
    (forall l, first_data_line = Some l -> In l file) ->
    exists r,
      Scheme.scan fuel lines first_data_line acc = Some r /\
      forall e, r = Raise e ->
        (exists l, In l file /\ shlex_split l = Raise e) \/
        (e = UnboundLocalError /\ exists item_names, truncated_header file item_names).
Proof.
  induction fuel as [| fuel IH]; intros lines fdl acc Hlen [pre Hfile] Hfdl.
  { destruct lines; [| cbn in Hlen; lia].
    exists (Ok acc); split; [reflexivity | discriminate]. }
  destruct lines as [| line lines1].
  { exists (Ok acc); split; [reflexivity | discriminate]. }
  cbn [Scheme.scan]; cbn [List.length] in Hlen.
  destruct (String.eqb_spec (strip line) "loop_") as [Hloop | Hloop]; cbn [negb].
  2: { apply IH; [lia | | assumption].
       exists (pre ++ [line])%list; now rewrite <- app_assoc. }
  destruct (read_item_names lines1 [] fdl) as [[item_names fdl'] lines2] eqn:Hr.
  destruct (read_item_names_spec _ _ _ _ _ _ Hr) as (header & Hitems & Hhead & Hcase).
  cbn [app] in Hitems.
  assert (Hsuf : exists mid, lines1 = (mid ++ lines2)%list).
  { destruct Hcase as [(-> & -> & _) | (first & -> & _)].
    - exists header; now rewrite app_nil_r.
    - exists (header ++ [first])%list; now rewrite <- app_assoc. }
  destruct Hsuf as [mid Hmid].
  assert (Hfdl' : forall l, fdl' = Some l -> In l file).
  { destruct Hcase as [(_ & _ & ->) | (first & Hl & -> & _)]; [assumption |].
    intros l [= <-]; rewrite Hfile, Hl.
    apply in_or_app; right; right; apply in_or_app; right; now left. }
  assert (Hlen2 : (List.length lines2 <= fuel)%nat).
  { rewrite Hmid, length_app in Hlen; lia. }
  assert (Hskip : forall acc0,
    exists r,
      Scheme.scan fuel (skip_to_end_marker lines2) fdl' acc0 = Some r /\
      forall e, r = Raise e ->
        (exists l, In l file /\ shlex_split l = Raise e) \/
        (e = UnboundLocalError /\ exists item_names, truncated_header file item_names)).
  { intro acc0; destruct (skip_to_end_marker_suffix lines2) as [pre2 Hpre2].
    apply IH; [| | assumption].
    - rewrite Hpre2, length_app in Hlen2; lia.
    - exists (pre ++ line :: mid ++ pre2)%list.
      rewrite Hfile, Hmid, Hpre2 at 1.
      now rewrite <- !app_assoc, <- app_comm_cons, <- !app_assoc. }
  destruct item_names as [| name names] eqn:Hnames; [apply Hskip |].
  rewrite <- Hnames in *.
  assert (Hunbound : fdl' = None ->
    exists item_names0, truncated_header file item_names0).
  { intros ->; exists item_names.
    destruct Hcase as [(Hl & _ & _) | (first & _ & [=] & _)].
    rewrite Hfile; apply truncated_header_suffix.
    exists [], line, header; cbn [app]; subst lines1.
    repeat split; try assumption.
    intros ->; cbn in Hitems; congruence. }
  assert (Hnext : forall first got lines3 acc0,
    fdl' = Some first -> lines2 = (got ++ lines3)%list ->
    exists r,
      Scheme.scan fuel lines3 (Some first) acc0 = Some r /\
      forall e, r = Raise e ->
        (exists l, In l file /\ shlex_split l = Raise e) \/
        (e = UnboundLocalError /\ exists item_names, truncated_header file item_names)).
  { intros first got lines3 acc0 Hf Hgot; apply IH.
    - rewrite Hgot, length_app in Hlen2; lia.
    - exists (pre ++ line :: mid ++ got)%list.
      rewrite Hfile, Hmid, Hgot at 1.
      now rewrite <- !app_assoc, <- app_comm_cons, <- !app_assoc.
    - intros l [= <-]; now apply Hfdl'. }
  destruct (existsb (fun n => startswith n Scheme.cat_prefix) item_names) eqn:Hcat;
    cbn [negb].
  2: { destruct fdl' as [first |]; cbn [read_local].
       2: { exists (Raise UnboundLocalError); split; [reflexivity |].
            intros e [= <-]; right; split; [reflexivity | now apply Hunbound]. }
       destruct (read_pending lines2 [first]) as [to_process lines3] eqn:Hp.
       destruct (read_pending_spec _ _ _ _ Hp) as (got & _ & Hgot & _).
       now apply (Hnext first got). }
  destruct (map_columns_spec Scheme.cat_prefix scheme_short item_names 0 [])
    as (idx_to_short & -> & Hidx & _); [intros k short [] |].
  assert (Hidx' : forall idx short, In (idx, short) idx_to_short ->
                                    (idx < List.length item_names)%nat).
  { intros idx short Hin; destruct (Hidx _ _ Hin) as [[] | [Hlt _]]; exact Hlt. }
  destruct fdl' as [first |]; cbn [read_local].
  2: { exists (Raise UnboundLocalError); split; [reflexivity |].
       intros e [= <-]; right; split; [reflexivity | now apply Hunbound]. }
  destruct (read_pending lines2 [first]) as [pending_lines lines3] eqn:Hp.
  destruct (read_pending_spec _ _ _ _ Hp) as (got & Hpend & Hgot & _).
  destruct (collect_tokens pending_lines []) as [tokens | e] eqn:Hc.
  2: { exists (Raise e); split; [reflexivity |].
       intros e' [= <-]; left.
       destruct (collect_tokens_raises _ _ _ Hc) as (s & Hin & Hs).
       exists s; split; [| assumption].
       rewrite Hpend in Hin; destruct Hin as [<- | Hin]; [now apply Hfdl' |].
       rewrite Hfile, Hmid, Hgot.
       apply in_or_app; right; right; apply in_or_app; right.
       apply in_or_app; now left. }
  destruct (List.length item_names =? 0)%nat.
  { exists (Ok acc); split; [reflexivity | discriminate]. }
  cbv zeta.
  destruct (walk_rows_returns _ (whole_rows tokens (List.length item_names))
              (List.length item_names)
              (scheme_row_body_returns idx_to_short (List.length item_names) Hidx')
              (range_step (List.length (whole_rows tokens (List.length item_names)))
                          (List.length item_names)) acc) as [acc' ->].
  now apply (Hnext first got).
Qed.



Lemma scheme_scan_invariant (file : list string) (I : AnnotationTable -> Prop) :
  (forall item_names idx_to_short row acc acc',
      header_of file item_names ->
      of_category Scheme.cat_prefix item_names ->
      map_columns Scheme.cat_prefix 0 item_names [] = Ok idx_to_short ->
      I acc ->
      Scheme.row_body idx_to_short (List.length item_names) row acc = Ok acc' ->
      I acc') ->
  forall fuel lines first_data_line acc table,
    (exists pre, file = (pre ++ lines)%list) ->
    I acc ->
    Scheme.scan fuel lines first_data_line acc = Some (Ok table) ->
    I table.
Proof.
  intros Hbody.
  induction fuel as [| fuel IH]; intros lines fdl acc table [pre Hfile] Hacc Hscan.
  { destruct lines; [| discriminate]; now injection Hscan as <-. }
  destruct lines as [| line lines1]; [now injection Hscan as <- |].
  cbn [Scheme.scan] in Hscan.
  destruct (String.eqb_spec (strip line) "loop_") as [Hloop | Hloop]; cbn [negb] in Hscan.
  2: { eapply IH; [| exact Hacc | exact Hscan].
       exists (pre ++ [line])%list; now rewrite <- app_assoc. }
  destruct (read_item_names lines1 [] fdl) as [[item_names fdl'] lines2] eqn:Hr.
  destruct (read_item_names_spec _ _ _ _ _ _ Hr) as (header & Hitems & Hhead & Hcase).
  cbn [app] in Hitems.
  assert (Hsuf : exists mid, lines1 = (mid ++ lines2)%list).
  { destruct Hcase as [(-> & -> & _) | (first & -> & _)].
    - exists header; now rewrite app_nil_r.
    - exists (header ++ [first])%list; now rewrite <- app_assoc. }
  destruct Hsuf as [mid Hmid].
  assert (Hhd : header_of file item_names).
  { rewrite Hfile; apply header_of_suffix.
    destruct Hcase as [(Hl & _ & _) | (first & Hl & _ & Hn)].
    - exists [], line, header, []; rewrite app_nil_r; cbn [app]; subst lines1.
      now repeat split.
    - exists [], line, header, (first :: lines2); cbn [app]; subst lines1.
      now repeat split. }
  assert (Hskip : forall acc0 t0,
    I acc0 -> Scheme.scan fuel (skip_to_end_marker lines2) fdl' acc0 = Some (Ok t0) -> I t0).
  { intros acc0 t0 Hi Hs; destruct (skip_to_end_marker_suffix lines2) as [pre2 Hpre2].
    eapply IH; [| exact Hi | exact Hs].
    exists (pre ++ line :: mid ++ pre2)%list.
    rewrite Hfile, Hmid, Hpre2 at 1.
    now rewrite <- !app_assoc, <- app_comm_cons, <- !app_assoc. }
  destruct item_names as [| name names] eqn:Hnames; [now apply (Hskip acc) |].
  rewrite <- Hnames in *.
  assert (Hnext : forall first got lines3 acc0 t0,
    lines2 = (got ++ lines3)%list ->
    I acc0 -> Scheme.scan fuel lines3 (Some first) acc0 = Some (Ok t0) -> I t0).
  { intros first got lines3 acc0 t0 Hgot Hi Hs; eapply IH; [| exact Hi | exact Hs].
    exists (pre ++ line :: mid ++ got)%list.
    rewrite Hfile, Hmid, Hgot at 1.
    now rewrite <- !app_assoc, <- app_comm_cons, <- !app_assoc. }
  destruct (existsb (fun n => startswith n Scheme.cat_prefix) item_names) eqn:Hcat;
    cbn [negb] in Hscan.
  2: { destruct fdl' as [first |]; cbn [read_local] in Hscan; [| discriminate].
       destruct (read_pending lines2 [first]) as [to_process lines3] eqn:Hp.
       destruct (read_pending_spec _ _ _ _ Hp) as (got & _ & Hgot & _).
       now apply (Hnext first got lines3 acc). }
  apply existsb_of_category in Hcat.
  destruct (map_columns Scheme.cat_prefix 0 item_names []) as [idx_to_short | e] eqn:Hm;
    [| discriminate].
  destruct fdl' as [first |]; cbn [read_local] in Hscan; [| discriminate].
  destruct (read_pending lines2 [first]) as [pending_lines lines3] eqn:Hp.
  destruct (read_pending_spec _ _ _ _ Hp) as (got & Hpend & Hgot & _).
  destruct (collect_tokens pending_lines []) as [tokens | e] eqn:Hc; [| discriminate].
  destruct (List.length item_names =? 0)%nat; [now injection Hscan as <- |].
  cbv zeta in Hscan.
  match type of Hscan with
  | match ?w with _ => _ end = _ => destruct w as [acc' | e] eqn:Hw; [| discriminate]
  end.
  apply (Hnext first got lines3 acc'); [assumption | | exact Hscan].
  eapply walk_rows_invariant; [| exact Hacc | exact Hw].
  intros row a a' Ha Hb; eapply Hbody; eassumption.
Qed.

End SchemeFacts.



(** ** The parsers as a whole *)

Section Parsers.

Context `{Shlex}.

(** X17. [parse_dssp_struct_summary] terminates on every file.  It raises
    nothing but an exception of [shlex.split] on a line of the file, or the
    unbound local [first_data_line] when the file ends inside the header of a
    loop of the category. *)
Theorem parse_dssp_struct_summary_returns (lines : list string) :
  exists r,
    Dssp.parse_dssp_struct_summary lines = Some r /\
    forall e, r = Raise e ->
      (exists l, In l lines /\ shlex_split l = Raise e) \/
      (e = UnboundLocalError /\
       exists item_names, truncated_header lines item_names /\
                          of_category Dssp.category_prefix item_names).
Proof.
  unfold Dssp.parse_dssp_struct_summary.
  apply dssp_scan_returns; [lia | now exists [] | discriminate].
Qed.

(** X18. [parse_pdbx_poly_seq_scheme] terminates on every file.  It raises
    nothing but an exception of [shlex.split] on a line of the file, or the
    unbound local [first_data_line] when the file ends inside the header of a
    loop, of whatever category. *)
Theorem parse_pdbx_poly_seq_scheme_returns (lines : list string) :
  exists r,
    Scheme.parse_pdbx_poly_seq_scheme lines = Some r /\
    forall e, r = Raise e ->
      (exists l, In l lines /\ shlex_split l = Raise e) \/
      (e = UnboundLocalError /\ exists item_names, truncated_header lines item_names).
Proof.
  unfold Scheme.parse_pdbx_poly_seq_scheme.
  apply scheme_scan_returns; [lia | now exists [] | discriminate].
Qed.

Lemma columns_of_header (category_prefix : string)
    (Hshort : forall name, startswith name category_prefix = true ->
                exists short, name = category_prefix ++ short /\
                              index (split_dot_once name) 1 = Ok short)
    (item_names : list string) (idx_to_short : pydict nat string)
    (row : list string) (row_vals : pydict string string) :
  map_columns category_prefix 0 item_names [] = Ok idx_to_short ->
  (List.length item_names <= List.length row)%nat ->
  extract_fields row idx_to_short [] = Ok row_vals ->
  forall name, has_column row_vals name <-> In (category_prefix ++ name) item_names.
Proof.
  intros Hm Hlen He name.
  destruct (map_columns_spec category_prefix Hshort item_names 0 [])
    as (idx' & Hm' & Hin & _ & Hall); [intros k short [] |].
  rewrite Hm in Hm'; injection Hm' as <-.
  destruct (extract_fields_spec row idx_to_short []) as (rv & He' & _ & Hget).
  { intros idx short Hi; destruct (Hin _ _ Hi) as [[] | [Hlt _]]; cbn in Hlt; lia. }
  rewrite He in He'; injection He' as <-.
  unfold has_column; rewrite Hget; split.
  - intros [[v Hv] | Hs]; [discriminate |].
    apply in_map_iff in Hs; destruct Hs as ([k short] & Hk & Hi); cbn in Hk; subst short.
    destruct (Hin _ _ Hi) as [[] | [_ Hi']]; exact Hi'.
  - intro Hi; right; destruct (Hall _ Hi) as [k Hk].
    apply in_map_iff; now exists (k, name).
Qed.

Lemma dssp_table_entries (lines : list string) (table : AnnotationTable) :
  Dssp.parse_dssp_struct_summary lines = Some (Ok table) ->
  NoDup (map fst table) /\
  forall key value, In (key, value) table ->
    exists item_names, header_of lines item_names /\ dssp_entry item_names value.
Proof.
  unfold Dssp.parse_dssp_struct_summary.
  apply (dssp_scan_invariant lines
           (fun t => NoDup (map fst t) /\
                     forall key value, In (key, value) t ->
                       exists item_names, header_of lines item_names /\
                                          dssp_entry item_names value)).
  - intros item_names idx_to_short row acc acc' Hhd Hcat Hm [Hnd Hent] Hb.
    unfold Dssp.row_body in Hb.
    destruct (List.length row <? List.length item_names)%nat eqn:Hlen;
      [injection Hb as <-; now split |].
    apply Nat.ltb_ge in Hlen.
    destruct (extract_fields row idx_to_short []) as [rv | e] eqn:He; [| discriminate].
    pose proof (columns_of_header _ dssp_short _ _ _ _ Hm Hlen He) as Hcols.
    cbn [bind result_monad] in Hb.
    destruct rv as [| kv rv'] eqn:Hrv; [injection Hb as <-; now split |].
    rewrite <- Hrv in *; clear Hrv kv rv'.
    destruct (get rv "label_asym_id") as [a |] eqn:Ha;
      [| injection Hb as <-; now split].
    destruct (get rv "label_seq_id") as [q |] eqn:Hq;
      [| injection Hb as <-; now split].
    cbv zeta in Hb; injection Hb as <-; split.
    + now apply (setitem_keys tuple_key_eq).
    + intros key value Hin.
      destruct (setitem_in tuple_key_eq _ _ _ _ _ Hin) as [[-> ->] | Hin'];
        [| exact (Hent key value Hin')].
      exists item_names; split; [assumption |].
      split; [apply Hcols; now exists a |].
      split; [apply Hcols; now exists q |].
      intros name; unfold has_column; rewrite get_filter.
      fold (has_column rv name); unfold Dssp.not_key_field.
      destruct (String.eqb_spec name "label_asym_id") as [-> | Hn1]; cbn [orb negb].
      { split; [intros [v Hv]; discriminate | intros (_ & Hn & _); now elim Hn]. }
      destruct (String.eqb_spec name "label_seq_id") as [-> | Hn2]; cbn [negb].
      { split; [intros [v Hv]; discriminate | intros (_ & _ & Hn); now elim Hn]. }
      rewrite <- Hcols; unfold has_column; tauto.
  - now exists [].
  - split; [constructor | intros key value []].
Qed.

(** X19. The table [parse_dssp_struct_summary] returns has no two entries
    with the same key, and every entry comes from a loop of the file whose
    header names both key columns: the entry has exactly the other columns
    of the category named in that header, and never the key columns. *)
Theorem dssp_entries_follow_header (lines : list string) (table : AnnotationTable) :
  Dssp.parse_dssp_struct_summary lines = Some (Ok table) ->
  NoDup (map fst table) /\
  forall key value,
    In (key, value) table ->
    get table key = Some value /\
    exists item_names, header_of lines item_names /\ dssp_entry item_names value.
Proof.
  intro Hp; destruct (dssp_table_entries lines table Hp) as [Hnd Hent].
  split; [assumption |].
  intros key value Hin; split; [| exact (Hent key value Hin)].
  now apply (get_in_unique tuple_key_eq).
Qed.

Lemma py_or_default_nonempty (a : option string) (s : string) :
  py_or a (Some " ") = Some s -> s <> "".
Proof.
  destruct a as [[| c a] |]; cbn; intros [= <-]; discriminate.
Qed.

Lemma scheme_table_entries (lines : list string) (table : AnnotationTable) :
  Scheme.parse_pdbx_poly_seq_scheme lines = Some (Ok table) ->
  NoDup (map fst table) /\
  forall key value, In (key, value) table ->
    exists item_names, header_of lines item_names /\ scheme_entry item_names key value.
Proof.
  unfold Scheme.parse_pdbx_poly_seq_scheme.
  apply (scheme_scan_invariant lines
           (fun t => NoDup (map fst t) /\
                     forall key value, In (key, value) t ->
                       exists item_names, header_of lines item_names /\
                                          scheme_entry item_names key value)).
  - intros item_names idx_to_short row acc acc' Hhd Hcat Hm [Hnd Hent] Hb.
    unfold Scheme.row_body in Hb.
    destruct (List.length row <? List.length item_names)%nat eqn:Hlen;
      [injection Hb as <-; now split |].
    apply Nat.ltb_ge in Hlen.
    destruct (extract_fields row idx_to_short []) as [rv | e] eqn:He; [| discriminate].
    pose proof (columns_of_header _ scheme_short _ _ _ _ Hm Hlen He) as Hcols.
    cbn [bind result_monad] in Hb.
    destruct rv as [| kv rv'] eqn:Hrv; [injection Hb as <-; now split |].
    rewrite <- Hrv in *; clear Hrv kv rv'.
    cbv zeta in Hb.
    destruct (py_or (py_or (get rv "pdb_strand_id") (get rv "asym_id")) (Some " "))
      as [strand |] eqn:Hs; [| injection Hb as <-; now split].
    destruct (py_or (get rv "pdb_seq_num") (get rv "auth_seq_num"))
      as [num |] eqn:Hn; [| injection Hb as <-; now split].
    injection Hb as <-; split.
    + now apply (setitem_keys tuple_key_eq).
    + intros key value Hin.
      destruct (setitem_in tuple_key_eq _ _ _ _ _ Hin) as [[-> ->] | Hin'];
        [| now apply Hent].
      exists item_names; split; [assumption |].
      split; [assumption |].
      split; [exact Hcols |].
      split; [unfold scheme_key; now rewrite Hs, Hn |].
      cbn [fst]; eapply py_or_default_nonempty; exact Hs.
  - now exists [].
  - split; [constructor | intros key value []].
Qed.

(** X20. The table [parse_pdbx_poly_seq_scheme] returns has no two entries
    with the same key, and every entry comes from a loop of the category in
    the file: it has exactly the columns of the category named in the loop's
    header (the key columns included), its key is the one its own values
    give (pdb_strand_id, else asym_id, else a blank; pdb_seq_num, else
    auth_seq_num, an empty value counting as absent), and the first component
    of the key is never empty. *)
Theorem scheme_entries_follow_header (lines : list string) (table : AnnotationTable) :
  Scheme.parse_pdbx_poly_seq_scheme lines = Some (Ok table) ->
  NoDup (map fst table) /\
  forall key value,
    In (key, value) table ->
    get table key = Some value /\
    exists item_names, header_of lines item_names /\ scheme_entry item_names key value.
Proof.
  intro Hp; destruct (scheme_table_entries lines table Hp) as [Hnd Hent].
  split; [assumption |].
  intros key value Hin; split; [| exact (Hent key value Hin)].
  now apply (get_in_unique tuple_key_eq).
Qed.

End Parsers.


Lemma item_run_header (header post : list string) :
  Forall item_line header ->
  match post with [] => True | first :: _ => ~ item_line first end ->
  item_run (header ++ post) = map strip header.
Proof.
  intros Hh Hp; induction Hh as [| line header Hl Hh IH]; cbn [app map item_run].
  - destruct post as [| first post]; [reflexivity |].
    cbn [item_run]; unfold item_line in Hp.
    now destruct (startswith (strip first) "_").
  - unfold item_line in Hl; rewrite Hl; now f_equal.
Qed.

Lemma header_of_headers (lines item_names : list string) :
  header_of lines item_names -> In item_names (headers lines).
Proof.
  intros (pre & line & header & post & -> & Hl & Hh & -> & Hp).
  induction pre as [| l pre IH]; cbn [app headers].
  - unfold loop_line in Hl; rewrite Hl.
    change ("loop_" =? "loop_") with true; cbv iota.
    left; now apply item_run_header.
  - destruct (strip l =? "loop_"); [now right | exact IH].
Qed.

(** ** From the file to the run *)

Section EndToEnd.

Context `{BioPDB} `{Shlex}.

(** X21. When every loop of the category _pdbx_poly_seq_scheme in the file
    names the columns asym_id and seq_id in its header, a run of [main] on
    the correspondence table parsed from the file returns normally, whatever
    the summary table and the structure. *)
Theorem labelled_headers_main_returns (lines : list string)
    (seqscheme_dict : AnnotationTable) :
  Scheme.parse_pdbx_poly_seq_scheme lines = Some (Ok seqscheme_dict) ->
  labelled_headers lines ->
  forall shortfilename dssp_dict structure1 s,
    fst (main shortfilename seqscheme_dict dssp_dict structure1 s) = Ok tt.
Proof.
  intros Hp Hlab shortfilename dssp_dict structure1 s.
  destruct (scheme_table_entries lines seqscheme_dict Hp) as [_ Hent].
  destruct (main shortfilename seqscheme_dict dssp_dict structure1 s) as [r s'] eqn:Hm.
  cbn [fst]; destruct r as [[] | e]; [reflexivity | exfalso].
  destruct (TableMore.main_raises_lacking seqscheme_dict dssp_dict shortfilename
              structure1 s) as (chain1_id & res & scheme & Hget & Hlack).
  { rewrite Hm; discriminate. }
  destruct (TableMore.get_in _ _ _ Hget) as [key Hin].
  destruct (Hent _ _ Hin) as (item_names & Hhd & Hcat & Hcols & _).
  destruct (Hlab item_names Hhd Hcat) as [Ha Hs].
  apply Hcols in Ha, Hs; destruct Ha as [a Ha], Hs as [q Hs].
  destruct Hlack; congruence.
Qed.

End EndToEnd.

(** ** The sample file *)

Lemma sample_file_summary :
  @Dssp.parse_dssp_struct_summary sample_shlex sample_file = Some (Ok sample_dssp).
Proof. vm_compute; reflexivity. Qed.

Lemma sample_file_scheme :
  @Scheme.parse_pdbx_poly_seq_scheme sample_shlex sample_file = Some (Ok parsed_seqscheme).
Proof. vm_compute; reflexivity. Qed.

Lemma sample_file_labelled : labelled_headers sample_file.
Proof.
  intros item_names Hh Hc; apply header_of_headers in Hh.
  vm_compute in Hh; destruct Hh as [<- | [<- | []]].
  - split; cbn; tauto.
  - exfalso; destruct Hc as (name & Hin & Hp).
    cbn in Hin; decompose [or] Hin; subst; try discriminate; contradiction.
Qed.

(** Both kinds of exception occur: a file cut off inside a loop header stops
    the correspondence parser (the summary parser skips the loop, which is not
    of its category), and an unbalanced quote stops the scan of the rows. *)
Example truncated_file_parsed :
  @Dssp.parse_dssp_struct_summary sample_shlex truncated_file = Some (Ok []) /\
  @Scheme.parse_pdbx_poly_seq_scheme sample_shlex truncated_file
  = Some (Raise UnboundLocalError).
Proof. split; vm_compute; reflexivity. Qed.

Example unbalanced_file_parsed :
  @Dssp.parse_dssp_struct_summary quote_shlex unbalanced_file
  = Some (Raise (ValueError "No closing quotation")).
Proof. vm_compute; reflexivity. Qed.

Lemma dssp_entries_follow_header_witness :
  NoDup (map fst sample_dssp) /\
  forall key value,
    In (key, value) sample_dssp ->
    get sample_dssp key = Some value /\
    exists item_names, header_of sample_file item_names /\ dssp_entry item_names value.
Proof.
  exact (@dssp_entries_follow_header sample_shlex sample_file sample_dssp
           sample_file_summary).
Defined.

Lemma scheme_entries_follow_header_witness :
  NoDup (map fst parsed_seqscheme) /\
  forall key value,
    In (key, value) parsed_seqscheme ->
    get parsed_seqscheme key = Some value /\
    exists item_names, header_of sample_file item_names /\
                       scheme_entry item_names key value.
Proof.
  exact (@scheme_entries_follow_header sample_shlex sample_file parsed_seqscheme
           sample_file_scheme).
Defined.

Lemma labelled_headers_main_returns_witness :
  fst (@main sample_bio "sample" parsed_seqscheme sample_dssp sample_structure initial)
  = Ok tt.
Proof.
  exact (@labelled_headers_main_returns sample_bio sample_shlex sample_file
           parsed_seqscheme sample_file_scheme sample_file_labelled
           "sample" sample_dssp sample_structure initial).
Defined.

End CifFacts.

(* ================================================================== *)
(** * The parsers on well-formed files *)

Module CifFlow.
Import Py Bio Run Table Search Cif CifSpec TableSpec Examples MoreExamples CifExamples.
Import CifFacts.
Local Open Scope string_scope.

Lemma read_item_names_header (header : list string) (first : string) (rest : list string) :
  Forall item_line header -> ~ item_line first ->
  forall item_names first_data_line,
    read_item_names (header ++ first :: rest) item_names first_data_line
    = ((item_names ++ map strip header)%list, Some first, rest).
Proof.
  intros Hh Hf; induction Hh as [| line header Hl Hh IH]; intros items fdl;
    cbn [app read_item_names map]; cbv zeta.
  - unfold item_line in Hf; destruct (startswith (strip first) "_"); [now elim Hf |].
    now rewrite app_nil_r.
  - unfold item_line in Hl; rewrite Hl, IH, <- app_assoc; reflexivity.
Qed.

Lemma skip_to_end_marker_data (more : list string) (marker : string) (rest : list string) :
  Forall (fun l => ~ end_marker l) more -> end_marker marker ->
  skip_to_end_marker (more ++ marker :: rest) = rest.
Proof.
  intros Hm Hk; induction Hm as [| l more Hl Hm IH]; cbn [app skip_to_end_marker].
  - unfold end_marker in Hk; now rewrite Hk.
  - unfold end_marker in Hl; destruct (String.eqb_spec (strip l) "#"); [contradiction | exact IH].
Qed.

Lemma read_pending_data (more : list string) (marker : string) (rest : list string) :
  Forall (fun l => ~ end_marker l) more -> end_marker marker ->
  forall pending_lines,
    read_pending (more ++ marker :: rest) pending_lines
    = ((pending_lines ++ more ++ [marker])%list, rest).
Proof.
  intros Hm Hk; induction Hm as [| l more Hl Hm IH]; intros pend; cbn [app read_pending].
  - unfold end_marker in Hk; now rewrite Hk.
  - unfold end_marker in Hl; destruct (String.eqb_spec (strip l) "#"); [contradiction |].
    rewrite IH, <- app_assoc; reflexivity.
Qed.

Section Flow.

Context `{Shlex}.

Lemma collect_tokens_marker (data : list string) (marker : string) :
  end_marker marker ->
  forall tokens, collect_tokens (data ++ [marker]) tokens = collect_tokens data tokens.
Proof.
  intros Hk; induction data as [| s data IH]; intros tokens; cbn [app collect_tokens].
  - unfold end_marker in Hk; rewrite Hk.
    change (("#" =? "") || ("#" =? "#")) with true; reflexivity.
  - destruct ((strip s =? "") || (strip s =? "#")); [apply IH |].
    cbn [bind result_monad]; destruct (shlex_split s); [apply IH | reflexivity].
Qed.

Lemma dssp_scan_through (lines : list string) loops :
  loops_of Dssp.category_prefix lines loops ->
  forall (after : list string) (k : AnnotationTable -> result AnnotationTable),
    (forall fuel first_data_line acc,
        (List.length after <= fuel)%nat ->
        Dssp.scan fuel after first_data_line acc = Some (k acc)) ->
    forall fuel first_data_line acc,
      (List.length (lines ++ after) <= fuel)%nat ->
      Dssp.scan fuel (lines ++ after)%list first_data_line acc
      = Some (acc' <- read_loops Dssp.category_prefix Dssp.row_body loops acc ;; k acc').
Proof.
  induction 1 as [| l rest loops Hl Hrest IH
                  | line header data marker rest loops Hwf Hcat Hrest IH
                  | line header data marker rest loops Hwf Hcat Hrest IH];
    intros after k Hk fuel fdl acc Hlen.
  - cbn [app read_loops bind result_monad]; now apply Hk.
  - destruct fuel as [| fuel]; [cbn in Hlen; lia |].
    cbn [app Dssp.scan]; unfold loop_line in Hl.
    destruct (String.eqb_spec (strip l) "loop_"); [contradiction |].
    cbn [negb]; apply IH; [assumption | cbn in Hlen; lia].
  - destruct fuel as [| fuel]; [cbn in Hlen; lia |].
    destruct Hwf as (Hloop & Hne & Hitems & Hfirst & Hdata & Hmark).
    destruct data as [| first more]; [contradiction |].
    cbn [app Dssp.scan]; unfold loop_line in Hloop; rewrite Hloop.
    change ("loop_" =? "loop_") with true; cbn [negb].
    rewrite <- !app_assoc, <- !app_comm_cons,
      (read_item_names_header header first _ Hitems Hfirst).
    cbn [app].
    inversion Hdata as [| a b Hf Hmore]; subst.
    rewrite <- app_assoc, <- app_comm_cons.
    rewrite (skip_to_end_marker_data more marker _ Hmore Hmark).
    assert (Hfuel : (List.length (rest ++ after) <= fuel)%nat).
    { repeat (cbn [List.length] in Hlen; rewrite ?length_app in Hlen).
      rewrite length_app; lia. }
    destruct (map strip header) as [| name names] eqn:Hmap; [now apply IH |].
    rewrite <- Hmap in *.
    destruct (existsb _ (map strip header)) eqn:Hex.
    + apply existsb_of_category in Hex; contradiction.
    + cbn [negb]; now apply IH.
  - destruct fuel as [| fuel]; [cbn in Hlen; lia |].
    destruct Hwf as (Hloop & Hne & Hitems & Hfirst & Hdata & Hmark).
    destruct data as [| first more]; [contradiction |].
    cbn [app Dssp.scan]; unfold loop_line in Hloop; rewrite Hloop.
    change ("loop_" =? "loop_") with true; cbn [negb].
    rewrite <- !app_assoc, <- !app_comm_cons,
      (read_item_names_header header first _ Hitems Hfirst).
    cbn [app].
    inversion Hdata as [| a b Hf Hmore]; subst.
    rewrite <- app_assoc, <- app_comm_cons.
    assert (Hfuel : (List.length (rest ++ after) <= fuel)%nat).
    { repeat (cbn [List.length] in Hlen; rewrite ?length_app in Hlen).
      rewrite length_app; lia. }
    cbn [read_loops read_loop]; cbv zeta.
    destruct (map strip header) as [| name names] eqn:Hmap.
    { destruct header; [now elim Hne | discriminate]. }
    rewrite <- Hmap in *.
    apply existsb_of_category in Hcat; rewrite Hcat; cbn [negb].
    cbn [bind result_monad].
    destruct (map_columns Dssp.category_prefix 0 (map strip header) [])
      as [idx_to_short | e]; [| reflexivity].
    cbn [read_local].
    rewrite (read_pending_data more marker _ Hmore Hmark).
    change ([first] ++ more ++ [marker])%list with ((first :: more) ++ [marker])%list.
    rewrite (collect_tokens_marker _ _ Hmark).
    destruct (collect_tokens (first :: more) []) as [tokens | e]; [| reflexivity].
    assert (Hn : (List.length (map strip header) =? 0)%nat = false).
    { rewrite Hmap; reflexivity. }
    rewrite Hn.
    destruct (walk_rows _ _ _ _ acc) as [acc' | e]; [| reflexivity].
    now apply IH.
Qed.

Lemma scheme_scan_through (lines : list string) loops :
  loops_of Scheme.cat_prefix lines loops ->
  forall (after : list string) (k : AnnotationTable -> result AnnotationTable),
    (forall fuel first_data_line acc,
        (List.length after <= fuel)%nat ->
        Scheme.scan fuel after first_data_line acc = Some (k acc)) ->
    forall fuel first_data_line acc,
      (List.length (lines ++ after) <= fuel)%nat ->
      Scheme.scan fuel (lines ++ after)%list first_data_line acc
      = Some (acc' <- read_loops Scheme.cat_prefix Scheme.row_body loops acc ;; k acc').
Proof.
  induction 1 as [| l rest loops Hl Hrest IH
                  | line header data marker rest loops Hwf Hcat Hrest IH
                  | line header data marker rest loops Hwf Hcat Hrest IH];
    intros after k Hk fuel fdl acc Hlen.
  - cbn [app read_loops bind result_monad]; now apply Hk.
  - destruct fuel as [| fuel]; [cbn in Hlen; lia |].
    cbn [app Scheme.scan]; unfold loop_line in Hl.
    destruct (String.eqb_spec (strip l) "loop_"); [contradiction |].
    cbn [negb]; apply IH; [assumption | cbn in Hlen; lia].
  - destruct fuel as [| fuel]; [cbn in Hlen; lia |].
    destruct Hwf as (Hloop & Hne & Hitems & Hfirst & Hdata & Hmark).
    destruct data as [| first more]; [contradiction |].
    cbn [app Scheme.scan]; unfold loop_line in Hloop; rewrite Hloop.
    change ("loop_" =? "loop_") with true; cbn [negb].
    rewrite <- !app_assoc, <- !app_comm_cons,
      (read_item_names_header header first _ Hitems Hfirst).
    cbn [app].
    inversion Hdata as [| a b Hf Hmore]; subst.
    rewrite <- app_assoc, <- app_comm_cons.
    assert (Hfuel : (List.length (rest ++ after) <= fuel)%nat).
    { repeat (cbn [List.length] in Hlen; rewrite ?length_app in Hlen).
      rewrite length_app; lia. }
    destruct (map strip header) as [| name names] eqn:Hmap.
    { destruct header; [now elim Hne | discriminate]. }
    rewrite <- Hmap in *.
    destruct (existsb _ (map strip header)) eqn:Hex.
    + apply existsb_of_category in Hex; contradiction.
    + cbn [negb read_local].
      rewrite (read_pending_data more marker _ Hmore Hmark).
      now apply IH.
  - destruct fuel as [| fuel]; [cbn in Hlen; lia |].
    destruct Hwf as (Hloop & Hne & Hitems & Hfirst & Hdata & Hmark).
    destruct data as [| first more]; [contradiction |].
    cbn [app Scheme.scan]; unfold loop_line in Hloop; rewrite Hloop.
    change ("loop_" =? "loop_") with true; cbn [negb].
    rewrite <- !app_assoc, <- !app_comm_cons,
      (read_item_names_header header first _ Hitems Hfirst).
    cbn [app].
    inversion Hdata as [| a b Hf Hmore]; subst.
    rewrite <- app_assoc, <- app_comm_cons.
    assert (Hfuel : (List.length (rest ++ after) <= fuel)%nat).
    { repeat (cbn [List.length] in Hlen; rewrite ?length_app in Hlen).
      rewrite length_app; lia. }
    cbn [read_loops read_loop]; cbv zeta.
    destruct (map strip header) as [| name names] eqn:Hmap.
    { destruct header; [now elim Hne | discriminate]. }
    rewrite <- Hmap in *.
    apply existsb_of_category in Hcat; rewrite Hcat; cbn [negb].
    cbn [bind result_monad].
    destruct (map_columns Scheme.cat_prefix 0 (map strip header) [])
      as [idx_to_short | e]; [| reflexivity].
    cbn [read_local].
    rewrite (read_pending_data more marker _ Hmore Hmark).
    change ([first] ++ more ++ [marker])%list with ((first :: more) ++ [marker])%list.
    rewrite (collect_tokens_marker _ _ Hmark).
    destruct (collect_tokens (first :: more) []) as [tokens | e]; [| reflexivity].
    assert (Hn : (List.length (map strip header) =? 0)%nat = false).
    { rewrite Hmap; reflexivity. }
    rewrite Hn.
    destruct (walk_rows _ _ _ _ acc) as [acc' | e]; [| reflexivity].
    now apply IH.
Qed.


Lemma read_loops_app (category_prefix : string)
    (row_body : pydict nat string -> nat -> list string -> AnnotationTable ->
                result AnnotationTable)
    (loops0 loops : list (list string * list string)) :
  forall acc,
    read_loops category_prefix row_body (loops0 ++ loops) acc
    = (acc' <- read_loops category_prefix row_body loops0 acc ;;
       read_loops category_prefix row_body loops acc').
Proof.
  induction loops0 as [| loop loops0 IH]; intros acc; cbn [app read_loops].
  - reflexivity.
  - cbn [bind result_monad].
    destruct (read_loop category_prefix row_body loop acc); [apply IH | reflexivity].
Qed.

Lemma bind_ok {A : Type} (c : result A) : (a <- c ;; Ok a) = c.
Proof. now destruct c. Qed.

Lemma scan_end_dssp (fuel : nat) (first_data_line : option string) (acc : AnnotationTable) :
  Dssp.scan fuel [] first_data_line acc = Some (Ok acc).
Proof. now destruct fuel. Qed.

Lemma scan_end_scheme (fuel : nat) (first_data_line : option string)
    (acc : AnnotationTable) :
  Scheme.scan fuel [] first_data_line acc = Some (Ok acc).
Proof. now destruct fuel. Qed.

(** X22. On a file made of well-formed loops and of other lines,
    [parse_dssp_struct_summary] returns what the loops of its category give,
    read one after the other from the empty table; the other loops and lines
    contribute nothing. *)
Theorem dssp_reads_its_loops (lines : list string) loops :
  loops_of Dssp.category_prefix lines loops ->
  Dssp.parse_dssp_struct_summary lines
  = Some (read_loops Dssp.category_prefix Dssp.row_body loops []).
Proof.
  intro Hl; unfold Dssp.parse_dssp_struct_summary.
  rewrite <- (bind_ok (read_loops _ _ loops [])).
  rewrite <- (app_nil_r lines) at 2.
  apply (dssp_scan_through lines loops Hl [] (fun acc => Ok acc)).
  - intros; apply scan_end_dssp.
  - rewrite app_nil_r; lia.
Qed.

(** X23. On a file made of well-formed loops and of other lines,
    [parse_pdbx_poly_seq_scheme] returns what the loops of its category give,
    read one after the other from the empty table; the other loops and lines
    contribute nothing. *)
Theorem scheme_reads_its_loops (lines : list string) loops :
  loops_of Scheme.cat_prefix lines loops ->
  Scheme.parse_pdbx_poly_seq_scheme lines
  = Some (read_loops Scheme.cat_prefix Scheme.row_body loops []).
Proof.
  intro Hl; unfold Scheme.parse_pdbx_poly_seq_scheme.
  rewrite <- (bind_ok (read_loops _ _ loops [])).
  rewrite <- (app_nil_r lines) at 2.
  apply (scheme_scan_through lines loops Hl [] (fun acc => Ok acc)).
  - intros; apply scan_end_scheme.
  - rewrite app_nil_r; lia.
Qed.

Lemma end_marker_no_item (marker : string) : end_marker marker -> ~ item_line marker.
Proof. unfold end_marker, item_line; intros ->; discriminate. Qed.

(** X25. A loop of another category that has a header but no data line
    makes [parse_dssp_struct_summary] skip the section that follows it, up
    to the next end marker: between well-formed parts of a file, whatever
    that section holds (loops of the category included) contributes
    nothing. *)
Theorem dssp_empty_loop_hides_section (before : list string) loops0
    (line : string) (header : list string) (marker : string)
    (section : list string) (marker' : string) (rest : list string) loops :
  loops_of Dssp.category_prefix before loops0 ->
  loop_line line -> Forall item_line header ->
  ~ of_category Dssp.category_prefix (map strip header) ->
  end_marker marker ->
  Forall (fun l => ~ end_marker l) section -> end_marker marker' ->
  loops_of Dssp.category_prefix rest loops ->
  Dssp.parse_dssp_struct_summary
    (before ++ line :: header ++ marker :: section ++ marker' :: rest)
  = Some (read_loops Dssp.category_prefix Dssp.row_body (loops0 ++ loops) []).
Proof.
  intros Hb Hloop Hitems Hcat Hmark Hsec Hmark' Hrest.
  unfold Dssp.parse_dssp_struct_summary; rewrite read_loops_app.
  apply (dssp_scan_through before loops0 Hb _
           (fun acc => read_loops Dssp.category_prefix Dssp.row_body loops acc));
    [| lia].
  intros fuel fdl acc Hlen.
  destruct fuel as [| fuel]; [cbn in Hlen; lia |].
  cbn [Dssp.scan]; unfold loop_line in Hloop; rewrite Hloop.
  change ("loop_" =? "loop_") with true; cbn [negb].
  rewrite (read_item_names_header header marker _ Hitems (end_marker_no_item _ Hmark)).
  cbn [app].
  rewrite (skip_to_end_marker_data section marker' rest Hsec Hmark').
  assert (Hgoal : Dssp.scan fuel rest (Some marker) acc
                  = Some (read_loops Dssp.category_prefix Dssp.row_body loops acc)).
  { rewrite <- (bind_ok (read_loops _ _ loops acc)).
    rewrite <- (app_nil_r rest) at 1.
    apply (dssp_scan_through rest loops Hrest [] (fun a => Ok a)).
    - intros; apply scan_end_dssp.
    - repeat (cbn [List.length] in Hlen; rewrite ?length_app in Hlen).
      rewrite app_nil_r; lia. }
  destruct (map strip header) as [| name names] eqn:Hmap; [exact Hgoal |].
  rewrite <- Hmap in *.
  destruct (existsb _ (map strip header)) eqn:Hex.
  - apply existsb_of_category in Hex; contradiction.
  - exact Hgoal.
Qed.

(** X26. The same for [parse_pdbx_poly_seq_scheme]: after a loop of another
    category with a header but no data line, the section up to the next end
    marker contributes nothing. *)
Theorem scheme_empty_loop_hides_section (before : list string) loops0
    (line : string) (header : list string) (marker : string)
    (section : list string) (marker' : string) (rest : list string) loops :
  loops_of Scheme.cat_prefix before loops0 ->
  loop_line line -> Forall item_line header ->
  ~ of_category Scheme.cat_prefix (map strip header) ->
  end_marker marker ->
  Forall (fun l => ~ end_marker l) section -> end_marker marker' ->
  loops_of Scheme.cat_prefix rest loops ->
  Scheme.parse_pdbx_poly_seq_scheme
    (before ++ line :: header ++ marker :: section ++ marker' :: rest)
  = Some (read_loops Scheme.cat_prefix Scheme.row_body (loops0 ++ loops) []).
Proof.
  intros Hb Hloop Hitems Hcat Hmark Hsec Hmark' Hrest.
  unfold Scheme.parse_pdbx_poly_seq_scheme; rewrite read_loops_app.
  apply (scheme_scan_through before loops0 Hb _
           (fun acc => read_loops Scheme.cat_prefix Scheme.row_body loops acc));
    [| lia].
  intros fuel fdl acc Hlen.
  destruct fuel as [| fuel]; [cbn in Hlen; lia |].
  cbn [Scheme.scan]; unfold loop_line in Hloop; rewrite Hloop.
  change ("loop_" =? "loop_") with true; cbn [negb].
  rewrite (read_item_names_header header marker _ Hitems (end_marker_no_item _ Hmark)).
  cbn [app].
  assert (Hgoal : Scheme.scan fuel rest (Some marker) acc
                  = Some (read_loops Scheme.cat_prefix Scheme.row_body loops acc)).
  { rewrite <- (bind_ok (read_loops _ _ loops acc)).
    rewrite <- (app_nil_r rest) at 1.
    apply (scheme_scan_through rest loops Hrest [] (fun a => Ok a)).
    - intros; apply scan_end_scheme.
    - repeat (cbn [List.length] in Hlen; rewrite ?length_app in Hlen).
      rewrite app_nil_r; lia. }
  destruct (map strip header) as [| name names] eqn:Hmap.
  { now rewrite (skip_to_end_marker_data section marker' rest Hsec Hmark'). }
  rewrite <- Hmap in *.
  destruct (existsb _ (map strip header)) eqn:Hex.
  - apply existsb_of_category in Hex; contradiction.
  - cbn [negb read_local].
    now rewrite (read_pending_data section marker' rest Hsec Hmark').
Qed.

End Flow.


(** ** The row walk *)

Lemma concat_rows_length (ncols : nat) (rows : list (list string)) :
  Forall (fun row => List.length row = ncols) rows ->
  List.length (List.concat rows) = (List.length rows * ncols)%nat.
Proof.
  induction 1 as [| row rows Hr Hrows IH]; cbn [List.concat List.length]; [reflexivity |].
  rewrite length_app, IH, Hr; lia.
Qed.

Lemma skipn_front {A : Type} (front back : list A) :
  skipn (List.length front) (front ++ back) = back.
Proof. induction front as [| a front IH]; [reflexivity | exact IH]. Qed.

Lemma firstn_front {A : Type} (front back : list A) :
  firstn (List.length front) (front ++ back) = front.
Proof. induction front as [| a front IH]; cbn; [now destruct back | now f_equal]. Qed.

Lemma range_step_whole (n ncols : nat) :
  (0 < ncols)%nat ->
  range_step (n * ncols) ncols = map (fun j => j * ncols)%nat (seq 0 n).
Proof.
  intro Hpos; unfold range_step; do 2 f_equal.
  replace (n * ncols + ncols - 1)%nat with ((ncols - 1) + n * ncols)%nat by lia.
  rewrite Nat.div_add by lia.
  rewrite Nat.div_small by lia; reflexivity.
Qed.

Lemma walk_rows_from
    (row_body : list string -> AnnotationTable -> result AnnotationTable) (ncols : nat)
    (rows : list (list string)) :
  Forall (fun row => List.length row = ncols) rows ->
  forall (front : list string) (k : nat) (acc : AnnotationTable),
    List.length front = (k * ncols)%nat ->
    walk_rows row_body (front ++ List.concat rows) ncols
              (map (fun j => j * ncols)%nat (seq k (List.length rows))) acc
    = each_row row_body rows acc.
Proof.
  induction 1 as [| row rows Hr Hrows IH]; intros front k acc Hk;
    cbn [List.concat List.length seq map walk_rows each_row]; [reflexivity |].
  assert (Hs : slice (front ++ row ++ List.concat rows) (k * ncols) ncols = row).
  { unfold slice; rewrite <- Hk, skipn_front, <- Hr; apply firstn_front. }
  rewrite Hs; cbn [bind result_monad].
  destruct (row_body row acc) as [acc' | e]; [| reflexivity].
  rewrite app_assoc; apply IH.
  rewrite length_app, Hk, Hr; lia.
Qed.

(** X24. The row walk of either parser handles the rows of the token stream
    in order, [ncols] tokens each, and nothing else: when the tokens are the
    concatenation of rows of [ncols] tokens followed by fewer than [ncols]
    further tokens, these last tokens are dropped and the walk is the body
    applied to each row in turn. *)
Theorem row_walk_visits_whole_rows
    (row_body : list string -> AnnotationTable -> result AnnotationTable)
    (ncols : nat) (rows : list (list string)) (extra : list string)
    (acc : AnnotationTable) :
  Forall (fun row => List.length row = ncols) rows ->
  (List.length extra < ncols)%nat ->
  let tokens := whole_rows (List.concat rows ++ extra) ncols in
  tokens = List.concat rows /\
  walk_rows row_body tokens ncols (range_step (List.length tokens) ncols) acc
  = each_row row_body rows acc.
Proof.
  intros Hrows Hextra.
  pose proof (concat_rows_length ncols rows Hrows) as Hlen.
  assert (Hw : whole_rows (List.concat rows ++ extra) ncols = List.concat rows).
  { unfold whole_rows; rewrite length_app, Hlen.
    replace (List.length rows * ncols + List.length extra)%nat
      with (List.length extra + List.length rows * ncols)%nat by lia.
    rewrite Nat.Div0.mod_add, Nat.mod_small by lia.
    destruct (List.length extra =? 0)%nat eqn:He; cbn [negb].
    - apply Nat.eqb_eq in He; destruct extra; [now rewrite app_nil_r | discriminate].
    - rewrite Nat.div_add, Nat.div_small by lia; cbn [Nat.add].
      rewrite <- Hlen; apply firstn_front. }
  cbv zeta; rewrite Hw; split; [reflexivity |].
  rewrite Hlen, range_step_whole by lia.
  apply (walk_rows_from row_body ncols rows Hrows [] 0 acc); reflexivity.
Qed.

(** ** The sample files *)

Lemma sample_file_loops_dssp :
  loops_of Dssp.category_prefix sample_file
           [ (["_dssp_struct_summary.label_asym_id"; "_dssp_struct_summary.label_seq_id";
               "_dssp_struct_summary.secondary_structure";
               "_dssp_struct_summary.helix_3_10"],
              ["A 2 T ." ++ newline; "A 3 T ." ++ newline]) ].
Proof.
  unfold sample_file; cbn [map].
  apply loops_line; [discriminate |].
  apply loops_line; [discriminate |].
  match goal with
  | |- loops_of _ (?l :: ?a :: ?b :: ?c :: ?d :: ?e :: ?f :: ?m :: ?r) _ =>
      apply (loops_other _ l [a; b; c; d] [e; f] m r)
  end.
  { repeat split; try reflexivity; try discriminate.
    - repeat constructor.
    - repeat constructor; discriminate. }
  { intros (name & Hin & Hp); cbn in Hin.
    decompose [or] Hin; subst; try discriminate; contradiction. }
  match goal with
  | |- loops_of _ (?l :: ?a :: ?b :: ?c :: ?d :: ?e :: ?f :: ?m :: ?r) _ =>
      apply (loops_category _ l [a; b; c; d] [e; f] m r)
  end.
  { repeat split; try reflexivity; try discriminate.
    - repeat constructor.
    - repeat constructor; discriminate. }
  { exists "_dssp_struct_summary.label_asym_id"; split; [now left | reflexivity]. }
  apply loops_end.
Qed.

Lemma sample_file_loops_scheme :
  loops_of Scheme.cat_prefix sample_file
           [ (["_pdbx_poly_seq_scheme.asym_id"; "_pdbx_poly_seq_scheme.seq_id";
               "_pdbx_poly_seq_scheme.pdb_seq_num"; "_pdbx_poly_seq_scheme.pdb_strand_id"],
              ["A 2 2 A" ++ newline; "A 3 3 A" ++ newline]) ].
Proof.
  unfold sample_file; cbn [map].
  apply loops_line; [discriminate |].
  apply loops_line; [discriminate |].
  match goal with
  | |- loops_of _ (?l :: ?a :: ?b :: ?c :: ?d :: ?e :: ?f :: ?m :: ?r) _ =>
      apply (loops_category _ l [a; b; c; d] [e; f] m r)
  end.
  { repeat split; try reflexivity; try discriminate.
    - repeat constructor.
    - repeat constructor; discriminate. }
  { exists "_pdbx_poly_seq_scheme.asym_id"; split; [now left | reflexivity]. }
  match goal with
  | |- loops_of _ (?l :: ?a :: ?b :: ?c :: ?d :: ?e :: ?f :: ?m :: ?r) _ =>
      apply (loops_other _ l [a; b; c; d] [e; f] m r)
  end.
  { repeat split; try reflexivity; try discriminate.
    - repeat constructor.
    - repeat constructor; discriminate. }
  { intros (name & Hin & Hp); cbn in Hin.
    decompose [or] Hin; subst; try discriminate; contradiction. }
  apply loops_end.
Qed.

Lemma dssp_reads_its_loops_witness :
  @Dssp.parse_dssp_struct_summary sample_shlex sample_file
  = Some (@read_loops sample_shlex Dssp.category_prefix Dssp.row_body
            [ (["_dssp_struct_summary.label_asym_id"; "_dssp_struct_summary.label_seq_id";
                "_dssp_struct_summary.secondary_structure";
                "_dssp_struct_summary.helix_3_10"],
               ["A 2 T ." ++ newline; "A 3 T ." ++ newline]) ] []).
Proof.
  exact (@dssp_reads_its_loops sample_shlex sample_file _ sample_file_loops_dssp).
Defined.

Lemma scheme_reads_its_loops_witness :
  @Scheme.parse_pdbx_poly_seq_scheme sample_shlex sample_file
  = Some (@read_loops sample_shlex Scheme.cat_prefix Scheme.row_body
            [ (["_pdbx_poly_seq_scheme.asym_id"; "_pdbx_poly_seq_scheme.seq_id";
                "_pdbx_poly_seq_scheme.pdb_seq_num"; "_pdbx_poly_seq_scheme.pdb_strand_id"],
               ["A 2 2 A" ++ newline; "A 3 3 A" ++ newline]) ] []).
Proof.
  exact (@scheme_reads_its_loops sample_shlex sample_file _ sample_file_loops_scheme).
Defined.

Lemma row_walk_visits_whole_rows_witness :
  whole_rows (List.concat [["A"; "2"; "T"; "."]; ["A"; "3"; "T"; "."]] ++ ["A"; "4"]) 4
  = List.concat [["A"; "2"; "T"; "."]; ["A"; "3"; "T"; "."]].
Proof.
  assert (Hrows : Forall (fun row : list string => List.length row = 4%nat)
                         [["A"; "2"; "T"; "."]; ["A"; "3"; "T"; "."]])
    by (repeat constructor).
  assert (Hextra : (List.length ["A"; "4"] < 4)%nat) by (cbn; lia).
  exact (proj1 (row_walk_visits_whole_rows (fun _ acc => Ok acc) 4
                  [["A"; "2"; "T"; "."]; ["A"; "3"; "T"; "."]] ["A"; "4"] []
                  Hrows Hextra)).
Defined.

Lemma dssp_empty_loop_hides_section_witness :
  @Dssp.parse_dssp_struct_summary sample_shlex hidden_file = Some (Ok []).
Proof.
  apply (@dssp_empty_loop_hides_section sample_shlex [] []
           ("loop_" ++ newline) ["_entity.id" ++ newline] ("#" ++ newline)
           (map (fun s => s ++ newline)
                [ "loop_";
                  "_dssp_struct_summary.label_asym_id";
                  "_dssp_struct_summary.label_seq_id";
                  "_dssp_struct_summary.secondary_structure";
                  "_dssp_struct_summary.helix_3_10";
                  "A 2 T ."; "A 3 T ." ])
           ("#" ++ newline) [] []).
  - apply loops_end.
  - reflexivity.
  - repeat constructor.
  - intros (name & Hin & Hp); cbn in Hin.
    decompose [or] Hin; subst; try discriminate; contradiction.
  - reflexivity.
  - cbn [map]; repeat constructor; discriminate.
  - reflexivity.
  - apply loops_end.
Defined.

Lemma scheme_empty_loop_hides_section_witness :
  @Scheme.parse_pdbx_poly_seq_scheme sample_shlex hidden_file = Some (Ok []).
Proof.
  apply (@scheme_empty_loop_hides_section sample_shlex [] []
           ("loop_" ++ newline) ["_entity.id" ++ newline] ("#" ++ newline)
           (map (fun s => s ++ newline)
                [ "loop_";
                  "_dssp_struct_summary.label_asym_id";
                  "_dssp_struct_summary.label_seq_id";
                  "_dssp_struct_summary.secondary_structure";
                  "_dssp_struct_summary.helix_3_10";
                  "A 2 T ."; "A 3 T ." ])
           ("#" ++ newline) [] []).
  - apply loops_end.
  - reflexivity.
  - repeat constructor.
  - intros (name & Hin & Hp); cbn in Hin.
    decompose [or] Hin; subst; try discriminate; contradiction.
  - reflexivity.
  - cbn [map]; repeat constructor; discriminate.
  - reflexivity.
  - apply loops_end.
Defined.

End CifFlow.

(* ================================================================== *)
(** * The distance as a chord metric *)

Module ChordMetric.

Import Py Library Search Model Examples MoreExamples.
Import Metric MetricFacts MetricMore.

Lemma sqrt_angle_distance (a b : R) :
  sqrt (angle_distance a b) = 2 * Rabs (sin (radians (a - b) / 2)).
Proof.
  rewrite angle_distance_sin.
  replace (4 * (sin (radians (a - b) / 2) * sin (radians (a - b) / 2)))
    with (Rsqr (2 * sin (radians (a - b) / 2))) by (unfold Rsqr; lra).
  rewrite sqrt_Rsqr_abs, Rabs_mult, (Rabs_pos_eq 2) by lra.
  reflexivity.
Qed.

Lemma abs_sin_plus (x y : R) : Rabs (sin (x + y)) <= Rabs (sin x) + Rabs (sin y).
Proof.
  rewrite sin_plus.
  eapply Rle_trans; [apply Rabs_triang |].
  rewrite !Rabs_mult.
  assert (Hx : Rabs (cos x) <= 1) by (apply Rabs_le; pose proof (COS_bound x); lra).
  assert (Hy : Rabs (cos y) <= 1) by (apply Rabs_le; pose proof (COS_bound y); lra).
  pose proof (Rabs_pos (sin x)); pose proof (Rabs_pos (sin y)).
  pose proof (Rabs_pos (cos x)); pose proof (Rabs_pos (cos y)).
  nra.
Qed.

Lemma chord_triangle (a b c : R) :
  sqrt (angle_distance a c) <= sqrt (angle_distance a b) + sqrt (angle_distance b c).
Proof.
  rewrite !sqrt_angle_distance.
  replace (radians (a - c) / 2)
    with (radians (a - b) / 2 + radians (b - c) / 2) by (unfold radians; lra).
  pose proof (abs_sin_plus (radians (a - b) / 2) (radians (b - c) / 2)); lra.
Qed.

Lemma angle_distance_zero (a b : R) :
  angle_distance a b = 0 <-> exists k : Z, a - b = 360 * IZR k.
Proof.
  split.
  - intro Hz; rewrite angle_distance_sin in Hz.
    assert (Hs : sin (radians (a - b) / 2) = 0) by nra.
    apply sin_eq_0_0 in Hs; destruct Hs as [k Hk].
    exists k; unfold radians in Hk.
    pose proof PI_RGT_0 as Hpi.
    apply Rmult_eq_reg_r with (r := PI / 360); [| lra].
    replace ((a - b) * (PI / 360)) with ((a - b) * (PI / 180) / 2) by lra.
    rewrite Hk; field.
  - intros [k Hk]; rewrite angle_distance_eq, Hk.
    replace (radians (360 * IZR k)) with (0 + 2 * IZR k * PI) by (unfold radians; field).
    rewrite cos_turns, cos_0; lra.
Qed.

Lemma angle_distance_no_triangle :
  angle_distance 0 60 + angle_distance 60 120 < angle_distance 0 120.
Proof.
  rewrite !angle_distance_eq.
  replace (radians (0 - 60)) with (- (PI / 3)) by (unfold radians; field).
  replace (radians (60 - 120)) with (- (PI / 3)) by (unfold radians; field).
  replace (radians (0 - 120)) with (- (2 * (PI / 3))) by (unfold radians; field).
  rewrite !cos_neg, cos_PI3, cos_2PI3; lra.
Qed.

(** X27. The square root of the per-angle distance is a metric on angles
    taken modulo 360 degrees: it satisfies the triangle inequality, and the
    distance is 0 exactly for angles that differ by whole turns.  The
    distance itself is not a metric: it breaks the triangle inequality at 0,
    60 and 120 degrees. *)
Theorem angle_distance_chord_metric :
  (forall a b c,
      sqrt (angle_distance a c) <= sqrt (angle_distance a b) + sqrt (angle_distance b c)) /\
  (forall a b, angle_distance a b = 0 <-> exists k : Z, a - b = 360 * IZR k) /\
  (exists a b c, angle_distance a b + angle_distance b c < angle_distance a c).
Proof.
  split; [exact chord_triangle | split; [exact angle_distance_zero |]].
  exists 0, 60, 120; exact angle_distance_no_triangle.
Qed.

Lemma angle_distance_relaxed (x y z : R) :
  angle_distance x z <= 2 * (angle_distance y x + angle_distance y z).
Proof.
  pose proof (chord_triangle x y z) as Ht.
  pose proof (angle_distance_range x z) as [Hxz _].
  pose proof (angle_distance_range x y) as [Hxy _].
  pose proof (angle_distance_range y z) as [Hyz _].
  rewrite (angle_distance_sym y x).
  rewrite <- (sqrt_sqrt _ Hxz), <- (sqrt_sqrt _ Hxy), <- (sqrt_sqrt _ Hyz).
  pose proof (sqrt_pos (angle_distance x z)) as Hr.
  pose proof (sqrt_pos (angle_distance x y)) as Hp.
  pose proof (sqrt_pos (angle_distance y z)) as Hq.
  set (r := sqrt (angle_distance x z)) in *.
  set (p := sqrt (angle_distance x y)) in *.
  set (q := sqrt (angle_distance y z)) in *.
  assert (Hsq : r * r <= (p + q) * (p + q)) by (apply Rmult_le_compat; lra).
  pose proof (Rle_0_sqr (p - q)) as Hd; unfold Rsqr in Hd.
  lra.
Qed.

(** X28. The score of the classifier obeys a relaxed triangle inequality:
    the mean distance between the medoids of two clusters is at most twice
    the sum of the mean distances of any window to the two clusters.  Hence
    two clusters that both lie within the cutoff 0.2359 of one window have
    medoids at mean distance at most 0.9436 of each other. *)
Theorem clusters_sharing_window_are_close (e at_c1 : Eligible) (c1 c2 : TurnCluster) :
  eligible_angles at_c1 = medoid_angles c1 ->
  mean_distance at_c1 c2 <= 2 * (mean_distance e c1 + mean_distance e c2) /\
  (mean_distance e c1 <= TURN_DIST_CUTOFF ->
   mean_distance e c2 <= TURN_DIST_CUTOFF ->
   mean_distance at_c1 c2 <= 0.9436).
Proof.
  intros Ha; unfold eligible_angles, medoid_angles in Ha.
  injection Ha as E1 E2 E3 E4 E5 E6 E7.
  assert (Hm : mean_distance at_c1 c2 <= 2 * (mean_distance e c1 + mean_distance e c2)).
  { unfold mean_distance; rewrite E1, E2, E3, E4, E5, E6, E7.
    pose proof (angle_distance_relaxed (medoid_omega2 c1) (omega2 e) (medoid_omega2 c2)).
    pose proof (angle_distance_relaxed (medoid_phi2 c1) (phi2 e) (medoid_phi2 c2)).
    pose proof (angle_distance_relaxed (medoid_psi2 c1) (psi2 e) (medoid_psi2 c2)).
    pose proof (angle_distance_relaxed (medoid_omega3 c1) (omega3 e) (medoid_omega3 c2)).
    pose proof (angle_distance_relaxed (medoid_phi3 c1) (phi3 e) (medoid_phi3 c2)).
    pose proof (angle_distance_relaxed (medoid_psi3 c1) (psi3 e) (medoid_psi3 c2)).
    pose proof (angle_distance_relaxed (medoid_omega4 c1) (omega4 e) (medoid_omega4 c2)).
    lra. }
  split; [exact Hm |].
  unfold TURN_DIST_CUTOFF; intros H1 H2; lra.
Qed.

Lemma abs_sin_le (y : R) : sin y * sin y <= y * y.
Proof.
  assert (Hpos : forall z, 0 <= z -> sin z * sin z <= z * z).
  { intros z Hz.
    destruct (Req_dec z 0) as [-> | Hne]; [rewrite sin_0; lra |].
    assert (Hlt : sin z < z) by (apply sin_lt_x; lra).
    pose proof PI_RGT_0 as Hpi.
    destruct (Rle_dec z PI) as [Hle | Hgt].
    - pose proof (sin_ge_0 z Hz Hle); nra.
    - pose proof (SIN_bound z) as [Hlo _].
      pose proof PI2_3_2; nra. }
  destruct (Rle_dec 0 y) as [Hy | Hy]; [now apply Hpos |].
  replace (sin y * sin y) with (sin (- y) * sin (- y)) by (rewrite sin_neg; lra).
  replace (y * y) with (- y * - y) by lra.
  apply Hpos; lra.
Qed.

Lemma angle_distance_small (a b : R) :
  angle_distance a b <= (a - b) / 45 * ((a - b) / 45).
Proof.
  rewrite angle_distance_sin.
  pose proof (abs_sin_le (radians (a - b) / 2)) as Hs.
  pose proof PI_RGT_0 as Hpi; pose proof PI_4 as Hpi4.
  unfold radians in *.
  assert (Hsq : PI * PI <= 16) by nra.
  pose proof (Rle_0_sqr (a - b)) as Hd; unfold Rsqr in Hd.
  replace ((a - b) * (PI / 180) / 2 * ((a - b) * (PI / 180) / 2))
    with ((a - b) * (a - b) * (PI * PI) / 129600) in Hs by field.
  replace ((a - b) / 45 * ((a - b) / 45)) with ((a - b) * (a - b) / 2025) by field.
  assert (Hm : (a - b) * (a - b) * (PI * PI) <= (a - b) * (a - b) * 16)
    by (apply Rmult_le_compat_l; assumption).
  lra.
Qed.

Lemma between_near_AB1 : mean_distance between_AB AB1 <= TURN_DIST_CUTOFF.
Proof.
  unfold mean_distance, between_AB, AB1, TURN_DIST_CUTOFF; cbn.
  rewrite !angle_distance_refl.
  pose proof (angle_distance_small (-127.0) (-137.67)).
  pose proof (angle_distance_small 138.0 155.99).
  lra.
Qed.

Lemma between_near_AB2 : mean_distance between_AB AB2 <= TURN_DIST_CUTOFF.
Proof.
  unfold mean_distance, between_AB, AB2, TURN_DIST_CUTOFF; cbn.
  pose proof (angle_distance_small 178.29 179.88).
  pose proof (angle_distance_small (-76.75) (-76.37)).
  pose proof (angle_distance_small (-33.07) (-33.97)).
  pose proof (angle_distance_small 180.05 184.30).
  pose proof (angle_distance_small (-127.0) (-116.48)).
  pose proof (angle_distance_small 138.0 120.10).
  pose proof (angle_distance_small 179.53 183.38).
  lra.
Qed.

Lemma clusters_sharing_window_are_close_witness :
  In ("AB1"%string, AB1) define_turn_library /\
  In ("AB2"%string, AB2) define_turn_library /\
  bturn_name AB1 <> bturn_name AB2 /\
  mean_distance between_AB AB1 <= TURN_DIST_CUTOFF /\
  mean_distance between_AB AB2 <= TURN_DIST_CUTOFF /\
  mean_distance at_AB1 AB2
  <= 2 * (mean_distance between_AB AB1 + mean_distance between_AB AB2) /\
  mean_distance at_AB1 AB2 <= 0.9436.
Proof.
  destruct (clusters_sharing_window_are_close between_AB at_AB1 AB1 AB2 eq_refl)
    as [Hrelaxed Hclose].
  split; [apply nth_error_In with 4%nat; reflexivity |].
  split; [apply nth_error_In with 6%nat; reflexivity |].
  split; [discriminate |].
  split; [exact between_near_AB1 |].
  split; [exact between_near_AB2 |].
  split; [exact Hrelaxed |].
  exact (Hclose between_near_AB1 between_near_AB2).
Defined.

End ChordMetric.

(* ================================================================== *)
(** * The columns [main] reads *)

Module Independence.

Import Py Bio Run Dihedral Table Library Search Model Examples TableSpec MoreExamples
       CifExamples.

Local Open Scope string_scope.

Lemma M_bind_ext {A B : Type} (c1 c2 : M A) (k1 k2 : A -> M B) (s : RunState) :
  c1 s = c2 s ->
  (forall a s', k1 a s' = k2 a s') ->
  (x <- c1 ;; k1 x) s = (x <- c2 ;; k2 x) s.
Proof.
  intros Hc Hk; cbn [bind M_monad]; rewrite Hc.
  destruct (c2 s) as [[a | e] s']; [apply Hk | reflexivity].
Qed.

Section Tables.

Context `{BioPDB}.

Variables seqscheme1 seqscheme2 dssp1 dssp2 : AnnotationTable.

Hypothesis same_scheme : same_columns ["asym_id"; "seq_id"] seqscheme1 seqscheme2.
Hypothesis same_dssp :
  same_columns ["secondary_structure"; "helix_3_10"] dssp1 dssp2.

Lemma build_row_same (chain1_id : string) (aa_residues : list Residue) (i : nat)
    (res : Residue) (s : RunState) :
  build_row seqscheme1 dssp1 chain1_id aa_residues i res s
  = build_row seqscheme2 dssp2 chain1_id aa_residues i res s.
Proof.
  unfold build_row.
  apply M_bind_ext; [reflexivity | intros phi_omega s1].
  apply M_bind_ext; [reflexivity | intros psi s2].
  cbv zeta.
  apply M_bind_ext.
  - pose proof (same_scheme (chain1_id, str_of_int (seqnum res))) as Hs.
    destruct (get seqscheme1 (chain1_id, str_of_int (seqnum res))) as [row1 |],
             (get seqscheme2 (chain1_id, str_of_int (seqnum res))) as [row2 |];
      try contradiction; [| reflexivity].
    inversion Hs as [| c l Ha Hl]; subst.
    inversion Hl as [| c l' Hq _]; subst.
    unfold subscript; now rewrite Ha, Hq.
  - intros label_key s3.
    assert (Hd : match label_key with
                 | Some key =>
                     match get dssp1 key with
                     | Some summary =>
                         (get_default summary "secondary_structure" ".",
                          get_default summary "helix_3_10" ".")
                     | None => (".", ".")
                     end
                 | None => (".", ".")
                 end
                 = match label_key with
                   | Some key =>
                       match get dssp2 key with
                       | Some summary =>
                           (get_default summary "secondary_structure" ".",
                            get_default summary "helix_3_10" ".")
                       | None => (".", ".")
                       end
                   | None => (".", ".")
                   end).
    { destruct label_key as [key |]; [| reflexivity].
      pose proof (same_dssp key) as Hk.
      destruct (get dssp1 key) as [row1 |], (get dssp2 key) as [row2 |];
        try contradiction; [| reflexivity].
      inversion Hk as [| c l Ha Hl]; subst.
      inversion Hl as [| c l' Hq _]; subst.
      unfold get_default; now rewrite Ha, Hq. }
    rewrite Hd; reflexivity.
Qed.

Lemma build_rows_from_same (chain1_id : string) (aa_residues : list Residue)
    (todo : list Residue) :
  forall i s,
    build_rows_from seqscheme1 dssp1 chain1_id aa_residues i todo s
    = build_rows_from seqscheme2 dssp2 chain1_id aa_residues i todo s.
Proof.
  induction todo as [| res todo IH]; intros i s; cbn [build_rows_from]; [reflexivity |].
  apply M_bind_ext; [apply build_row_same | intros row s1].
  apply M_bind_ext; [apply IH | reflexivity].
Qed.

Lemma build_chain_same (chain1 : Chain) (s : RunState) :
  build_chain seqscheme1 dssp1 chain1 s = build_chain seqscheme2 dssp2 chain1 s.
Proof.
  unfold build_chain; cbv zeta.
  destruct (List.length (filter is_aa (residues chain1)) <? 4)%nat; [reflexivity |].
  apply M_bind_ext; [apply build_rows_from_same | reflexivity].
Qed.

Lemma build_chains_same (cs : list Chain) :
  forall s, build_chains seqscheme1 dssp1 cs s = build_chains seqscheme2 dssp2 cs s.
Proof.
  induction cs as [| chain1 cs IH]; intros s; cbn [build_chains]; [reflexivity |].
  apply M_bind_ext; [apply build_chain_same | intros entry s1].
  apply M_bind_ext; [apply IH | reflexivity].
Qed.

Lemma build_datadict_same (structure1 : Structure) :
  forall s, build_datadict seqscheme1 dssp1 structure1 s
            = build_datadict seqscheme2 dssp2 structure1 s.
Proof.
  induction structure1 as [| model1 ms IH]; intros s; cbn [build_datadict];
    [reflexivity |].
  apply M_bind_ext; [apply build_chains_same | intros here s1].
  apply M_bind_ext; [apply IH | reflexivity].
Qed.

(** X29. [main] reads four columns of the annotator's tables and no other:
    asym_id and seq_id of the correspondence table, secondary_structure and
    helix_3_10 of the summary table.  Two runs on tables with the same keys
    that agree on these columns return the same result, print the same lines
    and end in the same state. *)
Theorem main_reads_four_columns (shortfilename : string) (structure1 : Structure)
    (s : RunState) :
  main shortfilename seqscheme1 dssp1 structure1 s
  = main shortfilename seqscheme2 dssp2 structure1 s.
Proof.
  unfold main; cbv zeta.
  apply M_bind_ext; [apply build_datadict_same | reflexivity].
Qed.

End Tables.

Lemma sample_same_scheme :
  same_columns ["asym_id"; "seq_id"] sample_seqscheme parsed_seqscheme.
Proof.
  intros key; unfold sample_seqscheme, parsed_seqscheme; cbn [get].
  destruct (key_eqb ("A", "2") key); [repeat constructor |].
  destruct (key_eqb ("A", "3") key); [repeat constructor | exact I].
Qed.

Lemma sample_same_dssp :
  same_columns ["secondary_structure"; "helix_3_10"] sample_dssp sample_dssp.
Proof.
  intros key; destruct (get sample_dssp key); [| exact I].
  repeat constructor.
Qed.

Lemma main_reads_four_columns_witness :
  @main sample_bio "sample" sample_seqscheme sample_dssp sample_structure initial
  = @main sample_bio "sample" parsed_seqscheme sample_dssp sample_structure initial.
Proof.
  exact (@main_reads_four_columns sample_bio sample_seqscheme parsed_seqscheme
           sample_dssp sample_dssp sample_same_scheme sample_same_dssp
           "sample" sample_structure initial).
Defined.

End Independence.
